(** * bg3-hud-dnd5e: the D&D 5e adapter of the BG3 HUD, as state-passing code

    The adapter is a set of asynchronous handlers that the virtual tabletop
    calls.  Every handler reads and writes objects that the host owns
    (documents, actors, settings, the HUD application).  The embedding below
    keeps that shape: a [World] record holds what the host owns, every host
    call is a primitive of a small state-and-exception monad [M] that also
    appends an [Event] to a trace, and each handler of the source is a
    definition of the same name written with the same control flow.

    JavaScript is single threaded and the handlers only [await] host promises
    one after the other, so an [await] is sequential composition in [M];
    handlers interleaving at an [await] are outside the model. *)

From stdpp Require Import gmap strings list pretty.
From Stdlib Require Import ZArith Ascii Sorted Permutation.

Local Open Scope string_scope.

(** ** Documents and the data the host owns *)

Definition MODULE_ID : string := "bg3-hud-dnd5e".

(** [exportSource], an object of the host; only its presence matters here. *)
Record ExportSource := { es_world : string; es_system : string }.

(** A member of [system.contents]: a uuid string, or a document-like object
    that may carry a [uuid]. *)
Inductive Content :=
| ContentUuid (u : string)
| ContentDoc (uuid : option string).

Record Uses := { uses_value : option Z; uses_max : option Z }.

Record ItemSystem := {
  sys_quantity : option Z;
  sys_uses : option Uses;
  sys_contents : option (list Content)
}.

(** The plain object [item.toObject()] returns. *)
Record ItemData := {
  data_id : option string;                        (* _id *)
  data_name : string;
  data_img : string;
  data_type : string;
  data_system : option ItemSystem;
  data_stats : option (option ExportSource);      (* _stats, and _stats.exportSource *)
  data_flags : option (option ExportSource)       (* flags, and flags.exportSource *)
}.

(** An Item document: the source data plus what the document class adds. *)
Record Item := {
  item_uuid : string;
  item_parent : option string;    (* the actor that embeds it; None in a compendium *)
  item_has_use : bool;            (* typeof item.use === 'function' *)
  item_source : ItemData
}.

Definition item_id (it : Item) : option string := data_id (item_source it).
Definition item_name (it : Item) : string := data_name (item_source it).
Definition item_img (it : Item) : string := data_img (item_source it).
Definition item_type (it : Item) : string := data_type (item_source it).
Definition item_system (it : Item) : option ItemSystem := data_system (item_source it).
Definition toObject (it : Item) : ItemData := item_source it.

Inductive FlagValue := FStr (s : string) | FBool (b : bool).

Global Instance FlagValue_eq_dec : EqDecision FlagValue.
Proof. solve_decision. Defined.

Record Actor := {
  actor_id : string;
  actor_name : string;
  actor_items : list Item;                 (* the items collection, in insertion order *)
  actor_flags : gmap string FlagValue;     (* flags under MODULE_ID *)
  actor_has_shortRest : bool;              (* typeof actor.shortRest === 'function' *)
  actor_has_longRest : bool
}.

(** Cell data of a hotbar or container grid. *)
Record CellExtra := {
  cx_name : string;
  cx_img : string;
  cx_quantity : Z;
  cx_uses : option (Z * Z)
}.

Record CellData := {
  cell_uuid : string;
  cell_type : string;
  cell_extra : option CellExtra
}.

Record Grid := {
  grid_rows : nat;
  grid_cols : nat;
  grid_items : option (gmap string CellData)
}.

(** The persisted HUD state of an actor, as far as the adapter looks at it:
    [quickAccess] may be missing and [quickAccess.grids] may not be an array. *)
Record HudState := {
  hs_quickAccess : option (option (list Grid))
}.

(** The HUD application object [ui.BG3HUD_APP]. *)
Record Hud := {
  hud_currentActor : option string;
  hud_situationalBonuses_clearState : bool
    (* components.situationalBonuses exists and has a clearState function *)
}.

Record TooltipManager := { tooltipElement : option string (* its id *) }.

Record World := {
  system_id : string;                          (* game.system.id *)
  rulesVersion : string;                       (* game.settings.get('dnd5e','rulesVersion') *)
  active_modules : gset string;                (* game.modules.get(id)?.active *)
  bool_settings : gmap string bool;            (* boolean settings of MODULE_ID *)
  list_settings : gmap string (list string);   (* array settings of MODULE_ID *)
  packs : gmap string (list (string * string));(* game.packs: index entries (id, name) *)
  compendium : gmap string Item;               (* compendium documents by uuid *)
  actors : list Actor;
  hud : option Hud;                            (* ui.BG3HUD_APP *)
  controlled_actor : option string;            (* canvas.tokens.controlled[0].actor *)
  hud_states : gmap string HudState;           (* persisted state, by actor id *)
  tooltip_manager : option TooltipManager;
  advantageHooksRegistered : bool;             (* the module-level flag *)
  id_counter : nat;                            (* the host's source of new ids *)
  create_returns_document : bool;              (* false: a preCreate hook vetoed *)
  created_has_use : bool;                      (* the system's Item class defines use() *)
  fetch_ok : bool;
  persistence_ok : bool;                       (* the dynamic import and its calls succeed *)
  broken_imports : gset string                 (* scripts whose dynamic import rejects *)
}.

Definition with_actors (f : list Actor → list Actor) (w : World) : World :=
  {| system_id := system_id w; rulesVersion := rulesVersion w;
     active_modules := active_modules w; bool_settings := bool_settings w;
     list_settings := list_settings w; packs := packs w;
     compendium := compendium w; actors := f (actors w); hud := hud w;
     controlled_actor := controlled_actor w; hud_states := hud_states w;
     tooltip_manager := tooltip_manager w;
     advantageHooksRegistered := advantageHooksRegistered w;
     id_counter := id_counter w;
     create_returns_document := create_returns_document w;
     created_has_use := created_has_use w; fetch_ok := fetch_ok w;
     persistence_ok := persistence_ok w;
     broken_imports := broken_imports w |}.

Definition with_id_counter (n : nat) (w : World) : World :=
  {| system_id := system_id w; rulesVersion := rulesVersion w;
     active_modules := active_modules w; bool_settings := bool_settings w;
     list_settings := list_settings w; packs := packs w;
     compendium := compendium w; actors := actors w; hud := hud w;
     controlled_actor := controlled_actor w; hud_states := hud_states w;
     tooltip_manager := tooltip_manager w;
     advantageHooksRegistered := advantageHooksRegistered w;
     id_counter := n;
     create_returns_document := create_returns_document w;
     created_has_use := created_has_use w; fetch_ok := fetch_ok w;
     persistence_ok := persistence_ok w;
     broken_imports := broken_imports w |}.

Definition with_list_settings (f : gmap string (list string) → gmap string (list string))
    (w : World) : World :=
  {| system_id := system_id w; rulesVersion := rulesVersion w;
     active_modules := active_modules w; bool_settings := bool_settings w;
     list_settings := f (list_settings w); packs := packs w;
     compendium := compendium w; actors := actors w; hud := hud w;
     controlled_actor := controlled_actor w; hud_states := hud_states w;
     tooltip_manager := tooltip_manager w;
     advantageHooksRegistered := advantageHooksRegistered w;
     id_counter := id_counter w;
     create_returns_document := create_returns_document w;
     created_has_use := created_has_use w; fetch_ok := fetch_ok w;
     persistence_ok := persistence_ok w;
     broken_imports := broken_imports w |}.

Definition with_hud_states (f : gmap string HudState → gmap string HudState)
    (w : World) : World :=
  {| system_id := system_id w; rulesVersion := rulesVersion w;
     active_modules := active_modules w; bool_settings := bool_settings w;
     list_settings := list_settings w; packs := packs w;
     compendium := compendium w; actors := actors w; hud := hud w;
     controlled_actor := controlled_actor w; hud_states := f (hud_states w);
     tooltip_manager := tooltip_manager w;
     advantageHooksRegistered := advantageHooksRegistered w;
     id_counter := id_counter w;
     create_returns_document := create_returns_document w;
     created_has_use := created_has_use w; fetch_ok := fetch_ok w;
     persistence_ok := persistence_ok w;
     broken_imports := broken_imports w |}.

Definition with_tooltip_manager (t : option TooltipManager) (w : World) : World :=
  {| system_id := system_id w; rulesVersion := rulesVersion w;
     active_modules := active_modules w; bool_settings := bool_settings w;
     list_settings := list_settings w; packs := packs w;
     compendium := compendium w; actors := actors w; hud := hud w;
     controlled_actor := controlled_actor w; hud_states := hud_states w;
     tooltip_manager := t;
     advantageHooksRegistered := advantageHooksRegistered w;
     id_counter := id_counter w;
     create_returns_document := create_returns_document w;
     created_has_use := created_has_use w; fetch_ok := fetch_ok w;
     persistence_ok := persistence_ok w;
     broken_imports := broken_imports w |}.

Definition with_advantageHooksRegistered (b : bool) (w : World) : World :=
  {| system_id := system_id w; rulesVersion := rulesVersion w;
     active_modules := active_modules w; bool_settings := bool_settings w;
     list_settings := list_settings w; packs := packs w;
     compendium := compendium w; actors := actors w; hud := hud w;
     controlled_actor := controlled_actor w; hud_states := hud_states w;
     tooltip_manager := tooltip_manager w;
     advantageHooksRegistered := b;
     id_counter := id_counter w;
     create_returns_document := create_returns_document w;
     created_has_use := created_has_use w; fetch_ok := fetch_ok w;
     persistence_ok := persistence_ok w;
     broken_imports := broken_imports w |}.

(** ** Reading the world *)

(** [ui.BG3HUD_APP?.currentActor] *)
Definition currentActor (w : World) : option string := hud w ≫= hud_currentActor.

Definition get_actor (w : World) (aid : string) : option Actor :=
  find (λ a, String.eqb (actor_id a) aid) (actors w).

(** A flag of an actor under MODULE_ID. *)
Definition flag_of (w : World) (actor key : string) : option FlagValue :=
  get_actor w actor ≫= (λ a, actor_flags a !! key).

Definition items_of (w : World) (aid : string) : list Item :=
  match get_actor w aid with
  | Some a => actor_items a
  | None => []
  end.

Definition has_id (id : string) (it : Item) : bool :=
  match item_id it with
  | Some i => String.eqb i id
  | None => false
  end.

(** [actor.items.has(id)] *)
Definition items_has (w : World) (aid id : string) : bool :=
  existsb (has_id id) (items_of w aid).

Definition update_actor (aid : string) (f : Actor → Actor) (w : World) : World :=
  with_actors (map (λ a, if String.eqb (actor_id a) aid then f a else a)) w.

Definition set_items (f : list Item → list Item) (a : Actor) : Actor :=
  {| actor_id := actor_id a; actor_name := actor_name a;
     actor_items := f (actor_items a); actor_flags := actor_flags a;
     actor_has_shortRest := actor_has_shortRest a;
     actor_has_longRest := actor_has_longRest a |}.

Definition set_flags (f : gmap string FlagValue → gmap string FlagValue) (a : Actor) : Actor :=
  {| actor_id := actor_id a; actor_name := actor_name a;
     actor_items := actor_items a; actor_flags := f (actor_flags a);
     actor_has_shortRest := actor_has_shortRest a;
     actor_has_longRest := actor_has_longRest a |}.

(** What a uuid string resolves to: a compendium document, or else an item
    embedded on some actor. *)
Definition resolve_uuid (w : World) (u : string) : option Item :=
  match compendium w !! u with
  | Some it => Some it
  | None => find (λ it, String.eqb (item_uuid it) u) (concat (map actor_items (actors w)))
  end.

(** JavaScript truthiness of the values the handlers test. *)
Definition truthy_str (s : string) : bool := negb (String.eqb s "").
Definition truthy_flag (v : option FlagValue) : bool :=
  match v with
  | Some (FStr s) => truthy_str s
  | Some (FBool b) => b
  | None => false
  end.

(** [x || d] on a number that may be undefined. *)
Definition num_or (x : option Z) (d : Z) : Z :=
  match x with
  | Some v => if Z.eqb v 0 then d else v
  | None => d
  end.

(** The id the host gives the next document it creates. *)
Definition randomID (w : World) : string := "Item" +:+ pretty (id_counter w).

(** ** Events and the monad *)

Inductive Registration :=
| RegPortraitContainer | RegPassivesContainer | RegWeaponSetContainer
| RegActionButtonsContainer | RegFilterContainer | RegInfoContainer
| RegContainer (name : string)
| RegAdapter
| RegMenuBuilder (system : string)
| RegTooltipRenderer (system : string).

Inductive Event :=
| ConsoleLog (msg : string)
| ConsoleWarn (msg : string)
| ConsoleError (msg : string)
| NotifyWarn (key : string)            (* ui.notifications.warn(localize(key)) *)
| NotifyError (key : string)
| FromUuid (ref : Content)
| SettingsGet (ns key : string)
| SettingsSet (ns key : string) (v : list string)
| PacksGet (id : string)
| PackGetIndex (id : string)
| CreateEmbedded (actor : string) (d : ItemData) (noBG3AutoAdd : bool)
| DeleteEmbedded (actor id : string)
| ItemUse (it : Item)
| MacroExecute (uuid : string)
| SetTimeout (ms : nat)
| ImportPersistenceManager
| ImportScript (path : string)
| LoadState (actor : string)
| SaveState (actor : string) (s : HudState)
| HudRefresh
| ButtonChoiceDialog (actions : list string)
| ShortRest (actor : string)
| LongRest (actor : string)
| GetFlag (actor key : string)
| UnsetFlag (actor key : string)
| ClearState
| HandlebarsHelper (name : string)
| Fetch (url : string)
| HandlebarsPartial (name : string)
| Register (r : Registration)
| HooksOn (event : string)
| HooksCall (event : string).

Inductive Exn :=
| TypeError (msg : string)
| HostError (msg : string).

Inductive Res (A : Type) :=
| Ret (a : A)
| Throw (e : Exn).
Arguments Ret {A} a.
Arguments Throw {A} e.

Record St := { st_world : World; st_trace : list Event }.

Definition M (A : Type) : Type := St → Res A * St.

Global Instance M_ret : MRet M := λ A a s, (Ret a, s).
Global Instance M_bind : MBind M := λ A B f m s,
  match m s with
  | (Ret a, s') => f a s'
  | (Throw e, s') => (Throw e, s')
  end.

Definition emit (e : Event) : M unit := λ s,
  (Ret tt, {| st_world := st_world s; st_trace := (st_trace s ++ [e])%list |}).

Definition gets {A} (f : World → A) : M A := λ s, (Ret (f (st_world s)), s).

Definition modify (f : World → World) : M unit := λ s,
  (Ret tt, {| st_world := f (st_world s); st_trace := st_trace s |}).

Definition throw {A} (e : Exn) : M A := λ s, (Throw e, s).

(** [try { m } catch (error) { h error }] *)
Definition try_catch {A} (m : M A) (h : Exn → M A) : M A := λ s,
  match m s with
  | (Throw e, s') => h e s'
  | r => r
  end.

(** [try { m } finally { f }]: [f] runs on both exits; if [f] throws, its
    exception replaces the outcome of [m]. *)
Definition try_finally {A} (m : M A) (f : M unit) : M A := λ s,
  match m s with
  | (r, s') =>
      match f s' with
      | (Ret _, s'') => (r, s'')
      | (Throw e, s'') => (Throw e, s'')
      end
  end.

(** A handler run from a world, with an empty trace. *)
Definition run {A} (m : M A) (w : World) : Res A * St :=
  m {| st_world := w; st_trace := [] |}.

Definition outcome {A} (r : Res A * St) : Res A := fst r.
Definition world_of {A} (r : Res A * St) : World := st_world (snd r).
Definition trace_of {A} (r : Res A * St) : list Event := st_trace (snd r).

Definition returns_normally {A} (r : Res A * St) : bool :=
  match outcome r with
  | Ret _ => true
  | Throw _ => false
  end.

(** ** Host calls *)

Definition console_log (msg : string) : M unit := emit (ConsoleLog msg).
Definition console_warn (msg : string) : M unit := emit (ConsoleWarn msg).
Definition console_error (msg : string) : M unit := emit (ConsoleError msg).
Definition notifications_warn (key : string) : M unit := emit (NotifyWarn key).
Definition notifications_error (key : string) : M unit := emit (NotifyError key).

(** [fromUuid(ref)]: a string is looked up, anything else resolves to nothing. *)
Definition resolve_ref (w : World) (ref : Content) : option Item :=
  match ref with
  | ContentUuid u => resolve_uuid w u
  | ContentDoc _ => None
  end.

Definition fromUuid (ref : Content) : M (option Item) :=
  emit (FromUuid ref);;
  gets (λ w, resolve_ref w ref).

(** [game.modules.get(id)?.active] *)
Definition module_active (id : string) : M bool :=
  gets (λ w, bool_decide (id ∈ active_modules w)).

Definition get_rulesVersion : M string :=
  emit (SettingsGet "dnd5e" "rulesVersion");; gets rulesVersion.

Definition settings_get_bool (key : string) : M bool :=
  emit (SettingsGet MODULE_ID key);;
  gets (λ w, default false (bool_settings w !! key)).

Definition settings_get_list (key : string) : M (option (list string)) :=
  emit (SettingsGet MODULE_ID key);;
  gets (λ w, list_settings w !! key).

Definition settings_set_list (key : string) (v : list string) : M unit :=
  emit (SettingsSet MODULE_ID key v);;
  modify (with_list_settings (insert key v)).

Definition packs_get (id : string) : M (option (list (string * string))) :=
  emit (PacksGet id);; gets (λ w, packs w !! id).

(** The document the host builds from [d] on actor [aid]. *)
Definition build_embedded (w : World) (aid : string) (d : ItemData) : Item :=
  let id := randomID w in
  {| item_uuid := "Actor." +:+ aid +:+ ".Item." +:+ id;
     item_parent := Some aid;
     item_has_use := created_has_use w;
     item_source :=
       {| data_id := Some id; data_name := data_name d; data_img := data_img d;
          data_type := data_type d; data_system := data_system d;
          data_stats := data_stats d; data_flags := data_flags d |} |}.

(** [actor.createEmbeddedDocuments('Item', [d], options)], returning
    [created?.[0]]: the new document joins the actor's items, unless the host
    returns nothing. *)
Definition createEmbeddedDocuments (aid : string) (d : ItemData) (noBG3AutoAdd : bool)
    : M (option Item) :=
  emit (CreateEmbedded aid d noBG3AutoAdd);;
  ok ← gets create_returns_document;
  if ok : bool then
    it ← gets (λ w, build_embedded w aid d);
    modify (λ w, with_id_counter (S (id_counter w))
                   (update_actor aid (set_items (λ l, (l ++ [it])%list)) w));;
    mret (Some it)
  else mret None.

(** [actor.deleteEmbeddedDocuments('Item', [id])] *)
Definition deleteEmbeddedDocuments (aid id : string) : M unit :=
  emit (DeleteEmbedded aid id);;
  modify (update_actor aid (set_items (List.filter (λ it, negb (has_id id it))))).

Definition sleep (ms : nat) : M unit := emit (SetTimeout ms).

(** ** JavaScript library functions *)

(** [Array.prototype.sort(cmp)] is a stable sort: an element moves in front of
    another only when [cmp] says it is strictly smaller.  Insertion from the
    right is such a sort. *)
Fixpoint js_insert {A} (cmp : A → A → Z) (x : A) (l : list A) : list A :=
  match l with
  | [] => [x]
  | y :: ys => if (cmp x y <=? 0)%Z then x :: y :: ys else y :: js_insert cmp x ys
  end.

Fixpoint js_sort {A} (cmp : A → A → Z) (l : list A) : list A :=
  match l with
  | [] => []
  | x :: xs => js_insert cmp x (js_sort cmp xs)
  end.

(** The template string [`${col}-${row}`]. *)
Definition slotKey (col row : string) : string := col +:+ "-" +:+ row.

(** [Math.ceil(n / d)] on naturals, [d > 0]. *)
Definition ceil_div (n d : nat) : nat :=
  if (n mod d =? 0)%nat then (n / d)%nat else S (n / d).

(** ** What the host does when the adapter hands over control

    [item.use()], [macro.execute()], the rests and the HUD refresh belong to
    the game system and to the HUD core.  They may change the world in any way
    and may throw; the choice a user makes in a dialog and the collation
    order of [localeCompare] are the host's as well.  [clearState] of the
    situational bonuses container is a parameter too, for want of its source. *)
Record Host := {
  host_use : Item → World → Res unit * World;
  host_macro_execute : string → World → Res unit * World;
  host_shortRest : string → World → Res unit * World;
  host_longRest : string → World → Res unit * World;
  host_refresh : World → Res unit * World;
  host_clearState : World → World;
  host_dialog_choice : World → option string;
  host_localeCompare : string → string → Z
}.

Definition lift_host {A} (f : World → Res A * World) : M A := λ s,
  let (r, w') := f (st_world s) in
  (r, {| st_world := w'; st_trace := st_trace s |}).

Section Adapter.

Context (H : Host).

(** [await item.use({ event })] *)
Definition item_use (it : Item) : M unit :=
  emit (ItemUse it);; lift_host (host_use H it).

(** [await macro.execute()] *)
Definition macro_execute (uuid : string) : M unit :=
  emit (MacroExecute uuid);; lift_host (host_macro_execute H uuid).

(** *** scripts/module.js: DnD5eAdapter *)

(** [foundry.utils.deepClone] of a plain object: the copy shares nothing with
    the original, which for immutable values is the value itself. *)
Definition deepClone (d : ItemData) : ItemData := d.

(** [if (!data._stats) data._stats = {};] *)
Definition ensure_stats (d : ItemData) : ItemData :=
  match data_stats d with
  | Some _ => d
  | None =>
      {| data_id := data_id d; data_name := data_name d; data_img := data_img d;
         data_type := data_type d; data_system := data_system d;
         data_stats := Some None; data_flags := data_flags d |}
  end.

(** [if (data.flags?.exportSource && !data._stats.exportSource)
       { data._stats.exportSource = data.flags.exportSource;
         delete data.flags.exportSource; }] *)
Definition move_exportSource (d : ItemData) : ItemData :=
  match data_flags d, data_stats d with
  | Some (Some es), Some None =>
      {| data_id := data_id d; data_name := data_name d; data_img := data_img d;
         data_type := data_type d; data_system := data_system d;
         data_stats := Some (Some es); data_flags := Some None |}
  | _, _ => d
  end.

(** [delete data._id;] *)
Definition delete_id (d : ItemData) : ItemData :=
  {| data_id := None; data_name := data_name d; data_img := data_img d;
     data_type := data_type d; data_system := data_system d;
     data_stats := data_stats d; data_flags := data_flags d |}.

(** [resolved.parent ?? ui.BG3HUD_APP?.currentActor
      ?? canvas?.tokens?.controlled?.[0]?.actor ?? null] *)
Definition actor_for (w : World) (resolved : Item) : option string :=
  match item_parent resolved with
  | Some a => Some a
  | None =>
      match currentActor w with
      | Some a => Some a
      | None => controlled_actor w
      end
  end.

(** [if (createdItemId && actor.items.has(createdItemId))
       await actor.deleteEmbeddedDocuments('Item', [createdItemId]);]
    The source writes this statement twice, in the [finally] block and in the
    branch of an item without [use]. *)
Definition delete_created (createdItemId : option string) (actor : string) : M unit :=
  match createdItemId with
  | Some id =>
      has ← gets (λ w, items_has w actor id);
      if truthy_str id && has then deleteEmbeddedDocuments actor id else mret tt
  | None => mret tt
  end.

Definition _useItem (uuid : string) : M unit :=
  resolved ← fromUuid (ContentUuid uuid);
  match resolved with
  | None => notifications_warn (MODULE_ID +:+ ".Notifications.ItemNotFound")
  | Some resolved =>
      let isEmbedded := bool_decide (is_Some (item_parent resolved)) in
      actor ← gets (λ w, actor_for w resolved);
      match actor with
      | None => notifications_warn (MODULE_ID +:+ ".Notifications.ItemCannotBeUsed")
      | Some actor =>
          used ← (if isEmbedded then mret (Some resolved, None)
                  else
                    let data := deepClone (toObject resolved) in
                    let data := ensure_stats data in
                    let data := move_exportSource data in
                    let data := delete_id data in
                    created ← createEmbeddedDocuments actor data false;
                    mret (created, created ≫= item_id));
          let '(itemToUse, createdItemId) := used in
          match itemToUse with
          | None => notifications_warn (MODULE_ID +:+ ".Notifications.ItemNotFound")
          | Some itemToUse =>
              console_log "D&D 5e Adapter | Using item:";;
              if item_has_use itemToUse then
                try_finally (item_use itemToUse) (delete_created createdItemId actor)
              else
                delete_created createdItemId actor;;
                notifications_warn (MODULE_ID +:+ ".Notifications.ItemCannotBeUsed")
          end
      end
  end.

Definition _executeMacro (uuid : string) : M unit :=
  macro ← fromUuid (ContentUuid uuid);
  match macro with
  | None => notifications_warn (MODULE_ID +:+ ".Notifications.MacroNotFound")
  | Some _ =>
      console_log "D&D 5e Adapter | Executing macro:";;
      macro_execute uuid
  end.

(** [cell.data] may be missing; its [type] selects the handler. *)
Definition onCellClick (data : option CellData) : M unit :=
  match data with
  | None => mret tt
  | Some data =>
      console_log "D&D 5e Adapter | Cell clicked:";;
      if String.eqb (cell_type data) "Item" then _useItem (cell_uuid data)
      else if String.eqb (cell_type data) "Macro" then _executeMacro (cell_uuid data)
      else console_warn "D&D 5e Adapter | Unknown cell data type:"
  end.

(** *** scripts/components/containers/DnD5eCPRGenericActionsContainer.js *)

Definition CPR_GENERIC_ACTIONS_UUIDS_legacy : string :=
  "Compendium.chris-premades.CPRMiscellaneous.Item.V0rdpb8WPmdYhAjc".
Definition CPR_GENERIC_ACTIONS_UUIDS_modern : string :=
  "Compendium.chris-premades.CPRMiscellaneous.Item.Iz2XtxLReLnXTDiI".

(** The names every object literal answers to besides its own keys: the
    properties of [Object.prototype].  Their values are functions, or the
    prototype itself, and none of them is falsy. *)
Definition Object_prototype_names : list string :=
  [ "constructor"; "__defineGetter__"; "__defineSetter__"; "hasOwnProperty";
    "__lookupGetter__"; "__lookupSetter__"; "isPrototypeOf"; "propertyIsEnumerable";
    "toString"; "valueOf"; "__proto__"; "toLocaleString" ].

(** [CPR_GENERIC_ACTIONS_UUIDS[rulesVersion] || CPR_GENERIC_ACTIONS_UUIDS.modern]:
    the uuid under an own key, a value that is no string under an inherited
    name, and the modern uuid for every other rules version. *)
Definition getCPRGenericActionsUUID : M Content :=
  rulesVersion ← get_rulesVersion;
  mret (if String.eqb rulesVersion "legacy" then ContentUuid CPR_GENERIC_ACTIONS_UUIDS_legacy
        else if String.eqb rulesVersion "modern"
             then ContentUuid CPR_GENERIC_ACTIONS_UUIDS_modern
        else if existsb (String.eqb rulesVersion) Object_prototype_names
             then ContentDoc None
        else ContentUuid CPR_GENERIC_ACTIONS_UUIDS_modern).

(** [this_actor] is [this.actor], which the constructor sets to
    [options.actor || null]. *)
Definition _onClick (this_actor : option string) : M unit :=
  let use_actorItem (actorItem : Item) : M unit :=
    if item_has_use actorItem then item_use actorItem
    else notifications_warn (MODULE_ID +:+ ".Notifications.ItemCannotBeUsed") in
  try_catch
    (rulesVersion ← get_rulesVersion;
     let itemName := if String.eqb rulesVersion "modern"
                     then "Generic Actions (2024)" else "Generic Actions (2014)" in
     match this_actor with
     | None => throw (TypeError "Cannot read properties of null (reading 'items')")
     | Some actor =>
         actorItem ← gets (λ w, find (λ i, String.eqb (item_name i) itemName)
                                     (items_of w actor));
         match actorItem with
         | Some actorItem => use_actorItem actorItem
         | None =>
             uuid ← getCPRGenericActionsUUID;
             compendiumItem ← fromUuid uuid;
             match compendiumItem with
             | None =>
                 notifications_warn (MODULE_ID +:+ ".Notifications.CPRGenericActionsNotFound")
             | Some compendiumItem =>
                 let data := deepClone (toObject compendiumItem) in
                 let data := delete_id data in
                 createdItems ← createEmbeddedDocuments actor data true;
                 match createdItems with
                 | None =>
                     notifications_warn
                       (MODULE_ID +:+ ".Notifications.CPRGenericActionsNotFound")
                 | Some actorItem =>
                     console_log "[bg3-hud-dnd5e] Created CPR Generic Actions item on actor:";;
                     use_actorItem actorItem
                 end
             end
         end
     end)
    (λ error,
       console_error "[bg3-hud-dnd5e] DnD5eCPRGenericActionsContainer | Error using CPR Generic Actions:";;
       notifications_error (MODULE_ID +:+ ".Notifications.CPRGenericActionsError")).

(** *** DnD5eContainerPopover: getContainerContents *)

(** [content.uuid || content] *)
Definition content_ref (content : Content) : Content :=
  match content with
  | ContentDoc (Some u) => if truthy_str u then ContentUuid u else content
  | _ => content
  end.

(** The cell data built for a resolved item. *)
Definition container_cell (item : Item) : CellData :=
  {| cell_uuid := item_uuid item;
     cell_type := "Item";
     cell_extra := Some
       {| cx_name := item_name item;
          cx_img := item_img item;
          cx_quantity := num_or (item_system item ≫= sys_quantity) 1;
          cx_uses := match item_system item ≫= sys_uses with
                     | Some u => Some (num_or (uses_value u) 0, num_or (uses_max u) 0)
                     | None => None
                     end |} |}.

(** The [for (const content of contents)] loop, with its two variables
    [items] and [index]. *)
Fixpoint container_loop (contents : list Content) (items : gmap string CellData)
    (index : nat) : M (gmap string CellData * nat) :=
  match contents with
  | [] => mret (items, index)
  | content :: rest =>
      item ← fromUuid (content_ref content);
      match item with
      | None => container_loop rest items index
      | Some item =>
          let col := (index mod 5)%nat in
          let row := (index / 5)%nat in
          let key := slotKey (pretty col) (pretty row) in
          container_loop rest (<[key := container_cell item]> items) (S index)
      end
  end.

Definition getContainerContents (containerItem : option Item) (actor : option string)
    : M Grid :=
  match containerItem with
  | None => mret {| grid_rows := 3; grid_cols := 5; grid_items := Some ∅ |}
  | Some containerItem =>
      let contents := default [] (item_system containerItem ≫= sys_contents) in
      r ← container_loop contents ∅ 0;
      let '(items, index) := r in
      let requiredRows := (3 `max` ceil_div index 5)%nat in
      mret {| grid_rows := requiredRows; grid_cols := 5; grid_items := Some items |}
  end.

(** *** scripts/features/DnD5eCPRAutoPopulate.js *)

Record CPRConfig := {
  packName : string;
  packId : string;
  defaultActions : list string;
  isModern : bool;
  settingsKey : string
}.

Definition getCPRConfig : M CPRConfig :=
  rulesVersion ← get_rulesVersion;
  let isModern := String.eqb rulesVersion "modern" in
  if isModern then
    mret {| packName := "CPRActions2024";
            packId := "chris-premades.CPRActions2024";
            defaultActions := ["Dash"; "Disengage"; "Dodge"; "Help"; "Hide"; "Ready"];
            isModern := true;
            settingsKey := "selectedCPRActionsModern" |}
  else
    mret {| packName := "CPRActions";
            packId := "chris-premades.CPRActions";
            defaultActions := ["Dash"; "Disengage"; "Dodge"; "Grapple"; "Help"; "Hide"];
            isModern := false;
            settingsKey := "selectedCPRActionsLegacy" |}.

Definition isCPRActive : M bool := module_active "chris-premades".

(** [await pack.getIndex()]: the entries are those of the pack. *)
Definition pack_getIndex (id : string) (pack : list (string * string))
    : M (list (string * string)) :=
  emit (PackGetIndex id);; mret pack.

(** The loop over [cprConfig.defaultActions] that pushes the uuid of the first
    index entry carrying each name. *)
Definition default_uuids (cfg : CPRConfig) (index : list (string * string)) : list string :=
  omap (λ actionName,
          match find (λ e, String.eqb (snd e) actionName) index with
          | Some entry => Some ("Compendium." +:+ packId cfg +:+ ".Item." +:+ fst entry)
          | None => None
          end)
       (defaultActions cfg).

Definition initializeDefaultActions : M unit :=
  active ← isCPRActive;
  if negb active then mret tt
  else
    cprConfig ← getCPRConfig;
    currentSelection ← settings_get_list (settingsKey cprConfig);
    if match currentSelection with Some (_ :: _) => true | _ => false end
    then mret tt
    else
      try_catch
        (pack ← packs_get (packId cprConfig);
         match pack with
         | None =>
             console_warn ("[bg3-hud-dnd5e] CPR pack " +:+ packId cprConfig +:+ " not found")
         | Some pack =>
             index ← pack_getIndex (packId cprConfig) pack;
             let defaultUuids := default_uuids cprConfig index in
             if (0 <? length defaultUuids)%nat then
               settings_set_list (settingsKey cprConfig) defaultUuids;;
               console_log "[bg3-hud-dnd5e] Initialized default CPR actions"
             else mret tt
         end)
        (λ error, console_warn "[bg3-hud-dnd5e] Failed to initialize default CPR actions:").

(** The persistence manager of the HUD core, bound to one actor. *)
Definition import_PersistenceManager : M unit :=
  emit ImportPersistenceManager;;
  ok ← gets persistence_ok;
  if ok : bool then mret tt else throw (HostError "PersistenceManager unavailable").

(** The state the persistence manager holds for an actor; an actor without
    one starts with no quick access data. *)
Definition loaded_state (w : World) (actor : string) : HudState :=
  default {| hs_quickAccess := None |} (hud_states w !! actor).

Definition loadState (actor : string) : M HudState :=
  emit (LoadState actor);;
  gets (λ w, loaded_state w actor).

Definition saveState (actor : string) (state : HudState) : M unit :=
  emit (SaveState actor state);;
  modify (with_hud_states (insert actor state)).

(** [await ui.BG3HUD_APP.refresh()] *)
Definition hud_refresh : M unit :=
  emit HudRefresh;; lift_host (host_refresh H).

(** [state.quickAccess?.grids?.[0]?.items || {}] *)
Definition existing_items (state : HudState) : gmap string CellData :=
  match hs_quickAccess state with
  | Some (Some (grid :: _)) => default ∅ (grid_items grid)
  | _ => ∅
  end.

(** [if (!state.quickAccess || !Array.isArray(state.quickAccess.grids))
       state.quickAccess = { grids: [{ rows: 2, cols: 3, items: {} }] };]
    leaves these grids in [state.quickAccess.grids]. *)
Definition ensure_grids (state : HudState) : list Grid :=
  match hs_quickAccess state with
  | Some (Some grids) => grids
  | _ => [ {| grid_rows := 2; grid_cols := 3; grid_items := Some ∅ |} ]
  end.

(** The loop that resolves each uuid and pushes [{ uuid, name }]. *)
Fixpoint resolve_actions (actionUuids : list string) : M (list (string * string)) :=
  match actionUuids with
  | [] => mret []
  | uuid :: rest =>
      item ← fromUuid (ContentUuid uuid);
      resolved ← resolve_actions rest;
      mret match item with
           | Some item => (uuid, item_name item) :: resolved
           | None => resolved
           end
  end.

(** [(a, b) => a.name.localeCompare(b.name)] *)
Definition by_name (a b : string * string) : Z :=
  host_localeCompare H (snd a) (snd b).

(** The key of the [i]-th quick access slot: [col = i % cols],
    [row = Math.floor(i / cols)].  With [cols = 0] JavaScript computes [NaN]
    and [Infinity]. *)
Definition quick_slot (cols i : nat) : string :=
  match cols with
  | O => slotKey "NaN" (match i with O => "NaN" | S _ => "Infinity" end)
  | S _ => slotKey (pretty (i mod cols)%nat) (pretty (i / cols)%nat)
  end.

Definition quick_cell (uuid : string) : CellData :=
  {| cell_uuid := uuid; cell_type := "Item"; cell_extra := None |}.

(** [for (let i = 0; i < maxActions; i++) grid.items[slotKey] = {...}] *)
Definition place_actions (cols : nat) (sortedUuids : list string) (maxActions : nat)
    (items : gmap string CellData) : gmap string CellData :=
  fold_left
    (λ items i, <[quick_slot cols i := quick_cell (default "" (sortedUuids !! i))]> items)
    (seq 0 maxActions) items.

Definition populateQuickAccess (actor : option string) (actionUuids : option (list string))
    : M unit :=
  match actor, actionUuids with
  | Some actor, Some ((_ :: _) as actionUuids) =>
      try_catch
        (import_PersistenceManager;;
         state ← loadState actor;
         let existingItems := existing_items state in
         let hasExistingItems := (0 <? size existingItems)%nat in
         if hasExistingItems then
           console_log "[bg3-hud-dnd5e] CPR AutoPopulate: Skipping - quickAccess already has items"
         else
           console_log "[bg3-hud-dnd5e] CPR AutoPopulate: Populating";;
           resolvedActions ← resolve_actions actionUuids;
           let sortedUuids := map fst (js_sort by_name resolvedActions) in
           let grids := ensure_grids state in
           match grids with
           | [] => throw (TypeError "Cannot read properties of undefined (reading 'items')")
           | grid :: others =>
               let items := default ∅ (grid_items grid) in
               let maxActions := (length sortedUuids `min` 6)%nat in
               let items := place_actions (grid_cols grid) sortedUuids maxActions items in
               let grid := {| grid_rows := grid_rows grid; grid_cols := grid_cols grid;
                              grid_items := Some items |} in
               let state := {| hs_quickAccess := Some (Some (grid :: others)) |} in
               saveState actor state;;
               console_log "[bg3-hud-dnd5e] Populated quickAccess";;
               sleep 50;;
               current ← gets currentActor;
               if bool_decide (current = Some actor) then hud_refresh else mret tt
           end)
        (λ error,
           console_error "[bg3-hud-dnd5e] Error populating quickAccess with CPR actions:")
  | _, _ => console_log "[bg3-hud-dnd5e] CPR AutoPopulate: Skipping - no actor or action UUIDs"
  end.

(** The index entries mapped to [{ id, uuid, name }], sorted by name, cut to
    six; [uuid] and [name] are kept. *)
Definition fallback_actions (cfg : CPRConfig) (index : list (string * string))
    : list (string * string) :=
  take 6 (js_sort by_name
            (map (λ e, ("Compendium." +:+ packId cfg +:+ ".Item." +:+ fst e, snd e)) index)).

Definition onTokenCreation (actor : option string) : M unit :=
  match actor with
  | None => mret tt
  | Some actor =>
      enableAutoPopulate ← settings_get_bool "enableCPRActionsAutoPopulate";
      if negb enableAutoPopulate then mret tt
      else
        active ← isCPRActive;
        if negb active then mret tt
        else
          sleep 200;;
          try_catch
            (cprConfig ← getCPRConfig;
             selected ← settings_get_list (settingsKey cprConfig);
             let selectedActions := default [] selected in
             if (length selectedActions =? 0)%nat then
               pack ← packs_get (packId cprConfig);
               match pack with
               | None => console_warn ("[bg3-hud-dnd5e] " +:+ packName cprConfig +:+ " pack not found")
               | Some pack =>
                   index ← pack_getIndex (packId cprConfig) pack;
                   let actions := fallback_actions cprConfig index in
                   let actionUuids := map fst actions in
                   populateQuickAccess (Some actor) (Some actionUuids)
               end
             else populateQuickAccess (Some actor) (Some (take 6 selectedActions)))
            (λ error,
               console_error "[bg3-hud-dnd5e] Error populating CPR actions on token creation:")
  end.

(** [token_actor] is [token?.actor]. *)
Definition onTokenChange (token_actor : option string) : M unit :=
  match token_actor with
  | None => mret tt
  | Some actor =>
      active ← isCPRActive;
      if negb active then mret tt
      else
        cprConfig ← getCPRConfig;
        selected ← settings_get_list (settingsKey cprConfig);
        let selectedActions := default [] selected in
        if (length selectedActions =? 0)%nat then mret tt
        else populateQuickAccess (Some actor) (Some (take 6 selectedActions))
  end.

(** *** scripts/components/ui/RestDialog.js *)

(** [showButtonChoiceDialog({ buttons })] of the HUD core: the action of the
    button the user picks, or null. *)
Definition showButtonChoiceDialog (actions : list string) : M (option string) :=
  emit (ButtonChoiceDialog actions);; gets (host_dialog_choice H).

Definition shortRest (actor : string) : M unit :=
  emit (ShortRest actor);; lift_host (host_shortRest H actor).

Definition longRest (actor : string) : M unit :=
  emit (LongRest actor);; lift_host (host_longRest H actor).

Definition showRestDialog (actor : option string) : M unit :=
  match actor with
  | None => mret tt
  | Some actor =>
      choice ← showButtonChoiceDialog ["short"; "long"];
      a ← gets (λ w, get_actor w actor);
      if bool_decide (choice = Some "short") && from_option actor_has_shortRest false a
      then shortRest actor
      else if bool_decide (choice = Some "long") && from_option actor_has_longRest false a
      then longRest actor
      else mret tt
  end.

(** *** scripts/module.js: advantage hooks and registration *)

Definition ADVANTAGE_ROLL_EVENTS : list string :=
  [ "dnd5e.preRollAttackV2";
    "dnd5e.preRollSavingThrowV2";
    "dnd5e.preRollSkillV2";
    "dnd5e.preRollAbilityCheckV2";
    "dnd5e.preRollConcentrationV2";
    "dnd5e.preRollDeathSaveV2";
    "dnd5e.preRollToolV2" ].

Record RollConfig := {
  rc_advantage : option bool;
  rc_disadvantage : option bool;
  rc_workflow_actor : option string     (* rollConfig.workflow?.actor *)
}.

Definition getFlag (actor key : string) : M (option FlagValue) :=
  emit (GetFlag actor key);;
  gets (λ w, flag_of w actor key).

Definition unsetFlag (actor key : string) : M unit :=
  emit (UnsetFlag actor key);;
  modify (update_actor actor (set_flags (delete key))).

(** [await situationalBonuses.clearState()]: the method belongs to
    [DnD5eAdvContainer], which is not among the sources; what it does to the
    world is the parameter [host_clearState]. *)
Definition clearState : M unit :=
  emit ClearState;; modify (host_clearState H).

(** The handler mutates [rollConfig]; the configuration it leaves is the
    result here. *)
Definition handleRollAdvantage (rollConfig : option RollConfig) : M (option RollConfig) :=
  midi ← module_active "midi-qol";
  if negb midi then mret rollConfig
  else
    enabled ← settings_get_bool "addAdvBtnsMidiQoL";
    if negb enabled then mret rollConfig
    else
      match rollConfig with
      | None => mret rollConfig
      | Some rc =>
          match rc_workflow_actor rc with
          | None => mret rollConfig
          | Some workflowActor =>
              currentActor ← gets currentActor;
              if negb (bool_decide (currentActor = Some workflowActor)) then mret rollConfig
              else
                state ← getFlag workflowActor "advState";
                once ← getFlag workflowActor "advOnce";
                let clear_once (rc' : RollConfig) : M (option RollConfig) :=
                  (if truthy_flag once then
                     situationalBonuses ←
                       gets (λ w, from_option hud_situationalBonuses_clearState false (hud w));
                     if situationalBonuses : bool then clearState
                     else
                       unsetFlag workflowActor "advState";;
                       unsetFlag workflowActor "advOnce"
                   else mret tt);;
                  mret (Some rc') in
                if bool_decide (state = Some (FStr "advBtn")) then
                  clear_once {| rc_advantage := Some true;
                                rc_disadvantage := rc_disadvantage rc;
                                rc_workflow_actor := rc_workflow_actor rc |}
                else if bool_decide (state = Some (FStr "disBtn")) then
                  clear_once {| rc_advantage := rc_advantage rc;
                                rc_disadvantage := Some true;
                                rc_workflow_actor := rc_workflow_actor rc |}
                else mret rollConfig
          end
      end.

(** [for (const event of ADVANTAGE_ROLL_EVENTS) Hooks.on(event, handleRollAdvantage)] *)
Fixpoint hooks_on_each (events : list string) : M unit :=
  match events with
  | [] => mret tt
  | event :: rest => emit (HooksOn event);; hooks_on_each rest
  end.

Definition registerAdvantageHooks : M unit :=
  registered ← gets advantageHooksRegistered;
  if registered : bool then mret tt
  else
    hooks_on_each ADVANTAGE_ROLL_EVENTS;;
    modify (with_advantageHooksRegistered true).

(** The module-level [initializeDefaultCPRActions] has the text of the class
    method [initializeDefaultActions]. *)
Definition initializeDefaultCPRActions : M unit := initializeDefaultActions.

Definition fetch (url : string) : M unit :=
  emit (Fetch url);;
  ok ← gets fetch_ok;
  if ok : bool then mret tt else throw (HostError "fetch failed").

(** [await import(path)] of a script of the HUD core: the promise rejects
    when the script cannot be loaded.  A script that loads is taken to export
    the class asked of it. *)
Definition import_script (path : string) : M unit :=
  emit (ImportScript path);;
  broken ← gets (λ w, bool_decide (path ∈ broken_imports w));
  if broken : bool then throw (HostError "import failed") else mret tt.

(** The factories of the container classes: each imports the class of the
    core it extends and returns a class, which is no host call. *)
Definition createDnD5ePortraitContainer : M unit :=
  import_script "/modules/bg3-hud-core/scripts/components/containers/PortraitContainer.js".

Definition createDnD5ePassivesContainer : M unit :=
  import_script "/modules/bg3-hud-core/scripts/components/containers/PassivesContainer.js".

(** Modelled from the spec: DnD5eWeaponSetContainer.js is not among the
    sources.  module.js says of [createDnD5eWeaponSetContainer] that it
    creates the class that extends the core's WeaponSetContainer and awaits
    it like its two siblings; it is taken to import that class as they do. *)
Definition createDnD5eWeaponSetContainer : M unit :=
  import_script "/modules/bg3-hud-core/scripts/components/containers/WeaponSetContainer.js".

(** The handler of the [bg3HudReady] hook. *)
Definition bg3HudReady : M unit :=
  console_log "BG3 HUD D&D 5e | Received bg3HudReady hook";;
  system ← gets system_id;
  if negb (String.eqb system "dnd5e") then
    console_warn "BG3 HUD D&D 5e | Not running D&D 5e system, skipping registration"
  else
    emit (HandlebarsHelper "contains");;
    fetch "modules/bg3-hud-dnd5e/templates/tooltips/weapon-block.hbs";;
    emit (HandlebarsPartial "bg3-hud-dnd5e.weapon-block");;
    console_log "BG3 HUD D&D 5e | Registering D&D 5e components";;
    createDnD5ePortraitContainer;;
    createDnD5ePassivesContainer;;
    createDnD5eWeaponSetContainer;;
    emit (Register RegPortraitContainer);;
    emit (Register RegPassivesContainer);;
    emit (Register RegWeaponSetContainer);;
    emit (Register RegActionButtonsContainer);;
    emit (Register RegFilterContainer);;
    emit (Register RegInfoContainer);;
    emit (Register (RegContainer "situationalBonuses"));;
    emit (Register (RegContainer "cprGenericActions"));;
    console_log "BG3 HUD D&D 5e | DnD5eAdapter created with autoSort and autoPopulate";;
    emit (Register RegAdapter);;
    emit (Register (RegMenuBuilder "dnd5e"));;
    console_log "BG3 HUD D&D 5e | Menu builder registered";;
    tooltipManager ← gets tooltip_manager;
    match tooltipManager with
    | None =>
        console_error "BG3 HUD D&D 5e | TooltipManager not available, cannot register tooltip renderer"
    | Some tm =>
        emit (Register (RegTooltipRenderer "dnd5e"));;
        console_log "BG3 HUD D&D 5e | Tooltip renderer registered";;
        match tooltipElement tm with
        | Some _ =>
            modify (with_tooltip_manager (Some {| tooltipElement := Some "tooltip" |}));;
            console_log "BG3 HUD D&D 5e | Tooltip ID set to #tooltip for dnd5e styling"
        | None => mret tt
        end
    end;;
    console_log "BG3 HUD D&D 5e | Registration complete";;
    initializeDefaultCPRActions;;
    emit (HooksCall "bg3HudRegistrationComplete");;
    registerAdvantageHooks.

End Adapter.

(** * Observations on runs *)

(** The items on which [use()] was invoked, in order. *)
Definition uses (tr : list Event) : list Item :=
  omap (λ e, match e with ItemUse it => Some it | _ => None end) tr.

(** What a click may do: log, look up, have the host create, use and delete
    a document, and warn.  Nothing else, so no rule is computed here. *)
Definition handover (e : Event) : bool :=
  match e with
  | ConsoleLog _ | FromUuid _ | CreateEmbedded _ _ _ | ItemUse _
  | DeleteEmbedded _ _ | NotifyWarn _ => true
  | _ => false
  end.

(** The warnings: on the console, or as a notification in the interface. *)
Definition is_warning (e : Event) : bool :=
  match e with
  | ConsoleWarn _ | NotifyWarn _ => true
  | _ => false
  end.

(** The notifications shown to the user in the interface. *)
Definition is_notification (e : Event) : bool :=
  match e with
  | NotifyWarn _ | NotifyError _ => true
  | _ => false
  end.

Definition is_lookup (e : Event) : bool :=
  match e with
  | PacksGet _ | FromUuid _ => true
  | _ => false
  end.

(** Strings without the separator of a slot key; decimal numerals are such. *)
Fixpoint dashless (s : string) : bool :=
  match s with
  | EmptyString => true
  | String c r => negb (Ascii.eqb c "-"%char) && dashless r
  end.

(** Cells laid out from slot [start] on, one slot each: what both slot loops
    of the adapter compute. *)
Fixpoint fill_slots (cols : nat) (cells : list CellData) (start : nat)
    (items : gmap string CellData) : gmap string CellData :=
  match cells with
  | [] => items
  | c :: rest => fill_slots cols rest (S start) (<[quick_slot cols start := c]> items)
  end.

(** The items the contents of a container resolve to, in contents order. *)
Definition resolved_contents (w : World) (contents : list Content) : list Item :=
  omap (λ content, resolve_ref w (content_ref content)) contents.

(** The uuid and name pairs the uuids resolve to, in the order given. *)
Definition resolved_actions (w : World) (uuids : list string) : list (string * string) :=
  omap (λ u, (λ it, (u, item_name it)) <$> resolve_uuid w u) uuids.

(** The states handed to [saveState], with their actor. *)
Definition saves (tr : list Event) : list (string * HudState) :=
  omap (λ e, match e with SaveState a s => Some (a, s) | _ => None end) tr.

(** Events other than a save, a delay and a HUD refresh. *)
Definition calm (e : Event) : bool :=
  match e with
  | SaveState _ _ | SetTimeout _ | HudRefresh => false
  | _ => true
  end.

(** A computation that only ever appends to the trace, and only events that
    satisfy [p]. *)
Definition appends {A} (p : Event → bool) (m : M A) : Prop :=
  ∀ s, ∃ ext, st_trace (m s).2 = (st_trace s ++ ext)%list ∧ forallb p ext = true.

Definition any_event (e : Event) : bool := true.

Definition not_register (e : Event) : bool :=
  match e with
  | Register _ => false
  | _ => true
  end.

(** The order in which [sort] leaves names: [a] may stay in front of [b]. *)
Definition name_le (H : Host) (a b : string * string) : Prop :=
  (host_localeCompare H (snd a) (snd b) ≤ 0)%Z.

(** [localeCompare] is a total preorder, as a collation is. *)
Definition collation (H : Host) : Prop :=
  (∀ a b, (host_localeCompare H a b ≤ 0)%Z ∨ (host_localeCompare H b a ≤ 0)%Z)
  ∧ (∀ a b c, (host_localeCompare H a b ≤ 0)%Z → (host_localeCompare H b c ≤ 0)%Z →
              (host_localeCompare H a c ≤ 0)%Z).

(** The registrations made with the HUD core. *)
Definition registrations (tr : list Event) : list Registration :=
  omap (λ e, match e with Register r => Some r | _ => None end) tr.


(** The documents the adapter asked the host to create: actor and data. *)
Definition creations (tr : list Event) : list (string * ItemData) :=
  omap (λ e, match e with CreateEmbedded a d _ => Some (a, d) | _ => None end) tr.

(** The host calls that read or report, and the three that write: creating
    and deleting an embedded document of an actor, and [use()]. *)
Definition reads_or_embeds (e : Event) : bool :=
  match e with
  | ConsoleLog _ | ConsoleWarn _ | ConsoleError _ | NotifyWarn _ | NotifyError _
  | FromUuid _ | SettingsGet _ _
  | CreateEmbedded _ _ _ | DeleteEmbedded _ _ | ItemUse _ => true
  | _ => false
  end.

(** A host call that leaves the compendium packs and their documents alone. *)
Definition keeps_compendium (f : World → Res unit * World) : Prop :=
  ∀ w, compendium (f w).2 = compendium w ∧ packs (f w).2 = packs w.

(** ** The objects behind the data

    [toObject()] and [deepClone] return new objects, and the statements that
    follow them mutate the object [data] points to.  Here plain objects live
    in a store and a document keeps its source at an address [src]; the two
    definitions are the data preparation of [_useItem] and of [_onClick] with
    every object written out. *)

(** A new object holding a copy of the one at [l]. *)
Definition copy_object (l : positive) (h : gmap positive ItemData)
    : option (positive * gmap positive ItemData) :=
  match h !! l with
  | Some d => let l' := fresh (dom h) in Some (l', <[l' := d]> h)
  | None => None
  end.

Definition useItem_data (src : positive) (h : gmap positive ItemData)
    : option (positive * gmap positive ItemData) :=
  match copy_object src h with                     (* resolved.toObject() *)
  | None => None
  | Some (object, h) =>
      match copy_object object h with              (* foundry.utils.deepClone(...) *)
      | None => None
      | Some (data, h) =>
          let h := alter ensure_stats data h in
          let h := alter move_exportSource data h in
          let h := alter delete_id data h in
          Some (data, h)
      end
  end.

Definition onClick_data (src : positive) (h : gmap positive ItemData)
    : option (positive * gmap positive ItemData) :=
  match copy_object src h with                     (* compendiumItem.toObject() *)
  | None => None
  | Some (object, h) =>
      match copy_object object h with              (* foundry.utils.deepClone(...) *)
      | None => None
      | Some (data, h) => Some (data, alter delete_id data h)
      end
  end.

(** The data [_useItem] hands to the host for a compendium item. *)
Definition clone_data (it : Item) : ItemData :=
  delete_id (move_exportSource (ensure_stats (deepClone (toObject it)))).

(** The world right after the host created the clone of [d] on [aid]. *)
Definition world_after_create (w : World) (aid : string) (d : ItemData) : World :=
  with_id_counter (S (id_counter w))
    (update_actor aid (set_items (λ l, (l ++ [build_embedded w aid d])%list)) w).

(** The scripts of the HUD core the ready handler imports before it
    registers anything. *)
Definition core_scripts : list string :=
  [ "/modules/bg3-hud-core/scripts/components/containers/PortraitContainer.js";
    "/modules/bg3-hud-core/scripts/components/containers/PassivesContainer.js";
    "/modules/bg3-hud-core/scripts/components/containers/WeaponSetContainer.js" ].

(** The imports made of [scripts] in turn: up to and including the first one
    that is broken. *)
Fixpoint imports_made (w : World) (scripts : list string) : list string :=
  match scripts with
  | [] => []
  | path :: rest =>
      path :: (if bool_decide (path ∈ broken_imports w) then [] else imports_made w rest)
  end.

(** The name under which the Generic Actions click looks for the item. *)
Definition generic_actions_name (w : World) : string :=
  if String.eqb (rulesVersion w) "modern" then "Generic Actions (2024)"
  else "Generic Actions (2014)".

Local Arguments currentActor : simpl never.
Local Arguments loaded_state : simpl never.
Local Arguments flag_of : simpl never.
Local Arguments Nat.div : simpl never.
Local Arguments Nat.modulo : simpl never.

Ltac no_creation :=
  repeat split; try done; intros ? ? Hin; by apply elem_of_nil in Hin.

Ltac mrun :=
  unfold run, outcome, world_of, trace_of, mbind, M_bind, mret, M_ret, emit, gets,
    modify, throw, try_catch, try_finally, lift_host; cbn.

(** * More of the adapter

    The functions around the ones above: the module-level population and its
    hooks, the hotbar filter, the cell data of an item, the container test,
    the Generic Actions container as a component, the portrait menu and the
    dialog in which the GM selects the CPR actions. *)

From Stdlib Require QArith_base.

(** ** JavaScript strings *)

(** [s.startsWith(p)] *)
Definition startsWith (s p : string) : bool := String.prefix p s.

(** [s.includes(sub)] *)
Fixpoint includes (s sub : string) : bool :=
  String.prefix sub s
  || match s with
     | EmptyString => false
     | String _ r => includes r sub
     end.

(** [s.split('.').pop()]: what follows the last dot, the whole string when it
    has none.  [seg] is the segment read so far. *)
Fixpoint last_segment (seg s : string) : string :=
  match s with
  | EmptyString => seg
  | String c r =>
      if Ascii.eqb c "."%char then last_segment "" r
      else last_segment (seg +:+ String c "") r
  end.

Definition split_pop (s : string) : string := last_segment "" s.

(** [a || b] on a string that may be undefined. *)
Definition str_or (a : option string) (b : string) : string :=
  match a with
  | Some s => if truthy_str s then s else b
  | None => b
  end.

(** ** Items as the remaining methods read them *)

(** [item.system.uses] as [transformItemToCellData] reads it.  A number is a
    rational here, the doubles being among them, and text that holds an
    integer counts as that integer; [None] is a value from which [parseInt]
    reads no number: undefined, null, NaN, an infinity, other text. *)
Record UsesView := {
  uv_max : option QArith_base.Q;          (* item.system.uses.max *)
  uv_spent : option QArith_base.Q         (* item.system.uses.spent *)
}.

(** An item together with the fields only [shouldBlockFromHotbar] and
    [transformItemToCellData] read. *)
Record ItemView := {
  iv_item : Item;
  iv_compendiumSource : option string;    (* item._stats?.compendiumSource *)
  iv_sourceId : option string;            (* item.flags?.core?.sourceId *)
  iv_uses : option UsesView               (* item.system?.uses *)
}.

Record BlockResult := {
  blocked : bool;
  reason : option string       (* the localisation key *)
}.

(** The cell data [transformItemToCellData] builds: [quantity] and [uses] are
    optional. *)
Record HotbarCell := {
  hc_uuid : string;
  hc_name : string;
  hc_img : string;
  hc_type : string;
  hc_quantity : option Z;
  hc_uses : option (Z * Z)      (* value, max *)
}.

(** The user of this client, and the adapter the HUD core has active. *)
Record Session := {
  game_user_isGM : bool;
  game_userId : string
}.

Section AdapterMore.

Context (H : Host).

(** *** scripts/module.js: the module-level population and its hooks *)

(** The module-level function places the uuids in the order given; it does
    not resolve them. *)
Definition populateQuickAccessWithCPRActions (actor : option string)
    (actionUuids : option (list string)) : M unit :=
  match actor, actionUuids with
  | Some actor, Some ((_ :: _) as actionUuids) =>
      try_catch
        (import_PersistenceManager;;
         state ← loadState actor;
         let existingItems := existing_items state in
         let hasExistingItems := (0 <? size existingItems)%nat in
         if hasExistingItems then
           console_log "[bg3-hud-dnd5e] populateQuickAccessWithCPRActions: Skipping - quickAccess already has items"
         else
           console_log "[bg3-hud-dnd5e] populateQuickAccessWithCPRActions: Populating";;
           let grids := ensure_grids state in
           match grids with
           | [] => throw (TypeError "Cannot read properties of undefined (reading 'items')")
           | grid :: others =>
               let items := default ∅ (grid_items grid) in
               let maxActions := (length actionUuids `min` 6)%nat in
               let items := place_actions (grid_cols grid) actionUuids maxActions items in
               let grid := {| grid_rows := grid_rows grid; grid_cols := grid_cols grid;
                              grid_items := Some items |} in
               let state := {| hs_quickAccess := Some (Some (grid :: others)) |} in
               saveState actor state;;
               console_log "[bg3-hud-dnd5e] Populated quickAccess";;
               sleep 50;;
               current ← gets currentActor;
               if bool_decide (current = Some actor) then hud_refresh H else mret tt
           end)
        (λ error,
           console_error "[bg3-hud-dnd5e] Error populating quickAccess with CPR actions:")
  | _, _ =>
      console_log "[bg3-hud-dnd5e] populateQuickAccessWithCPRActions: Skipping - no actor or action UUIDs"
  end.

(** The handler of [createToken]: [token_actor] is [tokenDocument.actor],
    [userId] the user who created the token. *)
Definition createToken_hook (session : Session) (token_actor : option string)
    (userId : string) : M unit :=
  if negb (game_user_isGM session) && negb (String.eqb (game_userId session) userId)
  then mret tt
  else
    match token_actor with
    | None => mret tt
    | Some actor =>
        enableAutoPopulate ← settings_get_bool "enableCPRActionsAutoPopulate";
        if negb enableAutoPopulate then mret tt
        else
          active ← module_active "chris-premades";
          if negb active then mret tt
          else
            sleep 200;;
            try_catch
              (cprConfig ← getCPRConfig;
               selected ← settings_get_list (settingsKey cprConfig);
               let selectedActions := default [] selected in
               if (length selectedActions =? 0)%nat then
                 pack ← packs_get (packId cprConfig);
                 match pack with
                 | None =>
                     console_warn ("[bg3-hud-dnd5e] " +:+ packName cprConfig +:+ " pack not found")
                 | Some pack =>
                     index ← pack_getIndex (packId cprConfig) pack;
                     let actions := fallback_actions H cprConfig index in
                     let actionUuids := map fst actions in
                     populateQuickAccessWithCPRActions (Some actor) (Some actionUuids)
                 end
               else populateQuickAccessWithCPRActions (Some actor)
                      (Some (take 6 selectedActions)))
              (λ error,
                 console_error "[bg3-hud-dnd5e] Error populating CPR actions on token creation:")
    end.

(** The handler of [BG3HUD_TOKEN_CHANGED]: [token_actor] is [token?.actor]. *)
Definition tokenChanged_hook (token_actor : option string) : M unit :=
  match token_actor with
  | None => mret tt
  | Some actor =>
      active ← module_active "chris-premades";
      if negb active then mret tt
      else
        cprConfig ← getCPRConfig;
        selected ← settings_get_list (settingsKey cprConfig);
        let selectedActions := default [] selected in
        if (length selectedActions =? 0)%nat then mret tt
        else populateQuickAccessWithCPRActions (Some actor) (Some (take 6 selectedActions))
  end.

(** *** scripts/module.js: DnD5eAdapter, the remaining methods *)

Definition genericActionsUuids : list string :=
  [ "Compendium.chris-premades.CPRMiscellaneous.Item.V0rdpb8WPmdYhAjc";
    "Compendium.chris-premades.CPRMiscellaneous.Item.Iz2XtxLReLnXTDiI" ].

Definition not_blocked : BlockResult := {| blocked := false; reason := None |}.

Definition is_blocked : BlockResult :=
  {| blocked := true;
     reason := Some (MODULE_ID +:+ ".Notifications.CPRActionBlockedFromHotbar") |}.

(** [item._stats?.compendiumSource || item.flags?.core?.sourceId || ''] *)
Definition sourceCompendium_of (item : ItemView) : string :=
  str_or (iv_compendiumSource item) (str_or (iv_sourceId item) "").

Definition shouldBlockFromHotbar (item : option ItemView) : M BlockResult :=
  match item with
  | None => mret not_blocked
  | Some item =>
      blockCPRActions ← settings_get_bool "blockCPRActionsOnHotbar";
      if negb blockCPRActions then mret not_blocked
      else
        active ← module_active "chris-premades";
        if negb active then mret not_blocked
        else
          let uuid := str_or (Some (item_uuid (iv_item item))) "" in
          if existsb (String.eqb uuid) genericActionsUuids then mret is_blocked
          else if startsWith uuid "Compendium.chris-premades.CPRActions."
                  || startsWith uuid "Compendium.chris-premades.CPRActions2024."
          then mret is_blocked
          else
            let sourceCompendium := sourceCompendium_of item in
            if existsb (λ gaUuid, includes sourceCompendium (split_pop gaUuid))
                       genericActionsUuids
            then mret is_blocked
            else if includes sourceCompendium "chris-premades.CPRActions"
                    || includes sourceCompendium "chris-premades.CPRActions2024"
            then
              cprConfig ← getCPRConfig;
              selected ← settings_get_list (settingsKey cprConfig);
              let selectedActions := default [] selected in
              let isSelectedAction :=
                existsb (λ actionUuid,
                           let actionId := split_pop actionUuid in
                           let sourceId := split_pop sourceCompendium in
                           String.eqb actionId sourceId)
                        selectedActions in
              if isSelectedAction then mret is_blocked else mret not_blocked
            else mret not_blocked
  end.

(** *** Numbers

    [parseInt] reads the integer at the start of the string of its argument,
    so what it returns for a number depends on how the number is printed. *)

(** Numbers printed in plain decimal notation: zero, and the numbers from
    10^-6 up to, but not including, 10^21 in magnitude. *)
Definition plain_notation (x : QArith_base.Q) : bool :=
  let n := Z.abs (QArith_base.Qnum x) in
  let d := Z.pos (QArith_base.Qden x) in
  (n =? 0)%Z
  || ((d <=? n * 1000000)%Z && (n <? 1000000000000000000000 * d)%Z).

(** The double nearest to an integer, ties to the even mantissa.  Every
    integer of at most 53 bits is a double. *)
Definition to_double (z : Z) : Z :=
  let a := Z.abs z in
  let e := (Z.log2 a + 1 - 53)%Z in
  if (e <=? 0)%Z then z
  else
    let q := (a / 2 ^ e)%Z in
    let r := (a mod 2 ^ e)%Z in
    let half := (2 ^ (e - 1))%Z in
    let q := if (half <? r)%Z || ((r =? half)%Z && Z.odd q) then (q + 1)%Z else q in
    (Z.sgn z * q * 2 ^ e)%Z.

(** [a - b] on integers that are doubles. *)
Definition js_minus (a b : Z) : Z := to_double (a - b).

Section Numbers.

(** [exponent_int x] is what [parseInt] reads from a number that is printed
    in exponent notation: the digit in front, which number printing chooses,
    with the sign. *)
Context (exponent_int : QArith_base.Q → Z).

(** [parseInt(x)] of a number: in plain notation the digits up to the point,
    which is [x] cut towards zero. *)
Definition parseInt (x : QArith_base.Q) : Z :=
  if plain_notation x then Z.quot (QArith_base.Qnum x) (Z.pos (QArith_base.Qden x))
  else exponent_int x.

(** [parseInt(x) || 0] *)
Definition parseInt_or_0 (x : option QArith_base.Q) : Z :=
  match x with
  | Some x => let n := parseInt x in if (n =? 0)%Z then 0%Z else n
  | None => 0%Z
  end.

Definition transformItemToCellData (item : option ItemView) : M (option HotbarCell) :=
  match item with
  | None =>
      console_warn "DnD5e Adapter | transformItemToCellData: No item provided";;
      mret None
  | Some item =>
      let it := iv_item item in
      let quantity :=
        match item_system it ≫= sys_quantity with
        | Some q => if Z.eqb q 0 then None else Some q
        | None => None
        end in
      let uses :=
        match iv_uses item with
        | Some u =>
            let maxUses := parseInt_or_0 (uv_max u) in
            if (0 <? maxUses)%Z then
              let spentUses := parseInt_or_0 (uv_spent u) in
              let value := js_minus maxUses spentUses in
              Some (value, maxUses)
            else None
        | None => None
        end in
      mret (Some {| hc_uuid := item_uuid it; hc_name := item_name it;
                    hc_img := item_img it; hc_type := "Item";
                    hc_quantity := quantity; hc_uses := uses |})
  end.

End Numbers.

(** *** DnD5eContainerPopover: isContainer *)

Definition isContainer (cellData : option CellData) : M bool :=
  match cellData with
  | None => mret false
  | Some cellData =>
      if negb (truthy_str (cell_uuid cellData)) then mret false
      else
        item ← fromUuid (ContentUuid (cell_uuid cellData));
        match item with
        | None => mret false
        | Some item =>
            mret (String.eqb (item_type item) "container"
                  || String.eqb (item_type item) "backpack")
        end
  end.

(** The handlers of the same two hooks in the later text of module.js, which
    hand over to the adapter's [cprAutoPopulate]; [adapter] tells whether
    [ui.BG3HOTBAR?.registry?.activeAdapter?.cprAutoPopulate] is there. *)
Definition createToken_delegate (session : Session) (adapter : bool)
    (token_actor : option string) (userId : string) : M unit :=
  if negb (game_user_isGM session) && negb (String.eqb (game_userId session) userId)
  then mret tt
  else
    match token_actor with
    | None => mret tt
    | Some actor => if adapter then onTokenCreation H (Some actor) else mret tt
    end.

Definition tokenChanged_delegate (adapter : bool) (token_actor : option string) : M unit :=
  match token_actor with
  | None => mret tt
  | Some actor => if adapter then onTokenChange H (Some actor) else mret tt
  end.

End AdapterMore.

(** ** DnD5eCPRGenericActionsContainer: the component

    The element of the component with what [render] and [update] write to
    it; the labels stand as their localisation keys. *)

Inductive Display := DisplayNone | DisplayFlex.

Record Button := {
  btn_classes : list string;
  btn_type : string;
  btn_ariaLabel : string;
  btn_tooltip : string;
  btn_tooltipDirection : string;
  btn_label : string               (* the text of the span inside *)
}.

Record Element := {
  el_classes : list string;
  el_bg3Ui : option string;        (* dataset.bg3Ui *)
  el_display : option Display;     (* style.display; a new element has none *)
  el_children : list Button
}.

Record Container := {
  ga_actor : option string;        (* this.actor *)
  ga_element : option Element      (* this.element *)
}.

Definition with_element (this : Container) (el : Element) : Container :=
  {| ga_actor := ga_actor this; ga_element := Some el |}.

Definition with_display (el : Element) (d : Display) : Element :=
  {| el_classes := el_classes el; el_bg3Ui := el_bg3Ui el;
     el_display := Some d; el_children := el_children el |}.

Definition with_children (el : Element) (c : list Button) : Element :=
  {| el_classes := el_classes el; el_bg3Ui := el_bg3Ui el;
     el_display := el_display el; el_children := c |}.

(** [get visible()] *)
Definition visible (this : Container) : M bool :=
  active ← module_active "chris-premades";
  if negb active then mret false
  else
    enabled ← settings_get_bool "enableCPRGenericActions";
    if negb enabled then mret false
    else mret (bool_decide (is_Some (ga_actor this))).

Definition generic_actions_button : Button :=
  {| btn_classes := ["cpr-generic-actions-btn"];
     btn_type := "button";
     btn_ariaLabel := MODULE_ID +:+ ".CPR.GenericActionsButton.Label";
     btn_tooltip := MODULE_ID +:+ ".CPR.GenericActionsButton.Tooltip";
     btn_tooltipDirection := "LEFT";
     btn_label := MODULE_ID +:+ ".CPR.GenericActionsButton.Label" |}.

(** [render()]: the component as the call leaves it; the element returned is
    its [ga_element]. *)
Definition render (this : Container) : M Container :=
  let element :=
    match ga_element this with
    | Some element => element
    | None => {| el_classes := ["bg3-cpr-generic-actions-container"];
                 el_bg3Ui := Some "true"; el_display := None; el_children := [] |}
    end in
  let element := with_children element [] in
  v ← visible this;
  if negb v then mret (with_element this (with_display element DisplayNone))
  else
    let element := with_display element DisplayFlex in
    let element := with_children element (el_children element ++ [generic_actions_button])%list in
    mret (with_element this element).

(** [update()] *)
Definition update (this : Container) : M Container :=
  match ga_element this with
  | None => render this
  | Some element =>
      v ← visible this;
      if negb v then mret (with_element this (with_display element DisplayNone))
      else mret (with_element this (with_display element DisplayFlex))
  end.

(** ** CPRActionsSelectionDialog *)

Definition MAX_SELECTIONS : nat := 6.

(** A JavaScript [Set] of strings is the list of its elements in insertion
    order, which is the order [Array.from] gives. *)
Definition set_has (s : list string) (x : string) : bool := bool_decide (x ∈ s).

Definition set_add (x : string) (s : list string) : list string :=
  if set_has s x then s else (s ++ [x])%list.

Definition set_delete (x : string) (s : list string) : list string :=
  List.filter (λ y, negb (String.eqb y x)) s.

Definition new_Set (l : list string) : list string :=
  fold_left (λ s x, set_add x s) l [].

(** An entry of [availableActions]. *)
Record Action := {
  act_id : string;
  act_uuid : string;
  act_name : string;
  act_img : string
}.

Record Checkbox := {
  cb_itemId : string;              (* dataset.itemId, the uuid of its action *)
  cb_checked : bool;
  cb_disabled : bool
}.

(** The dialog: the set, the checkboxes of the rows in document order (what
    [querySelectorAll('.dialog-checkbox')] returns) and the count the
    counter shows. *)
Record Dialog := {
  selectedActions : list string;
  checkboxes : list Checkbox;
  counter : option nat
}.

(** [constructor(options)], with [options.selectedActions]. *)
Definition new_Dialog (selected : option (list string)) : Dialog :=
  {| selectedActions := new_Set (default [] selected);
     checkboxes := [];
     counter := None |}.

(** The checkbox [_createActionRow] builds. *)
Definition _createActionRow (this : Dialog) (action : Action) : Checkbox :=
  let checked := set_has (selectedActions this) (act_uuid action) in
  {| cb_itemId := act_uuid action;
     cb_checked := checked;
     cb_disabled := negb checked && (MAX_SELECTIONS <=? length (selectedActions this))%nat |}.

(** [_updateCounter] *)
Definition _updateCounter (this : Dialog) : nat := length (selectedActions this).

(** [_renderDialog()], once [availableActions] is loaded. *)
Definition _renderDialog (this : Dialog) (availableActions : list Action) : Dialog :=
  {| selectedActions := selectedActions this;
     checkboxes := map (_createActionRow this) availableActions;
     counter := Some (_updateCounter this) |}.

Definition set_checked (b : bool) (cb : Checkbox) : Checkbox :=
  {| cb_itemId := cb_itemId cb; cb_checked := b; cb_disabled := cb_disabled cb |}.

(** [_onCheckboxChange(checkbox, uuid)], the checkbox being the [i]-th one and
    [uuid] the uuid of its row. *)
Definition _onCheckboxChange (i : nat) (this : Dialog) : M Dialog :=
  match checkboxes this !! i with
  | None => mret this
  | Some checkbox =>
      let uuid := cb_itemId checkbox in
      r ← (if cb_checked checkbox then
             if (length (selectedActions this) <? MAX_SELECTIONS)%nat then
               mret (set_add uuid (selectedActions this), checkboxes this)
             else
               notifications_warn (MODULE_ID +:+ ".CPR.MaxSelectionsReached");;
               mret (selectedActions this,
                     alter (set_checked false) i (checkboxes this))
           else mret (set_delete uuid (selectedActions this), checkboxes this));
      let '(selected, boxes) := r in
      let boxes :=
        map (λ cb, {| cb_itemId := cb_itemId cb; cb_checked := cb_checked cb;
                      cb_disabled := negb (cb_checked cb)
                                     && (MAX_SELECTIONS <=? length selected)%nat |})
            boxes in
      mret {| selectedActions := selected;
              checkboxes := boxes;
              counter := match counter this with
                         | Some _ => Some (length selected)
                         | None => None
                         end |}
  end.

(** The click listener of the [i]-th row; [on_checkbox] tells whether
    [event.target] is the checkbox of the row. *)
Definition row_onClick (i : nat) (on_checkbox : bool) (this : Dialog) : M Dialog :=
  match checkboxes this !! i with
  | None => mret this
  | Some checkbox =>
      if negb on_checkbox && negb (cb_disabled checkbox) then
        let this := {| selectedActions := selectedActions this;
                       checkboxes := alter (set_checked (negb (cb_checked checkbox))) i
                                           (checkboxes this);
                       counter := counter this |} in
        _onCheckboxChange i this
      else mret this
  end.

(** The change listener of the [i]-th checkbox. *)
Definition checkbox_onChange (i : nat) (this : Dialog) : M Dialog :=
  _onCheckboxChange i this.

(** What the user does in the dialog.  A click on a row away from its
    checkbox runs the row listener.  A click on a checkbox is the browser's:
    a disabled one ignores it; an enabled one flips, the click reaches the row
    listener with the checkbox as target, and the change listener runs. *)
Inductive Gesture :=
| ClickRow (i : nat)
| ClickCheckbox (i : nat).

Definition gesture (g : Gesture) (this : Dialog) : M Dialog :=
  match g with
  | ClickRow i => row_onClick i false this
  | ClickCheckbox i =>
      match checkboxes this !! i with
      | None => mret this
      | Some checkbox =>
          if cb_disabled checkbox then mret this
          else
            let this := {| selectedActions := selectedActions this;
                           checkboxes := alter (set_checked (negb (cb_checked checkbox))) i
                                               (checkboxes this);
                           counter := counter this |} in
            this ← row_onClick i true this;
            checkbox_onChange i this
      end
  end.

Fixpoint gestures (gs : list Gesture) (this : Dialog) : M Dialog :=
  match gs with
  | [] => mret this
  | g :: gs => this ← gesture g this; gestures gs this
  end.

(** [_onConfirm()] and [_onCancel()]: what the promise of [render] resolves
    to. *)
Definition _onConfirm (this : Dialog) : option (list string) :=
  Some (selectedActions this).

Definition _onCancel (this : Dialog) : option (list string) := None.

(** ** DnD5eMenuBuilder *)

(** The portrait container as [buildPortraitMenu] reads it: its actor and
    [token?.document?._source?.texture?.scaleX]. *)
Record PortraitContainer := {
  pc_actor : option string;
  pc_tokenScaleX : option QArith_base.Q
}.

Record MenuItem := {
  mi_key : string;
  mi_label : string;               (* the localisation key *)
  mi_icon : string;
  mi_title : option string;
  mi_onClick : M unit
}.

(** [actor.setFlag(MODULE_ID, key, v)] *)
Definition setFlag (actor key : string) (v : FlagValue) : M unit :=
  modify (update_actor actor (set_flags (insert key v))).

(** [v ?? d], read as a condition. *)
Definition flag_or (v : option FlagValue) (d : bool) : bool :=
  match v with
  | Some _ => truthy_flag v
  | None => d
  end.

Definition buildPortraitMenu (portraitContainer : PortraitContainer) : M (list MenuItem) :=
  match pc_actor portraitContainer with
  | None => mret []
  | Some actor =>
      flag ← getFlag actor "useTokenImage";
      let useTokenImage := flag_or flag true in
      flag ← getFlag actor "scaleWithToken";
      let scaleWithToken := flag_or flag false in
      let tokenScaleX := default (QArith_base.Qmake 1 1) (pc_tokenScaleX portraitContainer) in
      let hasTokenScale := negb (QArith_base.Qeq_bool tokenScaleX (QArith_base.Qmake 1 1)) in
      let items :=
        [ {| mi_key := "token";
             mi_label := MODULE_ID +:+ ".Menu.UseTokenImage";
             mi_icon := if useTokenImage then "fas fa-check" else "fas fa-chess-pawn";
             mi_title := None;
             mi_onClick :=
               if negb useTokenImage then setFlag actor "useTokenImage" (FBool true)
               else mret tt |} ] in
      let items :=
        if useTokenImage && hasTokenScale then
          (items ++
           [ {| mi_key := "scaleWithToken";
                mi_label := MODULE_ID +:+ ".Menu.ScaleWithToken";
                mi_icon := if scaleWithToken then "fas fa-check"
                           else "fas fa-up-right-and-down-left-from-center";
                mi_title := Some (MODULE_ID +:+ ".Menu.ScaleWithTokenHint");
                mi_onClick :=
                  let newValue := negb scaleWithToken in
                  setFlag actor "scaleWithToken" (FBool newValue) |} ])%list
        else items in
      let items :=
        (items ++
         [ {| mi_key := "portrait";
              mi_label := MODULE_ID +:+ ".Menu.UseCharacterPortrait";
              mi_icon := if negb useTokenImage then "fas fa-check" else "fas fa-user";
              mi_title := None;
              mi_onClick :=
                if useTokenImage then setFlag actor "useTokenImage" (FBool false)
                else mret tt |} ])%list in
      mret items
  end.

Definition buildSettingsMenu : M (list MenuItem) := mret [].

Definition buildLockMenu : M (list MenuItem) := mret [].

(** ** More observations on runs *)

(** Reading a setting. *)
Definition settings_read (e : Event) : bool :=
  match e with
  | SettingsGet _ _ => true
  | _ => false
  end.

(** Events that leave the persisted HUD state alone. *)
Definition no_persistence (e : Event) : bool :=
  match e with
  | ImportPersistenceManager | LoadState _ | SaveState _ _ => false
  | _ => true
  end.

(** Events other than a uuid lookup. *)
Definition no_fromUuid (e : Event) : bool :=
  match e with
  | FromUuid _ => false
  | _ => true
  end.

(** Events other than a deletion of an embedded document. *)
Definition no_delete (e : Event) : bool :=
  match e with
  | DeleteEmbedded _ _ => false
  | _ => true
  end.

(** What a click on a macro cell may do. *)
Definition macro_handover (e : Event) : bool :=
  match e with
  | ConsoleLog _ | ConsoleWarn _ | FromUuid _ | NotifyWarn _ | MacroExecute _ => true
  | _ => false
  end.

(** The hooks put on events. *)
Definition hooks_on (tr : list Event) : list string :=
  omap (λ e, match e with HooksOn ev => Some ev | _ => None end) tr.

(** Strings without a dot: the ids of documents are such. *)
Fixpoint dotfree (s : string) : bool :=
  match s with
  | EmptyString => true
  | String c r => negb (Ascii.eqb c "."%char) && dotfree r
  end.

(** Events that are neither a registration nor a hook call. *)
Definition plain (e : Event) : bool :=
  match e with
  | Register _ | HooksOn _ | HooksCall _ => false
  | _ => true
  end.

(** A computation that returns whatever the host does: it never throws. *)
Definition never_throws (m : M unit) : Prop :=
  ∀ s, ∃ s', m s = (Ret tt, s').

(** Whether the Generic Actions container shows in a world. *)
Definition shown (w : World) (this : Container) : bool :=
  bool_decide ("chris-premades" ∈ active_modules w)
  && default false (bool_settings w !! "enableCPRGenericActions")
  && bool_decide (is_Some (ga_actor this)).

(** The dialog shows its set: the set and the rows have no duplicates, a box
    is ticked exactly when its uuid is in the set and disabled exactly when
    it is unticked with the set full, and the counter gives the size. *)
Definition consistent (this : Dialog) : Prop :=
  NoDup (selectedActions this)
  ∧ NoDup (map cb_itemId (checkboxes this))
  ∧ (∀ j cb, checkboxes this !! j = Some cb →
       cb_checked cb = set_has (selectedActions this) (cb_itemId cb)
       ∧ cb_disabled cb
         = negb (cb_checked cb)
           && (MAX_SELECTIONS <=? length (selectedActions this))%nat)
  ∧ counter this = Some (length (selectedActions this)).

(** The dialog as it opens: the constructor, then [_renderDialog]. *)
Definition open_dialog (selected : option (list string)) (availableActions : list Action)
    : Dialog :=
  _renderDialog (new_Dialog selected) availableActions.

(** What stays true of an open dialog, whatever the user clicks: it is
    consistent, its rows are those of [ids], the set is no larger than the
    larger of its first size and the limit, and the uuids without a row are
    in the set exactly when they were at the start. *)
Definition dialog_inv (ids sel0 : list string) (this : Dialog) : Prop :=
  consistent this
  ∧ map cb_itemId (checkboxes this) = ids
  ∧ (length (selectedActions this) ≤ length sel0 `max` MAX_SELECTIONS)%nat
  ∧ ∀ u, u ∉ ids → u ∈ selectedActions this ↔ u ∈ sel0.

(** * Sample worlds

    Concrete hosts and worlds on which the statements below are run. *)

Definition compare_Z (c : comparison) : Z :=
  match c with
  | Lt => (-1)%Z
  | Eq => 0%Z
  | Gt => 1%Z
  end.

(** A host whose calls all return and change nothing; the user picks the
    short rest, and names are collated by character codes. *)
Definition quiet_host : Host :=
  {| host_use := λ _ w, (Ret tt, w);
     host_macro_execute := λ _ w, (Ret tt, w);
     host_shortRest := λ _ w, (Ret tt, w);
     host_longRest := λ _ w, (Ret tt, w);
     host_refresh := λ w, (Ret tt, w);
     host_clearState := λ w, w;
     host_dialog_choice := λ _, Some "short";
     host_localeCompare := λ a b, compare_Z (String.compare a b) |}.

(** A host whose [item.use()] throws. *)
Definition failing_host : Host :=
  {| host_use := λ _ w, (Throw (HostError "use failed"), w);
     host_macro_execute := λ _ w, (Ret tt, w);
     host_shortRest := λ _ w, (Ret tt, w);
     host_longRest := λ _ w, (Ret tt, w);
     host_refresh := λ w, (Ret tt, w);
     host_clearState := λ w, w;
     host_dialog_choice := λ _, Some "long";
     host_localeCompare := λ a b, compare_Z (String.compare a b) |}.

Definition compendium_item (id name : string) : Item :=
  {| item_uuid := "Compendium.chris-premades.CPRActions2024.Item." +:+ id;
     item_parent := None;
     item_has_use := true;
     item_source :=
       {| data_id := Some id; data_name := name; data_img := "icons/svg/item-bag.svg";
          data_type := "feat"; data_system := None; data_stats := None;
          data_flags := Some (Some {| es_world := "cpr"; es_system := "dnd5e" |}) |} |}.

Definition dash : Item := compendium_item "dash0000" "Dash".
Definition help : Item := compendium_item "help0000" "Help".
Definition dodge : Item := compendium_item "dodge000" "Dodge".

Definition sword : Item :=
  {| item_uuid := "Actor.hero.Item.sword000";
     item_parent := Some "hero";
     item_has_use := true;
     item_source :=
       {| data_id := Some "sword000"; data_name := "Longsword";
          data_img := "icons/sword.webp"; data_type := "weapon";
          data_system := Some {| sys_quantity := Some 1%Z; sys_uses := None;
                                 sys_contents := None |};
          data_stats := Some None; data_flags := None |} |}.

Definition hero : Actor :=
  {| actor_id := "hero"; actor_name := "Hero"; actor_items := [sword];
     actor_flags := {[ "advState" := FStr "advBtn"; "advOnce" := FBool true ]};
     actor_has_shortRest := true; actor_has_longRest := true |}.

(** A dnd5e world with the companion modules active and the HUD on [hero]. *)
Definition table_world : World :=
  {| system_id := "dnd5e";
     rulesVersion := "modern";
     active_modules := {[ "chris-premades"; "midi-qol" ]};
     bool_settings := {[ "addAdvBtnsMidiQoL" := true;
                         "enableCPRActionsAutoPopulate" := true ]};
     list_settings := ∅;
     packs := ∅;
     compendium := {[ item_uuid dash := dash; item_uuid help := help;
                      item_uuid dodge := dodge ]};
     actors := [hero];
     hud := Some {| hud_currentActor := Some "hero";
                    hud_situationalBonuses_clearState := false |};
     controlled_actor := None;
     hud_states := ∅;
     tooltip_manager := Some {| tooltipElement := Some "bg3-tooltip" |};
     advantageHooksRegistered := false;
     id_counter := 7;
     create_returns_document := true;
     created_has_use := true;
     fetch_ok := true;
     persistence_ok := true;
     broken_imports := ∅ |}.

(** The Generic Actions item of the CPR Miscellaneous pack, modern rules. *)
Definition generic_actions : Item :=
  {| item_uuid := CPR_GENERIC_ACTIONS_UUIDS_modern;
     item_parent := None;
     item_has_use := true;
     item_source :=
       {| data_id := Some "Iz2XtxLReLnXTDiI"; data_name := "Generic Actions (2024)";
          data_img := "icons/svg/d20.svg"; data_type := "feat";
          data_system := None; data_stats := Some None; data_flags := None |} |}.

(** The legacy item, left on [hero] from before the world changed rules. *)
Definition old_generic_actions : Item :=
  {| item_uuid := "Actor.hero.Item.generic14";
     item_parent := Some "hero";
     item_has_use := true;
     item_source :=
       {| data_id := Some "generic14"; data_name := "Generic Actions (2014)";
          data_img := "icons/svg/d20.svg"; data_type := "feat";
          data_system := None; data_stats := Some None; data_flags := None |} |}.

(** The modern item, already on [hero]. *)
Definition own_generic_actions : Item :=
  {| item_uuid := "Actor.hero.Item.generic24";
     item_parent := Some "hero";
     item_has_use := true;
     item_source :=
       {| data_id := Some "generic24"; data_name := "Generic Actions (2024)";
          data_img := "icons/svg/d20.svg"; data_type := "feat";
          data_system := None; data_stats := Some None; data_flags := None |} |}.

(** [table_world], a modern world, with only the legacy item on [hero]; the
    CPR Miscellaneous pack is not installed. *)
Definition mixed_world : World :=
  with_actors (map (set_items (λ l, (l ++ [old_generic_actions])%list))) table_world.

(** [table_world] with the modern item on [hero]. *)
Definition equipped_world : World :=
  with_actors (map (set_items (λ l, (l ++ [own_generic_actions])%list))) table_world.

(** [table_world] with the CPR Miscellaneous pack installed. *)
Definition premades_world : World :=
  {| system_id := "dnd5e";
     rulesVersion := "modern";
     active_modules := {[ "chris-premades"; "midi-qol" ]};
     bool_settings := {[ "addAdvBtnsMidiQoL" := true;
                         "enableCPRActionsAutoPopulate" := true ]};
     list_settings := ∅;
     packs := ∅;
     compendium := {[ item_uuid dash := dash; item_uuid help := help;
                      item_uuid dodge := dodge;
                      item_uuid generic_actions := generic_actions ]};
     actors := [hero];
     hud := Some {| hud_currentActor := Some "hero";
                    hud_situationalBonuses_clearState := false |};
     controlled_actor := None;
     hud_states := ∅;
     tooltip_manager := Some {| tooltipElement := Some "bg3-tooltip" |};
     advantageHooksRegistered := false;
     id_counter := 7;
     create_returns_document := true;
     created_has_use := true;
     fetch_ok := true;
     persistence_ok := true;
     broken_imports := ∅ |}.



(** The same world with no HUD application and no controlled token. *)
Definition no_actor_world : World :=
  {| system_id := "dnd5e";
     rulesVersion := "modern";
     active_modules := {[ "chris-premades"; "midi-qol" ]};
     bool_settings := ∅;
     list_settings := ∅;
     packs := ∅;
     compendium := {[ item_uuid dash := dash ]};
     actors := [hero];
     hud := None;
     controlled_actor := None;
     hud_states := ∅;
     tooltip_manager := None;
     advantageHooksRegistered := false;
     id_counter := 7;
     create_returns_document := true;
     created_has_use := true;
     fetch_ok := true;
     persistence_ok := true;
     broken_imports := ∅ |}.

(** A backpack on [hero] with four content references, two of which resolve. *)
Definition backpack : Item :=
  {| item_uuid := "Actor.hero.Item.backpack";
     item_parent := Some "hero";
     item_has_use := true;
     item_source :=
       {| data_id := Some "backpack"; data_name := "Backpack";
          data_img := "icons/backpack.webp"; data_type := "container";
          data_system :=
            Some {| sys_quantity := Some 1%Z; sys_uses := None;
                    sys_contents :=
                      Some [ ContentUuid (item_uuid dash);
                             ContentDoc None;
                             ContentUuid "Compendium.missing.Item.none0000";
                             ContentDoc (Some (item_uuid help)) ] |};
          data_stats := Some None; data_flags := None |} |}.

(** Twenty arrows on [hero], three uses left of a maximum the data omits. *)
Definition arrows : Item :=
  {| item_uuid := "Actor.hero.Item.arrows00";
     item_parent := Some "hero";
     item_has_use := true;
     item_source :=
       {| data_id := Some "arrows00"; data_name := "Arrows";
          data_img := "icons/arrow.webp"; data_type := "consumable";
          data_system :=
            Some {| sys_quantity := Some 20%Z;
                    sys_uses := Some {| uses_value := Some 3%Z; uses_max := None |};
                    sys_contents := None |};
          data_stats := Some None; data_flags := None |} |}.

(** A quiver on [hero] that holds the arrows. *)
Definition quiver : Item :=
  {| item_uuid := "Actor.hero.Item.quiver00";
     item_parent := Some "hero";
     item_has_use := true;
     item_source :=
       {| data_id := Some "quiver00"; data_name := "Quiver";
          data_img := "icons/quiver.webp"; data_type := "container";
          data_system :=
            Some {| sys_quantity := Some 1%Z; sys_uses := None;
                    sys_contents := Some [ ContentUuid (item_uuid arrows) ] |};
          data_stats := Some None; data_flags := None |} |}.

(** [table_world] with the quiver and its arrows on [hero]. *)
Definition quiver_world : World :=
  with_actors (map (set_items (λ l, (l ++ [arrows; quiver])%list))) table_world.

(** [table_world] with a HUD core that lacks the passives container script. *)
Definition coreless_world : World :=
  {| system_id := "dnd5e";
     rulesVersion := "modern";
     active_modules := {[ "chris-premades"; "midi-qol" ]};
     bool_settings := {[ "addAdvBtnsMidiQoL" := true;
                         "enableCPRActionsAutoPopulate" := true ]};
     list_settings := ∅;
     packs := ∅;
     compendium := {[ item_uuid dash := dash; item_uuid help := help;
                      item_uuid dodge := dodge ]};
     actors := [hero];
     hud := Some {| hud_currentActor := Some "hero";
                    hud_situationalBonuses_clearState := false |};
     controlled_actor := None;
     hud_states := ∅;
     tooltip_manager := Some {| tooltipElement := Some "bg3-tooltip" |};
     advantageHooksRegistered := false;
     id_counter := 7;
     create_returns_document := true;
     created_has_use := true;
     fetch_ok := true;
     persistence_ok := true;
     broken_imports :=
       {[ "/modules/bg3-hud-core/scripts/components/containers/PassivesContainer.js" ]} |}.

(** A world that runs another game system. *)
Definition pathfinder_world : World :=
  {| system_id := "pf2e";
     rulesVersion := "";
     active_modules := ∅;
     bool_settings := ∅;
     list_settings := ∅;
     packs := ∅;
     compendium := ∅;
     actors := [];
     hud := None;
     controlled_actor := None;
     hud_states := ∅;
     tooltip_manager := Some {| tooltipElement := None |};
     advantageHooksRegistered := false;
     id_counter := 0;
     create_returns_document := true;
     created_has_use := true;
     fetch_ok := true;
     persistence_ok := true;
     broken_imports := ∅ |}.


(** [table_world] after a user put an item into quick access slot "0-0". *)
Definition stocked_world : World :=
  with_hud_states
    (λ _, {[ "hero" :=
              {| hs_quickAccess := Some (Some
                   [ {| grid_rows := 2; grid_cols := 3;
                        grid_items := Some {[ "0-0" := {| cell_uuid := item_uuid sword;
                                                          cell_type := "Item";
                                                          cell_extra := None |} ]} |} ]) |} ]})
    table_world.

(** Four uuids to populate with: three resolve, out of alphabetical order. *)
Definition chosen_actions : list string :=
  [ item_uuid help; item_uuid dash; "Compendium.missing.Item.none0000"; item_uuid dodge ].

(** Three uuids that resolve, in the order of their names. *)
Definition sorted_actions : list string :=
  [ item_uuid dash; item_uuid dodge; item_uuid help ].

(** A player's client. *)
Definition player : Session := {| game_user_isGM := false; game_userId := "user0001" |}.

(** [table_world] with the hotbar filter on and two CPR actions selected. *)
Definition filtering_world : World :=
  {| system_id := "dnd5e";
     rulesVersion := "modern";
     active_modules := {[ "chris-premades"; "midi-qol" ]};
     bool_settings := {[ "blockCPRActionsOnHotbar" := true;
                         "enableCPRGenericActions" := true ]};
     list_settings := {[ "selectedCPRActionsModern" := [item_uuid dash; item_uuid help] ]};
     packs := {[ "chris-premades.CPRActions2024" :=
                   [("dash0000", "Dash"); ("help0000", "Help"); ("shove000", "Shove");
                    ("dodge000", "Dodge")] ]};
     compendium := {[ item_uuid dash := dash; item_uuid help := help;
                      item_uuid dodge := dodge ]};
     actors := [hero];
     hud := Some {| hud_currentActor := Some "hero";
                    hud_situationalBonuses_clearState := false |};
     controlled_actor := None;
     hud_states := ∅;
     tooltip_manager := None;
     advantageHooksRegistered := false;
     id_counter := 7;
     create_returns_document := true;
     created_has_use := true;
     fetch_ok := true;
     persistence_ok := true;
     broken_imports := ∅ |}.

(** The copy of Dash a user imported onto [hero]. *)
Definition imported_dash : ItemView :=
  {| iv_item :=
       {| item_uuid := "Actor.hero.Item.dashcopy";
          item_parent := Some "hero";
          item_has_use := true;
          item_source := item_source dash |};
     iv_compendiumSource := Some (item_uuid dash);
     iv_sourceId := None;
     iv_uses := None |}.

(** [sword] as the adapter reads it. *)
Definition sword_view : ItemView :=
  {| iv_item := sword; iv_compendiumSource := None; iv_sourceId := None;
     iv_uses := None |}.

(** A wand with seven and a half charges of which three are spent, and a
    stack of two. *)
Definition wand : ItemView :=
  {| iv_item :=
       {| item_uuid := "Actor.hero.Item.wand0000";
          item_parent := Some "hero";
          item_has_use := true;
          item_source :=
            {| data_id := Some "wand0000"; data_name := "Wand of Magic Missiles";
               data_img := "icons/wand.webp"; data_type := "consumable";
               data_system := Some {| sys_quantity := Some 2%Z;
                                      sys_uses := Some {| uses_value := Some 4%Z;
                                                          uses_max := Some 7%Z |};
                                      sys_contents := None |};
               data_stats := Some None; data_flags := None |} |};
     iv_compendiumSource := None; iv_sourceId := None;
     iv_uses := Some {| uv_max := Some (QArith_base.Qmake 15 2);
                        uv_spent := Some (QArith_base.Qmake 3 1) |} |}.

(** How the sample host prints in exponent notation: only the sign matters
    here. *)
Definition sign_digit (x : QArith_base.Q) : Z := Z.sgn (QArith_base.Qnum x).

(** The Generic Actions container of [hero], not yet rendered, and the one of
    a HUD without an actor. *)
Definition hero_container : Container :=
  {| ga_actor := Some "hero"; ga_element := None |}.

Definition empty_container : Container :=
  {| ga_actor := None; ga_element := None |}.

(** Eight actions on offer, and a stored selection of which one uuid is no
    longer in the pack. *)
Definition offered : list Action :=
  map (λ n, {| act_id := n; act_uuid := "Compendium.chris-premades.CPRActions2024.Item." +:+ n;
               act_name := n; act_img := "icons/svg/item-bag.svg" |})
      ["dash0000"; "disengag"; "dodge000"; "grapple0"; "help0000"; "hide0000";
       "ready000"; "shove000"].

Definition stored_selection : list string :=
  [ item_uuid help; "Compendium.chris-premades.CPRActions2024.Item.gone0000";
    item_uuid dash; item_uuid help ].

(** The portrait of [hero] with a token drawn at one and a half times its
    size. *)
Definition hero_portrait : PortraitContainer :=
  {| pc_actor := Some "hero";
     pc_tokenScaleX := Some (QArith_base.Qmake 3 2) |}.

(** A macro cell whose macro is gone, and a roll of an actor the HUD does not
    show. *)
Definition lost_macro : CellData :=
  {| cell_uuid := "Macro.gone0000"; cell_type := "Macro"; cell_extra := None |}.

Definition other_roll : RollConfig :=
  {| rc_advantage := None; rc_disadvantage := Some false;
     rc_workflow_actor := Some "bandit" |}.

(** The configuration of the 2024 rules. *)
Definition modern_config : CPRConfig :=
  {| packName := "CPRActions2024";
     packId := "chris-premades.CPRActions2024";
     defaultActions := ["Dash"; "Disengage"; "Dodge"; "Help"; "Hide"; "Ready"];
     isModern := true;
     settingsKey := "selectedCPRActionsModern" |}.

(** [filtering_world] before anything was selected. *)
Definition unselected_world : World :=
  with_list_settings (λ _, ∅) filtering_world.

(** A compendium document as the hotbar filter reads it. *)
Definition dash_view : ItemView :=
  {| iv_item := dash; iv_compendiumSource := None; iv_sourceId := None;
     iv_uses := None |}.
(** * Properties *)

(** ** Steps of a run *)

Lemma bind_emit {A} (e : Event) (k : unit → M A) (w : World) (tr : list Event) :
  (emit e ≫= k) {| st_world := w; st_trace := tr |}
  = k tt {| st_world := w; st_trace := (tr ++ [e])%list |}.
Proof. done. Qed.

Lemma bind_gets {A B} (g : World → A) (k : A → M B) (w : World) (tr : list Event) :
  (gets g ≫= k) {| st_world := w; st_trace := tr |}
  = k (g w) {| st_world := w; st_trace := tr |}.
Proof. done. Qed.

Lemma bind_modify {A} (g : World → World) (k : unit → M A) (w : World) (tr : list Event) :
  (modify g ≫= k) {| st_world := w; st_trace := tr |}
  = k tt {| st_world := g w; st_trace := tr |}.
Proof. done. Qed.

Lemma bind_ret {A B} (a : A) (k : A → M B) (s : St) : (mret a ≫= k) s = k a s.
Proof. done. Qed.

Lemma bind_throw {A B} (e : Exn) (k : A → M B) (s : St) : (throw e ≫= k) s = (Throw e, s).
Proof. done. Qed.

Lemma bind_bind {A B C} (m : M A) (f : A → M B) (g : B → M C) (s : St) :
  ((m ≫= f) ≫= g) s = (m ≫= (λ a, f a ≫= g)) s.
Proof. unfold mbind, M_bind. by destruct (m s) as [[a|e] s']. Qed.

Lemma bind_run {A B} (m : M A) (k : A → M B) (s s' : St) (a : A) :
  m s = (Ret a, s') → (m ≫= k) s = k a s'.
Proof. intros Hm. unfold mbind, M_bind. by rewrite Hm. Qed.

Lemma run_emit (e : Event) (w : World) (tr : list Event) :
  emit e {| st_world := w; st_trace := tr |}
  = (Ret tt, {| st_world := w; st_trace := (tr ++ [e])%list |}).
Proof. done. Qed.

Lemma run_ret {A} (a : A) (s : St) : (mret a : M A) s = (Ret a, s).
Proof. done. Qed.

Ltac msteps :=
  repeat first
    [ rewrite bind_bind | rewrite bind_emit | rewrite bind_gets | rewrite bind_modify
    | rewrite bind_ret | rewrite bind_throw ].


(** ** The items collection of an actor under the host's updates *)

Lemma find_update (aid : string) (f : Actor → Actor) (l : list Actor) :
  (∀ a, actor_id (f a) = actor_id a) →
  find (λ a, String.eqb (actor_id a) aid)
       (map (λ a, if String.eqb (actor_id a) aid then f a else a) l)
  = f <$> find (λ a, String.eqb (actor_id a) aid) l.
Proof.
  intros Hid. induction l as [|x l IH]; [done|].
  cbn. destruct (String.eqb (actor_id x) aid) eqn:E.
  - by rewrite Hid, E.
  - by rewrite E.
Qed.

Lemma get_actor_update (aid : string) (f : Actor → Actor) (w : World) :
  (∀ a, actor_id (f a) = actor_id a) →
  get_actor (update_actor aid f w) aid = f <$> get_actor w aid.
Proof. intros Hid. unfold get_actor, update_actor. cbn. by apply find_update. Qed.

Lemma items_of_update_some (aid : string) (g : list Item → list Item) (w : World) :
  items_of (update_actor aid (set_items g) w) aid
  = from_option (λ a, g (actor_items a)) [] (get_actor w aid).
Proof.
  unfold items_of. rewrite get_actor_update by done.
  by destruct (get_actor w aid).
Qed.

Lemma items_of_update (aid : string) (g : list Item → list Item) (w : World) :
  g [] = [] →
  items_of (update_actor aid (set_items g) w) aid = g (items_of w aid).
Proof.
  intros Hg. rewrite items_of_update_some. unfold items_of.
  by destruct (get_actor w aid).
Qed.

(** The document the host created is in the actor's collection. *)
Lemma created_in_items (w : World) (aid : string) (d : ItemData) :
  is_Some (get_actor w aid) →
  build_embedded w aid d ∈ items_of (world_after_create w aid d) aid.
Proof.
  intros [a Ha]. unfold world_after_create.
  change (items_of (with_id_counter ?n ?w') aid) with (items_of w' aid).
  rewrite items_of_update_some, Ha. cbn. set_solver.
Qed.

Lemma existsb_filter_negb {A} (p : A → bool) (l : list A) :
  existsb p (List.filter (λ x, negb (p x)) l) = false.
Proof.
  induction l as [|x l IH]; [done|]. cbn.
  destruct (p x) eqn:E; cbn; [done|]. by rewrite E.
Qed.

(** After the host deleted the documents with id [id] from an actor, the
    actor's collection has none. *)
Lemma items_has_deleted (w : World) (aid id : string) :
  items_has (update_actor aid (set_items (List.filter (λ it, negb (has_id id it)))) w) aid id
  = false.
Proof.
  unfold items_has. rewrite items_of_update by done. apply existsb_filter_negb.
Qed.

Lemma items_has_not_elem (w : World) (aid id : string) (it : Item) :
  items_has w aid id = false → item_id it = Some id → it ∉ items_of w aid.
Proof.
  unfold items_has. intros Hno Hid Hin.
  assert (existsb (has_id id) (items_of w aid) = true) as Hyes.
  { apply existsb_exists. exists it. split; [by apply list_elem_of_In|].
    unfold has_id. rewrite Hid. apply String.eqb_refl. }
  congruence.
Qed.

Lemma randomID_truthy (w : World) : truthy_str (randomID w) = true.
Proof. done. Qed.


Lemma find_none_intro {A} (p : A → bool) (l : list A) :
  (∀ x, In x l → p x = false) → find p l = None.
Proof.
  induction l as [|x l IH]; [done|]. intros Hp. cbn.
  rewrite (Hp x) by (by left). apply IH. intros y Hy. apply Hp. by right.
Qed.

(** ** Lookups that find nothing *)

(** C1, as the code has it.  A lookup that finds nothing ends the operation
    with one warning and a normal return: [initializeDefaultActions] logs a
    console warning when the CPR pack is absent, [_useItem] shows the
    ItemNotFound notification when the uuid resolves to nothing, and the
    Generic Actions click shows the CPRGenericActionsNotFound notification
    when the actor has no item of the name it looks for and the compendium
    item is absent.  Each looks up once (no retry),
    changes nothing in the world and throws nothing. *)
Theorem missing_lookup_warns_and_returns (H : Host) (w : World) :
  (∀ cfg,
     "chris-premades" ∈ active_modules w →
     outcome (run getCPRConfig w) = Ret cfg →
     list_settings w !! settingsKey cfg = None ∨ list_settings w !! settingsKey cfg = Some [] →
     packs w !! packId cfg = None →
     let r := run initializeDefaultActions w in
     outcome r = Ret tt ∧ world_of r = w
     ∧ List.filter is_warning (trace_of r)
       = [ConsoleWarn ("[bg3-hud-dnd5e] CPR pack " +:+ packId cfg +:+ " not found")]
     ∧ List.filter is_lookup (trace_of r) = [PacksGet (packId cfg)])
  ∧ (∀ uuid, resolve_uuid w uuid = None →
     run (_useItem H uuid) w
     = (Ret tt, {| st_world := w;
                   st_trace := [FromUuid (ContentUuid uuid);
                                NotifyWarn "bg3-hud-dnd5e.Notifications.ItemNotFound"] |}))
  ∧ (∀ actor ref,
     (∀ it, it ∈ items_of w actor → item_name it ≠ generic_actions_name w) →
     outcome (run getCPRGenericActionsUUID w) = Ret ref →
     resolve_ref w ref = None →
     let r := run (_onClick H (Some actor)) w in
     outcome r = Ret tt ∧ world_of r = w
     ∧ List.filter is_warning (trace_of r)
       = [NotifyWarn "bg3-hud-dnd5e.Notifications.CPRGenericActionsNotFound"]
     ∧ List.filter is_lookup (trace_of r) = [FromUuid ref]).
Proof.
  split; [|split].
  - intros cfg Hcpr Hcfg Hsel Hpack. revert Hcfg.
    unfold initializeDefaultActions, isCPRActive, module_active, getCPRConfig,
      get_rulesVersion, settings_get_list, packs_get, console_warn.
    mrun. rewrite bool_decide_eq_true_2 by done. cbn.
    destruct (String.eqb (rulesVersion w) "modern"); cbn; intros [= <-];
      cbn in Hsel, Hpack; destruct Hsel as [-> | ->]; cbn; rewrite Hpack; cbn; done.
  - intros uuid Hr. unfold _useItem, fromUuid, notifications_warn. mrun.
    by rewrite Hr.
  - intros actor ref Hname Href Hnone. revert Href.
    assert (find (λ i, String.eqb (item_name i) (generic_actions_name w))
                 (items_of w actor) = None) as Hfind.
    { apply find_none_intro. intros it Hin.
      apply list_elem_of_In, Hname in Hin. by apply String.eqb_neq. }
    unfold generic_actions_name in Hfind.
    unfold _onClick, getCPRGenericActionsUUID, get_rulesVersion, fromUuid,
      notifications_warn.
    mrun. rewrite Hfind. cbn. intros [= Href]. rewrite Href, Hnone. cbn. done.
Qed.

(** C1, as stated, fails for [initializeDefaultActions]: with the CPR module
    active, nothing selected and the pack absent, the only warning is a line
    on the console; no notification is shown to the user. *)
Lemma initializeDefaultActions_warns_on_console :
  let tr := trace_of (run initializeDefaultActions table_world) in
  bool_decide ("chris-premades" ∈ active_modules table_world) = true
  ∧ list_settings table_world !! "selectedCPRActionsModern" = None
  ∧ packs table_world !! "chris-premades.CPRActions2024" = None
  ∧ tr = [SettingsGet "dnd5e" "rulesVersion";
          SettingsGet MODULE_ID "selectedCPRActionsModern";
          PacksGet "chris-premades.CPRActions2024";
          ConsoleWarn "[bg3-hud-dnd5e] CPR pack chris-premades.CPRActions2024 not found"]
  ∧ List.filter is_notification tr = [].
Proof. vm_compute. repeat split. Qed.

(** ** Using an item *)

Ltac unfold_useItem :=
  unfold onCellClick, _useItem, delete_created, fromUuid, notifications_warn, console_log,
    createEmbeddedDocuments, deleteEmbeddedDocuments, item_use.

(** C2, as the code has it.  A click on an 'Item' cell whose uuid resolves
    hands the usage to the host: an embedded item with a [use] function gets
    its [use()] called once; a compendium item is cloned onto the resolved
    actor and the clone's [use()] is called once; nothing else is used.  When
    no actor can be resolved, when the host returns no clone, or when the
    item to use has no [use] function, a warning is shown and [use()] is not
    called. *)
Theorem onCellClick_delegates_use (H : Host) (w : World) (data : CellData) (it : Item) :
  cell_type data = "Item" →
  resolve_uuid w (cell_uuid data) = Some it →
  let tr := trace_of (run (onCellClick H (Some data)) w) in
  let cannot := NotifyWarn "bg3-hud-dnd5e.Notifications.ItemCannotBeUsed" in
  let notfound := NotifyWarn "bg3-hud-dnd5e.Notifications.ItemNotFound" in
  (is_Some (item_parent it) →
     if item_has_use it then uses tr = [it] else uses tr = [] ∧ cannot ∈ tr)
  ∧ (item_parent it = None → actor_for w it = None → uses tr = [] ∧ cannot ∈ tr)
  ∧ (item_parent it = None → ∀ a, actor_for w it = Some a →
       if create_returns_document w then
         if created_has_use w then uses tr = [build_embedded w a (clone_data it)]
         else uses tr = [] ∧ cannot ∈ tr
       else uses tr = [] ∧ notfound ∈ tr)
  ∧ forallb handover tr = true.
Proof.
  intros Hty Hres. cbn zeta. split; [|split; [|split]].
  - intros [a Ha]. unfold_useItem. mrun. rewrite Hty. cbn. rewrite Hres. cbn.
    unfold actor_for. rewrite Ha. cbn.
    destruct (item_has_use it); cbn.
    + destruct (host_use H it w) as [r w']. cbn. done.
    + split; [done|]. set_solver.
  - intros Hp Ha. unfold_useItem. mrun. rewrite Hty. cbn. rewrite Hres. cbn.
    rewrite Ha. cbn. split; [done|]. set_solver.
  - intros Hp a Ha. unfold_useItem. mrun. rewrite Hty. cbn. rewrite Hres. cbn.
    rewrite Ha, Hp. cbn.
    destruct (create_returns_document w); cbn; [|split; [done|set_solver]].
    destruct (created_has_use w); cbn.
    + destruct (host_use H _ _) as [r w']. cbn. rewrite randomID_truthy. cbn.
      destruct (items_has w' a (randomID w)); cbn; done.
    + rewrite randomID_truthy. cbn.
      destruct (items_has _ a (randomID w)); cbn; (split; [done|set_solver]).
  - unfold_useItem. mrun. rewrite Hty. cbn. rewrite Hres. cbn.
    destruct (actor_for w it) as [a|]; cbn; [|done].
    destruct (item_parent it); cbn.
    + destruct (item_has_use it); cbn; [|done].
      destruct (host_use H it w) as [r w']. done.
    + destruct (create_returns_document w); cbn; [|done].
      rewrite randomID_truthy. cbn.
      destruct (created_has_use w); cbn.
      * destruct (host_use H _ _) as [r w']. cbn.
        destruct (items_has w' a (randomID w)); done.
      * destruct (items_has _ a (randomID w)); done.
Qed.

(** C2, as stated, fails: the cell is an 'Item' cell, its uuid resolves to
    a compendium item that has a [use] function, but there is no HUD actor
    and no controlled token, so the click ends in the ItemCannotBeUsed warning
    and [use()] is never called. *)
Lemma onCellClick_no_actor_no_use :
  let data := {| cell_uuid := item_uuid dash; cell_type := "Item"; cell_extra := None |} in
  let tr := trace_of (run (onCellClick quiet_host (Some data)) no_actor_world) in
  cell_type data = "Item"
  ∧ resolve_uuid no_actor_world (cell_uuid data) = Some dash
  ∧ item_has_use dash = true
  ∧ uses tr ≠ [dash]
  ∧ uses tr = []
  ∧ tr = [ConsoleLog "D&D 5e Adapter | Cell clicked:";
          FromUuid (ContentUuid (item_uuid dash));
          NotifyWarn "bg3-hud-dnd5e.Notifications.ItemCannotBeUsed"].
Proof. vm_compute. repeat split; discriminate. Qed.

(** C3. For a compendium item, [_useItem] has the host create a clone on the
    resolved actor, and when it is done the actor's collection holds no
    document with the clone's id, whatever [use()] did to the world and
    whether it returned or threw; an exception of [use()] is the outcome of
    [_useItem].  When no actor is found or the host returns no document,
    nothing was added and the world is as before. *)
Theorem useItem_removes_created_clone (H : Host) (w : World) (uuid : string) (it : Item) :
  resolve_uuid w uuid = Some it →
  item_parent it = None →
  let r := run (_useItem H uuid) w in
  (∀ a, actor_for w it = Some a → create_returns_document w = true →
     let created := build_embedded w a (clone_data it) in
     creations (trace_of r) = [(a, clone_data it)]
     ∧ (is_Some (get_actor w a) →
        created ∈ items_of (world_after_create w a (clone_data it)) a)
     ∧ items_has (world_of r) a (randomID w) = false
     ∧ (created ∉ items_of (world_of r) a)
     ∧ (created_has_use w = true →
        uses (trace_of r) = [created]
        ∧ outcome r = (host_use H created (world_after_create w a (clone_data it))).1))
  ∧ (actor_for w it = None ∨ create_returns_document w = false →
     world_of r = w ∧ outcome r = Ret tt ∧ uses (trace_of r) = []).
Proof.
  intros Hres Hp r. split.
  - intros a Ha Hc created.
    assert (items_has (world_of r) a (randomID w) = false
            ∧ creations (trace_of r) = [(a, clone_data it)]
            ∧ (created_has_use w = true →
               uses (trace_of r) = [created]
               ∧ outcome r
                 = (host_use H created (world_after_create w a (clone_data it))).1))
      as (Hgone & Hev & Huse).
    { subst r created. unfold_useItem. mrun. rewrite Hres. cbn. rewrite Ha, Hp. cbn.
      rewrite Hc. cbn. fold (clone_data it).
      fold (world_after_create w a (clone_data it)).
      rewrite randomID_truthy. cbn.
      destruct (created_has_use w) eqn:Hu; cbn.
      - destruct (host_use H _ _) as [res w'] eqn:Hhost. cbn.
        destruct (items_has w' a (randomID w)) eqn:Hhas; cbn.
        + by rewrite items_has_deleted.
        + done.
      - destruct (items_has (world_after_create w a (clone_data it)) a (randomID w))
          eqn:Hhas; cbn.
        + by rewrite items_has_deleted.
        + done. }
    repeat split; try done.
    + apply created_in_items.
    + eapply items_has_not_elem; [exact Hgone|done].
    + by apply Huse.
    + by apply Huse.
  - intros Hnone. subst r. unfold_useItem. mrun. rewrite Hres. cbn.
    destruct (actor_for w it) as [a|] eqn:Ha; cbn; [|done].
    destruct Hnone as [Hnone|Hnone]; [done|].
    rewrite Hp. cbn. rewrite Hnone. cbn. done.
Qed.

(** ** Slot keys *)

Lemma pretty_N_go_dashless (x : N) (s : string) :
  dashless s = true → dashless (pretty_N_go x s) = true.
Proof.
  revert s. induction (N.lt_wf_0 x) as [x _ IH]. intros s Hs.
  destruct (decide (x = 0%N)) as [->|Hx]; [by rewrite pretty_N_go_0|].
  rewrite pretty_N_go_step by lia.
  apply IH; [apply N.div_lt; lia|].
  cbn. rewrite Hs, andb_true_r.
  unfold pretty_N_char. by repeat case_match.
Qed.

Lemma pretty_nat_dashless (n : nat) : dashless (pretty n) = true.
Proof.
  unfold pretty, pretty_nat, pretty, pretty_N.
  case_decide; [done|]. by apply pretty_N_go_dashless.
Qed.

Lemma slotKey_inj (a b c d : string) :
  dashless a = true → dashless c = true → slotKey a b = slotKey c d → a = c ∧ b = d.
Proof.
  unfold slotKey. revert c.
  induction a as [|x a IH]; intros [|y c] Ha Hc Heq; cbn in *.
  - by injection Heq.
  - injection Heq as <- _. done.
  - injection Heq as -> _. done.
  - injection Heq as -> Heq.
    apply andb_true_iff in Ha as [_ Ha]. apply andb_true_iff in Hc as [_ Hc].
    destruct (IH c Ha Hc Heq) as [-> ->]. done.
Qed.

Lemma quick_slot_inj (cols i j : nat) :
  (0 < cols)%nat → quick_slot cols i = quick_slot cols j → i = j.
Proof.
  intros Hc Heq. destruct cols as [|c]; [lia|]. cbn [quick_slot] in Heq.
  apply slotKey_inj in Heq as [Hm Hd]; try apply pretty_nat_dashless.
  apply (inj pretty) in Hm. apply (inj pretty) in Hd.
  rewrite (Nat.div_mod_eq i (S c)), (Nat.div_mod_eq j (S c)). congruence.
Qed.

Lemma fill_slots_other (cols : nat) (cells : list CellData) (start : nat)
    (items : gmap string CellData) (key : string) :
  (∀ j, (j < length cells)%nat → key ≠ quick_slot cols (start + j)) →
  fill_slots cols cells start items !! key = items !! key.
Proof.
  revert start items. induction cells as [|c cells IH]; intros start items Hk; [done|].
  cbn. rewrite IH.
  - apply lookup_insert_ne. intros E. apply (Hk 0%nat); [cbn; lia|].
    by rewrite Nat.add_0_r.
  - intros j Hj. replace (S start + j)%nat with (start + S j)%nat by lia.
    apply Hk. cbn. lia.
Qed.

Lemma fill_slots_lookup (cols : nat) (cells : list CellData) (start : nat)
    (items : gmap string CellData) (j : nat) (c : CellData) :
  (0 < cols)%nat → cells !! j = Some c →
  fill_slots cols cells start items !! quick_slot cols (start + j) = Some c.
Proof.
  intros Hc. revert start items j.
  induction cells as [|x cells IH]; intros start items j Hj; [done|].
  destruct j as [|j]; cbn in *.
  - injection Hj as ->. rewrite Nat.add_0_r, fill_slots_other.
    + apply lookup_insert_eq.
    + intros j _ E. apply quick_slot_inj in E; [lia|done].
  - replace (start + S j)%nat with (S start + j)%nat by lia. by apply IH.
Qed.

Lemma fill_slots_size (cols : nat) (cells : list CellData) (start : nat)
    (items : gmap string CellData) :
  (0 < cols)%nat →
  (∀ i, (start ≤ i)%nat → items !! quick_slot cols i = None) →
  size (fill_slots cols cells start items) = (size items + length cells)%nat.
Proof.
  intros Hc. revert start items.
  induction cells as [|x cells IH]; intros start items Hfree; cbn; [lia|].
  rewrite IH.
  - rewrite map_size_insert_None by (apply Hfree; lia). lia.
  - intros i Hi. rewrite lookup_insert_ne; [apply Hfree; lia|].
    intros E. apply quick_slot_inj in E; [lia|done].
Qed.

(** ** Container contents *)

Lemma container_loop_run (w : World) (contents : list Content)
    (items : gmap string CellData) (index : nat) (tr : list Event) :
  container_loop contents items index {| st_world := w; st_trace := tr |}
  = (Ret (fill_slots 5 (map container_cell (resolved_contents w contents)) index items,
          (index + length (resolved_contents w contents))%nat),
     {| st_world := w;
        st_trace := (tr ++ map (λ c, FromUuid (content_ref c)) contents)%list |}).
Proof.
  revert items index tr.
  induction contents as [|c contents IH]; intros items index tr.
  - cbn. by rewrite Nat.add_0_r, app_nil_r.
  - cbn [container_loop]. unfold fromUuid. mrun.
    unfold resolved_contents. cbn [omap list_omap].
    fold (resolved_contents w contents).
    destruct (resolve_ref w (content_ref c)) as [item|]; cbn.
    + rewrite IH. rewrite <- app_assoc. cbn. by rewrite Nat.add_succ_r.
    + rewrite IH. by rewrite <- app_assoc.
Qed.

Lemma ceil_div_5 (k : nat) : ceil_div k 5 = ((k + 4) / 5)%nat.
Proof.
  unfold ceil_div.
  pose proof (Nat.div_mod_eq k 5). pose proof (Nat.mod_upper_bound k 5).
  destruct (Nat.eqb_spec (k mod 5) 0) as [E|E].
  - apply Nat.div_unique with (r := 4%nat); lia.
  - apply Nat.div_unique with (r := (k mod 5 - 1)%nat); lia.
Qed.

(** C4. [getContainerContents] returns five columns and
    [max(3, ceil(k / 5))] rows, [k] being the number of contents that resolve;
    the [i]-th resolved item sits at key "(i mod 5)-(i div 5)", as an 'Item'
    cell with the item's uuid, name and image, its quantity (1 when missing
    or zero) and its uses (0 for a missing value or maximum); the grid has
    exactly [k] cells, and a missing container gives the empty 3 by 5 grid. *)
Theorem getContainerContents_grid (w : World) (container : Item) (actor : option string) :
  let contents := default [] (item_system container ≫= sys_contents) in
  let found := resolved_contents w contents in
  let k := length found in
  outcome (run (getContainerContents None actor) w)
  = Ret {| grid_rows := 3; grid_cols := 5; grid_items := Some ∅ |}
  ∧ ∃ items,
      outcome (run (getContainerContents (Some container) actor) w)
      = Ret {| grid_rows := (3 `max` ceil_div k 5)%nat; grid_cols := 5;
               grid_items := Some items |}
      ∧ ceil_div k 5 = ((k + 4) / 5)%nat
      ∧ size items = k
      ∧ ∀ i item, found !! i = Some item →
          items !! slotKey (pretty (i mod 5)%nat) (pretty (i / 5)%nat)
          = Some {| cell_uuid := item_uuid item;
                    cell_type := "Item";
                    cell_extra := Some
                      {| cx_name := item_name item;
                         cx_img := item_img item;
                         cx_quantity :=
                           match item_system item ≫= sys_quantity with
                           | Some q => if (q =? 0)%Z then 1%Z else q
                           | None => 1%Z
                           end;
                         cx_uses :=
                           match item_system item ≫= sys_uses with
                           | Some u =>
                               Some (match uses_value u with
                                     | Some v => if (v =? 0)%Z then 0%Z else v
                                     | None => 0%Z
                                     end,
                                     match uses_max u with
                                     | Some v => if (v =? 0)%Z then 0%Z else v
                                     | None => 0%Z
                                     end)
                           | None => None
                           end |} |}.
Proof.
  intros contents found k. split; [done|].
  exists (fill_slots 5 (map container_cell found) 0 ∅).
  split; [|split; [apply ceil_div_5|split]].
  - unfold getContainerContents. fold contents. mrun.
    rewrite container_loop_run. cbn. done.
  - rewrite fill_slots_size; [|lia|done]. rewrite map_size_empty, length_map. done.
  - intros i item Hi.
    change (slotKey (pretty (i mod 5)%nat) (pretty (i / 5)%nat)) with (quick_slot 5 (0 + i)).
    rewrite (fill_slots_lookup 5 (map container_cell found) 0 ∅ i (container_cell item));
      [done|lia|].
    by rewrite list_lookup_fmap, Hi.
Qed.

Lemma omap_length_le {A B} (f : A → option B) (l : list A) :
  (length (omap f l) ≤ length l)%nat.
Proof.
  induction l as [|x l IH]; cbn; [done|]. destruct (f x); cbn; lia.
Qed.

Lemma omap_map_none {A B C} (f : B → option C) (g : A → B) (l : list A) :
  (∀ x, f (g x) = None) → omap f (map g l) = [].
Proof.
  intros Hn. induction l as [|x l IH]; cbn; [done|]. by rewrite Hn.
Qed.

(** ** Sorting by name *)

Lemma js_insert_perm {A} (cmp : A → A → Z) (x : A) (l : list A) :
  js_insert cmp x l ≡ₚ x :: l.
Proof.
  induction l as [|y l IH]; cbn; [done|].
  destruct (cmp x y <=? 0)%Z; [done|].
  rewrite IH. apply perm_swap.
Qed.

Lemma js_sort_perm {A} (cmp : A → A → Z) (l : list A) : js_sort cmp l ≡ₚ l.
Proof.
  induction l as [|x l IH]; cbn; [done|].
  by rewrite js_insert_perm, IH.
Qed.

Lemma js_sort_length {A} (cmp : A → A → Z) (l : list A) :
  length (js_sort cmp l) = length l.
Proof. by rewrite js_sort_perm. Qed.

Section Sorted.

Context {A : Type} (cmp : A → A → Z).
Hypothesis cmp_total : ∀ a b, (cmp a b ≤ 0)%Z ∨ (cmp b a ≤ 0)%Z.
Hypothesis cmp_trans : ∀ a b c, (cmp a b ≤ 0)%Z → (cmp b c ≤ 0)%Z → (cmp a c ≤ 0)%Z.

Lemma js_insert_sorted (x : A) (l : list A) :
  StronglySorted (λ a b, (cmp a b ≤ 0)%Z) l →
  StronglySorted (λ a b, (cmp a b ≤ 0)%Z) (js_insert cmp x l).
Proof.
  induction 1 as [|y l Hs IH Hy]; cbn.
  - repeat constructor.
  - destruct (Z.leb_spec (cmp x y) 0) as [Hle|Hgt].
    + constructor; [by constructor|].
      constructor; [done|]. eapply Forall_impl; [exact Hy|]. cbn. eauto.
    + constructor; [done|].
      rewrite js_insert_perm. constructor; [|done].
      destruct (cmp_total x y); [lia|done].
Qed.

Lemma js_sort_sorted (l : list A) :
  StronglySorted (λ a b, (cmp a b ≤ 0)%Z) (js_sort cmp l).
Proof.
  induction l as [|x l IH]; cbn; [constructor|]. by apply js_insert_sorted.
Qed.

End Sorted.

(** ** Populating the quick access grid *)

Lemma resolve_actions_run (w : World) (uuids : list string) (tr : list Event) :
  resolve_actions uuids {| st_world := w; st_trace := tr |}
  = (Ret (resolved_actions w uuids),
     {| st_world := w;
        st_trace := (tr ++ map (λ u, FromUuid (ContentUuid u)) uuids)%list |}).
Proof.
  revert tr. induction uuids as [|u uuids IH]; intros tr.
  - cbn. by rewrite app_nil_r.
  - cbn [resolve_actions]. unfold fromUuid. mrun. rewrite IH. cbn.
    rewrite <- app_assoc. cbn.
    unfold resolved_actions. cbn. by destruct (resolve_uuid w u).
Qed.

Lemma place_actions_from (cols : nat) (sorted : list string) (m s : nat)
    (items : gmap string CellData) :
  (s + m ≤ length sorted)%nat →
  fold_left
    (λ items i, <[quick_slot cols i := quick_cell (default "" (sorted !! i))]> items)
    (seq s m) items
  = fill_slots cols (map quick_cell (take m (drop s sorted))) s items.
Proof.
  revert s items. induction m as [|m IH]; intros s items Hlen; [done|].
  cbn [seq fold_left].
  destruct (sorted !! s) as [u|] eqn:Hs;
    [|apply lookup_ge_None in Hs; lia].
  rewrite IH by lia. rewrite (drop_S _ _ _ Hs). done.
Qed.

Lemma place_actions_fill (cols : nat) (sorted : list string) (m : nat)
    (items : gmap string CellData) :
  (m ≤ length sorted)%nat →
  place_actions cols sorted m items = fill_slots cols (map quick_cell (take m sorted)) 0 items.
Proof. intros Hm. unfold place_actions. by rewrite place_actions_from. Qed.

Local Arguments resolve_actions : simpl never.
Local Arguments resolved_actions : simpl never.
Local Arguments place_actions : simpl never.
Local Arguments js_sort : simpl never.
Local Arguments Nat.ltb : simpl never.
Local Arguments Nat.min : simpl never.

Ltac unfold_populate :=
  unfold populateQuickAccess, import_PersistenceManager, loadState, saveState, hud_refresh,
    console_log, console_error, sleep.

Lemma existing_items_grid (state : HudState) (grid : Grid) (others : list Grid) :
  ensure_grids state = grid :: others →
  size (existing_items state) = 0%nat →
  default ∅ (grid_items grid) = ∅.
Proof.
  unfold ensure_grids, existing_items.
  destruct (hs_quickAccess state) as [[grids|]|].
  - intros ->. apply map_size_empty_iff.
  - by intros [= <- <-].
  - by intros [= <- <-].
Qed.

(** C6. With an item already in quick access grid 0, [populateQuickAccess]
    returns without a save and the world, the persisted HUD state included,
    is as it was.  A save happens only when grid 0 has no items, and then the
    state saved has, in grid 0, the first [min(r, 6)] of the [r <= n] resolved
    uuids in the order [sort] by name leaves them, the [i]-th at key
    "(i mod cols)-(i div cols)" as an 'Item' cell that holds that uuid and
    nothing else. *)
Theorem populateQuickAccess_frame_and_layout (H : Host) (w : World) (actor : string)
    (uuids : list string) :
  let r := run (populateQuickAccess H (Some actor) (Some uuids)) w in
  let state := loaded_state w actor in
  let sorted := js_sort (by_name H) (resolved_actions w uuids) in
  let m := (length sorted `min` 6)%nat in
  ((0 < size (existing_items state))%nat →
     outcome r = Ret tt ∧ world_of r = w ∧ saves (trace_of r) = [])
  ∧ (saves (trace_of r) ≠ [] → size (existing_items state) = 0%nat)
  ∧ (∀ grid others,
       uuids ≠ [] → persistence_ok w = true →
       size (existing_items state) = 0%nat →
       ensure_grids state = grid :: others →
       (0 < grid_cols grid)%nat →
       ∃ items,
         saves (trace_of r)
         = [(actor, {| hs_quickAccess := Some (Some
                        ({| grid_rows := grid_rows grid; grid_cols := grid_cols grid;
                            grid_items := Some items |} :: others)) |})]
         ∧ (m ≤ length uuids `min` 6)%nat
         ∧ size items = m
         ∧ sorted ≡ₚ resolved_actions w uuids
         ∧ (collation H → StronglySorted (name_le H) sorted)
         ∧ ∀ i, (i < m)%nat →
             ∃ u name, sorted !! i = Some (u, name)
               ∧ items !! slotKey (pretty (i mod grid_cols grid)%nat)
                                  (pretty (i / grid_cols grid)%nat)
                 = Some {| cell_uuid := u; cell_type := "Item"; cell_extra := None |}).
Proof.
  intros r state sorted m.
  assert ((0 < size (existing_items state))%nat →
     outcome r = Ret tt ∧ world_of r = w ∧ saves (trace_of r) = []) as Hframe.
  { intros Hex. subst r. unfold_populate.
    destruct uuids as [|u uuids]; [done|]. mrun.
    destruct (persistence_ok w); cbn; [|done].
    fold state.
    apply Nat.ltb_lt in Hex. rewrite Hex. cbn. done. }
  split; [exact Hframe|]. split.
  - intros Hs. destruct (size (existing_items state)) eqn:E; [done|].
    destruct Hframe as (_ & _ & Hno); [lia|]. done.
  - intros grid others Hne Hok Hempty Hgrids Hcols.
    pose proof (js_sort_length (by_name H) (resolved_actions w uuids)) as Hlen.
    fold sorted in Hlen.
    assert (length (resolved_actions w uuids) ≤ length uuids)%nat as Hres.
    { unfold resolved_actions. apply omap_length_le. }
    assert (m ≤ length (map fst sorted))%nat as Hm.
    { rewrite length_map. subst m. lia. }
    exists (fill_slots (grid_cols grid) (map quick_cell (take m (map fst sorted))) 0 ∅).
    split; [|split; [|split; [|split; [|split]]]].
    + subst r. unfold_populate.
      destruct uuids as [|u uuids]; [done|]. mrun. rewrite Hok. cbn.
      fold state. rewrite Hempty.
      change (0 <? 0)%nat with false. cbn.
      rewrite resolve_actions_run. cbn. fold sorted. rewrite Hgrids. cbn.
      rewrite (existing_items_grid state grid others Hgrids Hempty).
      rewrite length_map. fold m. rewrite place_actions_fill by done.
      destruct (bool_decide _); cbn.
      2:{ rewrite !omap_app, omap_map_none by done. done. }
      destruct (host_refresh H _) as [[|e] w']; cbn;
        rewrite !omap_app, omap_map_none by done; done.
    + subst m. rewrite Hlen. lia.
    + rewrite fill_slots_size; [|done|done].
      rewrite map_size_empty, length_map, length_take. lia.
    + apply js_sort_perm.
    + intros [Htot Htrans]. unfold name_le.
      apply (js_sort_sorted (by_name H)); unfold by_name; eauto.
    + intros i Hi.
      destruct (sorted !! i) as [[u name]|] eqn:Hs;
        [|apply lookup_ge_None in Hs; subst m; lia].
      exists u, name. split; [done|].
      pose proof (fill_slots_lookup (grid_cols grid)
                    (map quick_cell (take m (map fst sorted))) 0 ∅ i (quick_cell u) Hcols)
        as Hl.
      destruct (grid_cols grid) as [|c] eqn:Ec; [lia|].
      cbn [quick_slot] in Hl. apply Hl.
      rewrite list_lookup_fmap, lookup_take_lt by done.
      by rewrite list_lookup_fmap, Hs.
Qed.

(** ** Order of the host calls *)

Section Appends.

Context (p : Event → bool).

Lemma appends_ret {A} (a : A) : appends p (mret a).
Proof. intros s. exists []. cbn. by rewrite app_nil_r. Qed.

Lemma appends_emit (e : Event) : p e = true → appends p (emit e).
Proof. intros He s. exists [e]. cbn. by rewrite He. Qed.

Lemma appends_gets {A} (f : World → A) : appends p (gets f).
Proof. intros s. exists []. cbn. by rewrite app_nil_r. Qed.

Lemma appends_modify (f : World → World) : appends p (modify f).
Proof. intros s. exists []. cbn. by rewrite app_nil_r. Qed.

Lemma appends_throw {A} (e : Exn) : appends p (@throw A e).
Proof. intros s. exists []. cbn. by rewrite app_nil_r. Qed.

Lemma appends_lift_host {A} (f : World → Res A * World) : appends p (lift_host f).
Proof.
  intros s. exists []. unfold lift_host. destruct (f (st_world s)). cbn.
  by rewrite app_nil_r.
Qed.

Lemma appends_bind {A B} (m : M A) (f : A → M B) :
  appends p m → (∀ a, appends p (f a)) → appends p (m ≫= f).
Proof.
  intros Hm Hf s. unfold mbind, M_bind.
  destruct (Hm s) as (e1 & He1 & Hp1). destruct (m s) as [[a|e] s1]; cbn in *.
  - destruct (Hf a s1) as (e2 & He2 & Hp2). exists (e1 ++ e2)%list.
    by rewrite He2, He1, app_assoc, forallb_app, Hp1, Hp2.
  - by exists e1.
Qed.

Lemma appends_try_catch {A} (m : M A) (h : Exn → M A) :
  appends p m → (∀ e, appends p (h e)) → appends p (try_catch m h).
Proof.
  intros Hm Hh s. unfold try_catch.
  destruct (Hm s) as (e1 & He1 & Hp1). destruct (m s) as [[a|e] s1]; cbn in *.
  - by exists e1.
  - destruct (Hh e s1) as (e2 & He2 & Hp2). exists (e1 ++ e2)%list.
    by rewrite He2, He1, app_assoc, forallb_app, Hp1, Hp2.
Qed.

Lemma appends_try_finally {A} (m : M A) (f : M unit) :
  appends p m → appends p f → appends p (try_finally m f).
Proof.
  intros Hm Hf s. unfold try_finally.
  destruct (Hm s) as (e1 & He1 & Hp1). destruct (m s) as [r s1]; cbn in *.
  destruct (Hf s1) as (e2 & He2 & Hp2). destruct (f s1) as [[[]|e] s2]; cbn in *;
    exists (e1 ++ e2)%list; by rewrite He2, He1, app_assoc, forallb_app, Hp1, Hp2.
Qed.

End Appends.

Create HintDb appends.

Ltac solve_appends :=
  repeat first
    [ solve [auto with appends nocore]
    | apply appends_ret | apply appends_emit; reflexivity | apply appends_gets
    | apply appends_modify | apply appends_throw | apply appends_lift_host
    | apply appends_bind; [|intros ?]
    | apply appends_try_catch; [|intros ?]
    | apply appends_try_finally
    | assumption
    | match goal with
      | |- appends _ (match ?x with _ => _ end) => destruct x
      end ].

Lemma appends_resolve_actions (uuids : list string) :
  appends any_event (resolve_actions uuids).
Proof.
  induction uuids as [|u uuids IH]; cbn [resolve_actions]; unfold fromUuid;
    solve_appends.
Qed.

#[local] Hint Resolve appends_resolve_actions : appends.

Lemma appends_populateQuickAccess (H : Host) (actor : option string)
    (uuids : option (list string)) :
  appends any_event (populateQuickAccess H actor uuids).
Proof. unfold_populate. solve_appends. Qed.

#[local] Hint Resolve appends_populateQuickAccess : appends.

Lemma appends_hooks_on_each (events : list string) :
  appends not_register (hooks_on_each events).
Proof.
  induction events as [|e events IH]; cbn [hooks_on_each]; solve_appends.
Qed.

#[local] Hint Resolve appends_hooks_on_each : appends.

Lemma appends_registerAdvantageHooks : appends not_register registerAdvantageHooks.
Proof. unfold registerAdvantageHooks. solve_appends. Qed.

Lemma appends_initializeDefaultCPRActions :
  appends not_register initializeDefaultCPRActions.
Proof.
  unfold initializeDefaultCPRActions, initializeDefaultActions, isCPRActive, module_active,
    getCPRConfig, get_rulesVersion, settings_get_list, settings_set_list, packs_get,
    pack_getIndex, console_log, console_warn.
  solve_appends.
Qed.

Lemma registrations_quiet (ext : list Event) :
  forallb not_register ext = true → registrations ext = [].
Proof.
  induction ext as [|e ext IH]; [done|]. cbn [forallb].
  intros [He Hext]%andb_true_iff. unfold registrations in *. cbn.
  rewrite (IH Hext). by destruct e.
Qed.

Lemma forallb_map_true {A B} (p : B → bool) (g : A → B) (l : list A) :
  (∀ x, p (g x) = true) → forallb p (map g l) = true.
Proof.
  intros Hp. induction l as [|x l IH]; cbn; [done|]. by rewrite Hp, IH.
Qed.

Lemma step_settings_get_bool {A} (key : string) (f : bool → M A) (w : World)
    (tr : list Event) :
  (settings_get_bool key ≫= f) {| st_world := w; st_trace := tr |}
  = f (default false (bool_settings w !! key))
      {| st_world := w; st_trace := (tr ++ [SettingsGet MODULE_ID key])%list |}.
Proof. done. Qed.

Lemma step_isCPRActive {A} (f : bool → M A) (s : St) :
  (isCPRActive ≫= f) s = f (bool_decide ("chris-premades" ∈ active_modules (st_world s))) s.
Proof. done. Qed.

Lemma step_sleep {A} (ms : nat) (k : M A) (w : World) (tr : list Event) :
  (sleep ms ≫= λ _, k) {| st_world := w; st_trace := tr |}
  = k {| st_world := w; st_trace := (tr ++ [SetTimeout ms])%list |}.
Proof. done. Qed.

Lemma step_getCPRConfig {A} (f : CPRConfig → M A) (h : Exn → M A) (w : World)
    (tr : list Event) :
  ∃ cfg,
    try_catch (getCPRConfig ≫= f) h {| st_world := w; st_trace := tr |}
    = try_catch (f cfg) h
        {| st_world := w;
           st_trace := (tr ++ [SettingsGet "dnd5e" "rulesVersion"])%list |}.
Proof.
  unfold getCPRConfig, get_rulesVersion. mrun.
  destruct (String.eqb (rulesVersion w) "modern"); eauto.
Qed.

(** C9. [onTokenCreation] either stops before any delay (no actor, the
    setting off, CPR inactive) or its host calls start with the settings
    check, the 200 ms delay and only then the read of the rules version,
    everything else following.  In [populateQuickAccess] nothing before the
    save is a save, a delay or a refresh; the save is followed by the log
    line and the 50 ms delay, and a refresh can only come after that. *)
Theorem cpr_autopopulate_order (H : Host) (w : World) :
  (∀ actor,
     let tr := trace_of (run (onTokenCreation H actor) w) in
     tr = []
     ∨ tr = [SettingsGet MODULE_ID "enableCPRActionsAutoPopulate"]
     ∨ ∃ rest,
         tr = [SettingsGet MODULE_ID "enableCPRActionsAutoPopulate";
               SetTimeout 200;
               SettingsGet "dnd5e" "rulesVersion"] ++ rest)%list
  ∧ (∀ actor uuids,
     let tr := trace_of (run (populateQuickAccess H actor uuids) w) in
     ∃ pre, forallb calm pre = true
       ∧ (tr = pre
          ∨ ∃ a st msg tail,
              tr = (pre ++ [SaveState a st; ConsoleLog msg; SetTimeout 50] ++ tail)%list
              ∧ (tail = [] ∨ tail = [HudRefresh]
                 ∨ ∃ msg', tail = [HudRefresh; ConsoleError msg']))).
Proof.
  split.
  - intros [actor|]; [|by left].
    unfold onTokenCreation, run, trace_of.
    rewrite step_settings_get_bool.
    destruct (default false _); cbn [negb]; [|right; by left].
    rewrite step_isCPRActive.
    destruct (bool_decide _); cbn [negb]; [|right; by left].
    rewrite step_sleep.
    right. right.
    match goal with
    | |- context [ try_catch (getCPRConfig ≫= ?f) ?h ?s ] =>
        destruct (step_getCPRConfig f h w
                    ([] ++ [SettingsGet MODULE_ID "enableCPRActionsAutoPopulate"]
                        ++ [SetTimeout 200])%list) as [cfg Hcfg]
    end.
    cbn in Hcfg |- *. rewrite Hcfg.
    match goal with
    | |- context [ try_catch ?m ?h ?s ] =>
        assert (appends any_event (try_catch m h)) as Hk
    end.
    { unfold settings_get_list, packs_get, pack_getIndex, console_warn, console_error.
      solve_appends. }
    match goal with
    | |- context [ try_catch ?m ?h ?s ] => destruct (Hk s) as (rest & -> & _)
    end.
    by exists rest.
  - intros actor uuids. cbn zeta.
    destruct actor as [actor|];
      [|eexists; split; [|left; reflexivity]; done].
    destruct uuids as [[|u uuids]|];
      [eexists; split; [|left; reflexivity]; done| |
       eexists; split; [|left; reflexivity]; done].
    unfold_populate. mrun.
    destruct (persistence_ok w); cbn;
      [|eexists; split; [|left; reflexivity]; done].
    destruct (0 <? size _)%nat; cbn;
      [eexists; split; [|left; reflexivity]; done|].
    rewrite resolve_actions_run. cbn.
    set (lookups := map (λ u0, FromUuid (ContentUuid u0)) uuids).
    assert (forallb calm lookups = true) as Hcalm by (by apply forallb_map_true).
    destruct (ensure_grids _) as [|grid others]; cbn.
    { eexists; split; [|left; reflexivity]. cbn.
      rewrite forallb_app, Hcalm. done. }
    exists ([ImportPersistenceManager; LoadState actor;
             ConsoleLog "[bg3-hud-dnd5e] CPR AutoPopulate: Populating";
             FromUuid (ContentUuid u)] ++ lookups)%list.
    split; [cbn; exact Hcalm|].
    right.
    destruct (bool_decide _); cbn.
    + destruct (host_refresh H _) as [[[]|e] w']; cbn;
        do 4 eexists; (split; [rewrite <- !app_assoc; cbn; reflexivity|]); eauto.
    + do 4 eexists. split; [rewrite <- !app_assoc; cbn; reflexivity|]. eauto.
Qed.

(** ** The rest dialog *)

Ltac rest_case :=
  eexists; split; [reflexivity|]; repeat split; intros; simplify_eq; try done.

(** C8. Without an actor [showRestDialog] returns at once and shows nothing.
    With one it offers the two actions 'short' and 'long'; for an actor of
    the game system, which has both rest methods, the answer 'short' calls
    [shortRest()] only, 'long' calls [longRest()] only, and a cancelled dialog
    calls neither. *)
Theorem showRestDialog_choices (H : Host) (w : World) :
  run (showRestDialog H None) w = (Ret tt, {| st_world := w; st_trace := [] |})
  ∧ ∀ actor a, get_actor w actor = Some a →
      let tr := trace_of (run (showRestDialog H (Some actor)) w) in
      ∃ tail, tr = ButtonChoiceDialog ["short"; "long"] :: tail
        ∧ (host_dialog_choice H w = Some "short" → actor_has_shortRest a = true →
           tail = [ShortRest actor])
        ∧ (host_dialog_choice H w = Some "long" → actor_has_longRest a = true →
           tail = [LongRest actor])
        ∧ (host_dialog_choice H w = None → tail = []).
Proof.
  split; [done|]. intros actor a Ha.
  unfold showRestDialog, showButtonChoiceDialog, shortRest, longRest. mrun.
  rewrite Ha. cbn.
  destruct (host_dialog_choice H w) as [choice|] eqn:Hch; cbn.
  - destruct (decide (choice = "short")) as [->|Hs].
    + rewrite bool_decide_eq_true_2 by done. cbn.
      destruct (actor_has_shortRest a); cbn.
      * destruct (host_shortRest H actor w). cbn. rest_case.
      * rewrite bool_decide_eq_false_2 by done. cbn. rest_case.
    + rewrite bool_decide_eq_false_2 by congruence. cbn.
      destruct (decide (choice = "long")) as [->|Hl].
      * rewrite bool_decide_eq_true_2 by done. cbn.
        destruct (actor_has_longRest a); cbn.
        -- destruct (host_longRest H actor w). cbn. rest_case.
        -- rest_case.
      * rewrite bool_decide_eq_false_2 by congruence. cbn. rest_case.
  - rest_case.
Qed.

Lemma copy_object_spec (l : positive) (h : gmap positive ItemData) (d : ItemData) :
  h !! l = Some d →
  ∃ l' h', copy_object l h = Some (l', h')
    ∧ h !! l' = None ∧ h' !! l' = Some d
    ∧ ∀ k, is_Some (h !! k) → h' !! k = h !! k.
Proof.
  intros Hl. unfold copy_object. rewrite Hl.
  assert (h !! fresh (dom h) = None) as Hfresh
    by (apply not_elem_of_dom, is_fresh).
  eexists _, _. split; [done|]. split; [done|]. split; [apply lookup_insert_eq|].
  intros k [x Hk]. apply lookup_insert_ne. congruence.
Qed.

(** In the store, the prepared data is a new object: every object that
    existed before, the document's source among them, is as it was. *)
Lemma prepared_data_is_fresh (f : ItemData → ItemData) (src : positive)
    (h : gmap positive ItemData) (d : ItemData) :
  h !! src = Some d →
  ∃ object data h1 h2,
    copy_object src h = Some (object, h1)
    ∧ copy_object object h1 = Some (data, h2)
    ∧ alter f data h2 !! data = Some (f d)
    ∧ h !! data = None
    ∧ ∀ k, is_Some (h !! k) → alter f data h2 !! k = h !! k.
Proof.
  intros Hsrc.
  destruct (copy_object_spec src h d Hsrc) as (object & h1 & E1 & Hn1 & Ho & Hk1).
  destruct (copy_object_spec object h1 d Ho) as (data & h2 & E2 & Hn2 & Hd & Hk2).
  exists object, data, h1, h2. split; [done|]. split; [done|].
  assert (h !! data = None) as Hnew.
  { destruct (h !! data) as [x|] eqn:E; [|done].
    rewrite <- Hk1 in E by eauto. congruence. }
  split; [by rewrite lookup_alter_eq, Hd|]. split; [done|].
  intros k Hk. rewrite lookup_alter_ne by (intros ->; destruct Hk; congruence).
  rewrite Hk2 by (rewrite Hk1; done). by apply Hk1.
Qed.

Lemma clone_data_fields (src : Item) :
  data_id (clone_data src) = None
  ∧ data_name (clone_data src) = item_name src
  ∧ data_type (clone_data src) = item_type src
  ∧ data_img (clone_data src) = item_img src
  ∧ data_system (clone_data src) = item_system src.
Proof.
  unfold clone_data, move_exportSource, ensure_stats, deepClone, toObject,
    item_name, item_type, item_img, item_system.
  destruct (item_source src) as [? ? ? ? ? [[?|]|] [[?|]|]]; done.
Qed.

Lemma useItem_data_spec (src : Item) (at_ : positive) (h : gmap positive ItemData) :
  h !! at_ = Some (item_source src) →
  ∃ data h', useItem_data at_ h = Some (data, h')
    ∧ h' !! data = Some (clone_data src) ∧ h !! data = None
    ∧ h' !! at_ = Some (item_source src)
    ∧ ∀ k, is_Some (h !! k) → h' !! k = h !! k.
Proof.
  intros Hat.
  destruct (prepared_data_is_fresh
              (λ d, delete_id (move_exportSource (ensure_stats d))) at_ h _ Hat)
    as (object & data & h1 & h2 & E1 & E2 & Hdata & Hnew & Hold).
  assert (alter delete_id data (alter move_exportSource data (alter ensure_stats data h2))
          = alter (λ d, delete_id (move_exportSource (ensure_stats d))) data h2) as Halt.
  { apply map_eq. intros k. destruct (decide (k = data)) as [->|Hk].
    - rewrite !lookup_alter_eq. by destruct (h2 !! data).
    - by rewrite !lookup_alter_ne. }
  exists data, (alter (λ d, delete_id (move_exportSource (ensure_stats d))) data h2).
  unfold useItem_data. rewrite E1, E2, Halt.
  repeat split; try done. rewrite Hold by eauto. done.
Qed.

Lemma onClick_data_spec (src : Item) (at_ : positive) (h : gmap positive ItemData) :
  h !! at_ = Some (item_source src) →
  ∃ data h', onClick_data at_ h = Some (data, h')
    ∧ h' !! data = Some (delete_id (deepClone (toObject src))) ∧ h !! data = None
    ∧ h' !! at_ = Some (item_source src)
    ∧ ∀ k, is_Some (h !! k) → h' !! k = h !! k.
Proof.
  intros Hat.
  destruct (prepared_data_is_fresh delete_id at_ h _ Hat)
    as (object & data & h1 & h2 & E1 & E2 & Hdata & Hnew & Hold).
  exists data, (alter delete_id data h2).
  unfold onClick_data. rewrite E1, E2.
  repeat split; try done. rewrite Hold by eauto. done.
Qed.

Lemma appends_useItem (H : Host) (uuid : string) :
  appends reads_or_embeds (_useItem H uuid).
Proof.
  unfold _useItem, delete_created, fromUuid, createEmbeddedDocuments,
    deleteEmbeddedDocuments, item_use, notifications_warn, console_log.
  cbn zeta. solve_appends.
Qed.

Lemma appends_onClick_embeds (H : Host) (this_actor : option string) :
  appends reads_or_embeds (_onClick H this_actor).
Proof.
  unfold _onClick, getCPRGenericActionsUUID, get_rulesVersion, fromUuid,
    createEmbeddedDocuments, item_use, notifications_warn, notifications_error,
    console_log, console_error.
  cbn zeta. solve_appends.
Qed.

(** C7. Using an item that resolves from a compendium leaves the compendium
    as it was and creates a clone on the actor.  For a compendium item and a
    resolved actor, [_useItem] asks the host for exactly one new embedded
    document, on that actor, whose data is the source data with [_id]
    removed (and [exportSource] moved under [_stats]); the Generic Actions
    click does the same with the compendium item when the actor has no item
    of the name it looks for.  The host adds the document to the actor's
    items and the clone is the item used.  In a store of plain objects, the
    data so created is the content of a new object, and the source object of
    the document keeps its content, [_id] included.  As long as the host's
    own [use()] leaves the packs alone, the packs and their documents are
    the same after the call; nothing is ever created from anything but the
    resolved item, and every host call of the run is a read, a report,
    [use()], or the creation or deletion of an embedded document of an
    actor. *)
Theorem compendium_never_modified (H : Host) (w : World) :
  (∀ it, keeps_compendium (host_use H it)) →
  (∀ uuid src a,
     resolve_uuid w uuid = Some src → item_parent src = None →
     actor_for w src = Some a →
     let r := run (_useItem H uuid) w in
     let d := delete_id (move_exportSource (ensure_stats (item_source src))) in
     creations (trace_of r) = [(a, d)]
     ∧ List.filter (λ e, match e with CreateEmbedded _ _ _ => true | _ => false end)
                   (trace_of r)
       = [CreateEmbedded a d false]
     ∧ data_id d = None ∧ data_name d = item_name src ∧ data_type d = item_type src
     ∧ data_img d = item_img src ∧ data_system d = item_system src
     ∧ (create_returns_document w = true → is_Some (get_actor w a) →
        build_embedded w a d ∈ items_of (world_after_create w a d) a
        ∧ item_parent (build_embedded w a d) = Some a
        ∧ (created_has_use w = true → uses (trace_of r) = [build_embedded w a d]))
     ∧ compendium (world_of r) = compendium w ∧ packs (world_of r) = packs w
     ∧ ∀ (at_ : positive) (h : gmap positive ItemData),
         h !! at_ = Some (item_source src) →
         ∃ data h', useItem_data at_ h = Some (data, h')
           ∧ h' !! data = Some d ∧ h !! data = None
           ∧ h' !! at_ = Some (item_source src)
           ∧ ∀ k, is_Some (h !! k) → h' !! k = h !! k)
  ∧ (∀ actor ref src,
     (∀ it, it ∈ items_of w actor → item_name it ≠ generic_actions_name w) →
     outcome (run getCPRGenericActionsUUID w) = Ret ref →
     resolve_ref w ref = Some src →
     let r := run (_onClick H (Some actor)) w in
     let d := delete_id (item_source src) in
     creations (trace_of r) = [(actor, d)]
     ∧ List.filter (λ e, match e with CreateEmbedded _ _ _ => true | _ => false end)
                   (trace_of r)
       = [CreateEmbedded actor d true]
     ∧ data_id d = None ∧ data_name d = item_name src ∧ data_type d = item_type src
     ∧ data_img d = item_img src ∧ data_system d = item_system src
     ∧ (create_returns_document w = true → is_Some (get_actor w actor) →
        build_embedded w actor d ∈ items_of (world_after_create w actor d) actor
        ∧ item_parent (build_embedded w actor d) = Some actor
        ∧ (created_has_use w = true → uses (trace_of r) = [build_embedded w actor d]))
     ∧ compendium (world_of r) = compendium w ∧ packs (world_of r) = packs w
     ∧ ∀ (at_ : positive) (h : gmap positive ItemData),
         h !! at_ = Some (item_source src) →
         ∃ data h', onClick_data at_ h = Some (data, h')
           ∧ h' !! data = Some d ∧ h !! data = None
           ∧ h' !! at_ = Some (item_source src)
           ∧ ∀ k, is_Some (h !! k) → h' !! k = h !! k)
  ∧ (∀ uuid,
     let r := run (_useItem H uuid) w in
     compendium (world_of r) = compendium w ∧ packs (world_of r) = packs w
     ∧ forallb reads_or_embeds (trace_of r) = true
     ∧ ∀ a d, (a, d) ∈ creations (trace_of r) →
         ∃ src, resolve_uuid w uuid = Some src ∧ item_parent src = None
                ∧ actor_for w src = Some a
                ∧ d = clone_data src ∧ data_id d = None)
  ∧ (∀ actor,
     let r := run (_onClick H (Some actor)) w in
     compendium (world_of r) = compendium w ∧ packs (world_of r) = packs w
     ∧ forallb reads_or_embeds (trace_of r) = true
     ∧ ∀ a d, (a, d) ∈ creations (trace_of r) →
         ∃ ref src, outcome (run getCPRGenericActionsUUID w) = Ret ref
                ∧ resolve_ref w ref = Some src
                ∧ a = actor
                ∧ d = delete_id (deepClone (toObject src)) ∧ data_id d = None).
Proof.
  intros Hframe.
  assert (∀ it w0 res w1, host_use H it w0 = (res, w1) →
            compendium w1 = compendium w0 ∧ packs w1 = packs w0) as Hf.
  { intros it w0 res w1 E. destruct (Hframe it w0) as [Hc Hp].
    rewrite E in Hc, Hp. done. }
  assert (∀ uuid,
     let r := run (_useItem H uuid) w in
     compendium (world_of r) = compendium w ∧ packs (world_of r) = packs w
     ∧ ∀ a d, (a, d) ∈ creations (trace_of r) →
         ∃ src, resolve_uuid w uuid = Some src ∧ item_parent src = None
                ∧ actor_for w src = Some a
                ∧ d = clone_data src ∧ data_id d = None) as Huse.
  { intros uuid. unfold_useItem. mrun.
    destruct (resolve_uuid w uuid) as [it|] eqn:Hres; cbn; [|no_creation].
    destruct (actor_for w it) as [a|] eqn:Ha; cbn; [|no_creation].
    destruct (item_parent it) as [p|] eqn:Hp; cbn.
    + destruct (item_has_use it); cbn; [|no_creation].
      destruct (host_use H it w) as [res w1] eqn:E. cbn.
      apply Hf in E as [Hc Hpk]. no_creation.
    + fold (clone_data it).
      assert (∀ a' d', (a', d') ∈ [(a, clone_data it)] →
        ∃ src, Some it = Some src ∧ item_parent src = None ∧ actor_for w src = Some a'
               ∧ d' = clone_data src ∧ data_id d' = None) as Hcr.
      { intros a' d' Hin. apply list_elem_of_singleton in Hin as [= -> ->].
        exists it. repeat split; try done. }
      destruct (create_returns_document w); cbn; [|by repeat split].
      fold (world_after_create w a (clone_data it)).
      rewrite randomID_truthy. cbn.
      destruct (created_has_use w); cbn.
      * destruct (host_use H _ _) as [res w1] eqn:E. cbn.
        apply Hf in E as [Hc Hpk]. cbn in Hc, Hpk.
        destruct (items_has w1 a (randomID w)); cbn; by repeat split.
      * destruct (items_has _ a (randomID w)); cbn; by repeat split. }
  assert (∀ actor,
     let r := run (_onClick H (Some actor)) w in
     compendium (world_of r) = compendium w ∧ packs (world_of r) = packs w
     ∧ ∀ a d, (a, d) ∈ creations (trace_of r) →
         ∃ ref src, outcome (run getCPRGenericActionsUUID w) = Ret ref
                ∧ resolve_ref w ref = Some src
                ∧ a = actor
                ∧ d = delete_id (deepClone (toObject src)) ∧ data_id d = None) as Hclick.
  { intros actor.
    unfold _onClick, getCPRGenericActionsUUID, get_rulesVersion, fromUuid, item_use,
      notifications_warn, notifications_error, console_log, console_error,
      createEmbeddedDocuments.
    mrun.
    set (itemName := if String.eqb (rulesVersion w) "modern" then _ else _).
    destruct (find _ (items_of w actor)) as [found|]; cbn.
    + destruct (item_has_use found); cbn; [|no_creation].
      destruct (host_use H found w) as [[|e] w1] eqn:E; cbn;
        apply Hf in E as [Hc Hpk]; no_creation.
    + set (ref := if String.eqb (rulesVersion w) "legacy" then _ else _).
      destruct (resolve_ref w ref) as [src|] eqn:Hres; cbn; [|no_creation].
      assert (∀ a' d', (a', d') ∈ [(actor, delete_id (deepClone (toObject src)))] →
        ∃ ref0 src0, Ret ref = Ret ref0 ∧ resolve_ref w ref0 = Some src0 ∧ a' = actor
               ∧ d' = delete_id (deepClone (toObject src0)) ∧ data_id d' = None) as Hcr.
      { intros a' d' Hin. apply list_elem_of_singleton in Hin as [= -> ->].
        exists ref, src. by repeat split. }
      destruct (create_returns_document w); cbn; [|by repeat split].
      destruct (created_has_use w); cbn; [|by repeat split].
      destruct (host_use H _ _) as [[|e] w1] eqn:E; cbn;
        apply Hf in E as [Hc Hpk]; cbn in Hc, Hpk; by repeat split. }
  split; [|split; [|split]].
  3:{ intros uuid. destruct (Huse uuid) as (Hc & Hpk & Hcr).
      split; [exact Hc|]. split; [exact Hpk|]. split; [|exact Hcr].
      unfold run, trace_of.
      destruct (appends_useItem H uuid {| st_world := w; st_trace := [] |})
        as (ext & -> & Hext).
      done. }
  3:{ intros actor. destruct (Hclick actor) as (Hc & Hpk & Hcr).
      split; [exact Hc|]. split; [exact Hpk|]. split; [|exact Hcr].
      unfold run, trace_of.
      destruct (appends_onClick_embeds H (Some actor) {| st_world := w; st_trace := [] |})
        as (ext & -> & Hext).
      done. }
  - intros uuid src a Hres Hp Ha r d.
    destruct (Huse uuid) as (Hc & Hpk & _). fold r in Hc, Hpk.
    change d with (clone_data src).
    destruct (clone_data_fields src) as (Hid & Hname & Hty & Himg & Hsys).
    assert (creations (trace_of r) = [(a, clone_data src)]
            ∧ List.filter (λ e, match e with CreateEmbedded _ _ _ => true | _ => false end)
                          (trace_of r)
              = [CreateEmbedded a (clone_data src) false]
            ∧ (create_returns_document w = true → created_has_use w = true →
               uses (trace_of r) = [build_embedded w a (clone_data src)])) as (Hcr & Hev & Hu).
    { subst r. unfold_useItem. mrun. rewrite Hres. cbn. rewrite Ha, Hp. cbn.
      fold (clone_data src).
      destruct (create_returns_document w); cbn; [|done].
      fold (world_after_create w a (clone_data src)).
      rewrite randomID_truthy. cbn.
      destruct (created_has_use w); cbn.
      - destruct (host_use H _ _) as [res w1]. cbn.
        destruct (items_has w1 a (randomID w)); cbn; done.
      - destruct (items_has _ a (randomID w)); cbn; done. }
    split; [exact Hcr|]. split; [exact Hev|].
    split; [exact Hid|]. split; [exact Hname|]. split; [exact Hty|].
    split; [exact Himg|]. split; [exact Hsys|].
    split.
    { intros Hcreate Hactor. split; [by apply created_in_items|].
      split; [done|]. intros Hhas. by apply Hu. }
    split; [exact Hc|]. split; [exact Hpk|].
    intros at_ h Hat. by apply useItem_data_spec.
  - intros actor ref src Hname Href Hres r d.
    destruct (Hclick actor) as (Hc & Hpk & _). fold r in Hc, Hpk.
    change d with (delete_id (deepClone (toObject src))).
    assert (creations (trace_of r) = [(actor, d)]
            ∧ List.filter (λ e, match e with CreateEmbedded _ _ _ => true | _ => false end)
                          (trace_of r)
              = [CreateEmbedded actor d true]
            ∧ (create_returns_document w = true → created_has_use w = true →
               uses (trace_of r) = [build_embedded w actor d])) as (Hcr & Hev & Hu).
    { subst r. revert Href.
      assert (find (λ i, String.eqb (item_name i) (generic_actions_name w))
                   (items_of w actor) = None) as Hfind.
      { apply find_none_intro. intros it Hin.
        apply list_elem_of_In, Hname in Hin. by apply String.eqb_neq. }
      unfold generic_actions_name in Hfind.
      unfold _onClick, getCPRGenericActionsUUID, get_rulesVersion, fromUuid, item_use,
        notifications_warn, notifications_error, console_log, console_error,
        createEmbeddedDocuments.
      mrun. rewrite Hfind. cbn. intros [= Href]. rewrite Href, Hres. cbn.
      destruct (create_returns_document w); cbn; [|done].
      destruct (created_has_use w); cbn; [|done].
      destruct (host_use H _ _) as [[|e] w1]; cbn; done. }
    split; [exact Hcr|]. split; [exact Hev|].
    repeat (split; [done|]).
    split.
    { intros Hcreate Hactor. split; [by apply created_in_items|].
      split; [done|]. intros Hhas. by apply Hu. }
    split; [exact Hc|]. split; [exact Hpk|].
    intros at_ h Hat. by apply onClick_data_spec.
Qed.

(** ** Advantage hooks *)




(** ** Registration *)

Lemma bind_import_script {A} (path : string) (k : unit → M A) (w : World)
    (tr : list Event) :
  (import_script path ≫= k) {| st_world := w; st_trace := tr |}
  = if bool_decide (path ∈ broken_imports w)
    then (Throw (HostError "import failed"),
          {| st_world := w; st_trace := (tr ++ [ImportScript path])%list |})
    else k tt {| st_world := w; st_trace := (tr ++ [ImportScript path])%list |}.
Proof.
  unfold import_script. msteps. by destruct (bool_decide _).
Qed.

(** In dnd5e with the template fetched, a core script whose import rejects
    ends the ready handler at that import. *)
Lemma bg3HudReady_broken_import (w : World) :
  system_id w = "dnd5e" → fetch_ok w = true →
  (∃ path, path ∈ core_scripts ∧ path ∈ broken_imports w) →
  run bg3HudReady w
  = (Throw (HostError "import failed"),
     {| st_world := w;
        st_trace :=
          ([ConsoleLog "BG3 HUD D&D 5e | Received bg3HudReady hook";
            HandlebarsHelper "contains";
            Fetch "modules/bg3-hud-dnd5e/templates/tooltips/weapon-block.hbs";
            HandlebarsPartial "bg3-hud-dnd5e.weapon-block";
            ConsoleLog "BG3 HUD D&D 5e | Registering D&D 5e components"]
           ++ map ImportScript (imports_made w core_scripts))%list |}).
Proof.
  intros Hsys Hfetch (path & Hin & Hbroken). apply String.eqb_eq in Hsys.
  unfold run, bg3HudReady, fetch, console_log, createDnD5ePortraitContainer,
    createDnD5ePassivesContainer, createDnD5eWeaponSetContainer.
  msteps. rewrite Hsys. cbn [negb]. msteps. rewrite Hfetch. msteps.
  unfold core_scripts in *. cbn [imports_made map app].
  rewrite bind_import_script.
  destruct (bool_decide (_ ∈ broken_imports w)) eqn:E1; [done|].
  rewrite bind_import_script.
  destruct (bool_decide (_ ∈ broken_imports w)) eqn:E2 in |- *; [done|].
  rewrite bind_import_script.
  destruct (bool_decide (_ ∈ broken_imports w)) eqn:E3 in |- *; [done|].
  exfalso.
  apply bool_decide_eq_false in E1, E2, E3.
  apply elem_of_cons in Hin as [-> | Hin]; [done|].
  apply elem_of_cons in Hin as [-> | Hin]; [done|].
  apply list_elem_of_singleton in Hin as ->. done.
Qed.

(** C10. The [bg3HudReady] handler registers only in the dnd5e system: with
    any other system id it logs, warns and returns, and no registration is
    made; whenever a registration is made the system id is 'dnd5e'.  In
    dnd5e, once the template is fetched and the container classes of the
    core are imported, it registers the eight containers, the adapter, the
    menu builder and, when a tooltip manager exists, the tooltip renderer;
    when the fetch or one of the imports fails the handler ends in that
    error with nothing registered. *)
Theorem bg3HudReady_only_dnd5e (w : World) :
  let r := run bg3HudReady w in
  (system_id w ≠ "dnd5e" →
     r = (Ret tt,
          {| st_world := w;
             st_trace :=
               [ConsoleLog "BG3 HUD D&D 5e | Received bg3HudReady hook";
                ConsoleWarn "BG3 HUD D&D 5e | Not running D&D 5e system, skipping registration"] |})
     ∧ registrations (trace_of r) = [])
  ∧ (registrations (trace_of r) ≠ [] → system_id w = "dnd5e")
  ∧ (system_id w = "dnd5e" → fetch_ok w = true →
     (∀ path, path ∈ core_scripts → path ∉ broken_imports w) →
     registrations (trace_of r)
     = ([RegPortraitContainer; RegPassivesContainer; RegWeaponSetContainer;
         RegActionButtonsContainer; RegFilterContainer; RegInfoContainer;
         RegContainer "situationalBonuses"; RegContainer "cprGenericActions";
         RegAdapter; RegMenuBuilder "dnd5e"]
        ++ match tooltip_manager w with
           | Some _ => [RegTooltipRenderer "dnd5e"]
           | None => []
           end)%list)
  ∧ (system_id w = "dnd5e" →
     fetch_ok w = false ∨ (∃ path, path ∈ core_scripts ∧ path ∈ broken_imports w) →
     registrations (trace_of r) = [] ∧ returns_normally r = false ∧ world_of r = w).
Proof.
  cbn zeta.
  assert (system_id w ≠ "dnd5e" →
     run bg3HudReady w = (Ret tt,
          {| st_world := w;
             st_trace :=
               [ConsoleLog "BG3 HUD D&D 5e | Received bg3HudReady hook";
                ConsoleWarn "BG3 HUD D&D 5e | Not running D&D 5e system, skipping registration"] |})
     ∧ registrations (trace_of (run bg3HudReady w)) = []) as Hother.
  { intros Hsys. apply String.eqb_neq in Hsys.
    unfold run, bg3HudReady, console_log, console_warn. msteps. rewrite Hsys. done. }
  split; [exact Hother|]. split; [|split].
  - intros Hreg. destruct (decide (system_id w = "dnd5e")) as [|Hn]; [done|].
    destruct (Hother Hn) as [_ Hno]. done.
  - intros Hsys Hfetch Himports. apply String.eqb_eq in Hsys.
    unfold run, bg3HudReady, fetch, console_log, console_warn, console_error,
      createDnD5ePortraitContainer, createDnD5ePassivesContainer,
      createDnD5eWeaponSetContainer.
    msteps. rewrite Hsys. cbn [negb]. msteps. rewrite Hfetch. msteps.
    rewrite !bind_import_script.
    rewrite !bool_decide_eq_false_2
      by (apply Himports; unfold core_scripts;
          repeat first [apply list_elem_of_here | apply list_elem_of_further]).
    msteps.
    destruct (tooltip_manager w) as [[[el|]]|]; cbn [tooltipElement]; msteps.
    all: match goal with
         | |- context [(initializeDefaultCPRActions ≫= ?k) ?s] =>
             assert (appends not_register (initializeDefaultCPRActions ≫= k)) as Htail
               by (apply appends_bind;
                   [apply appends_initializeDefaultCPRActions
                   |intros _; apply appends_bind;
                    [by apply appends_emit|intros _; apply appends_registerAdvantageHooks]]);
             destruct (Htail s) as (ext & Hext & Hq)
         end.
    all: unfold trace_of; rewrite Hext; cbn [st_trace].
    all: apply registrations_quiet in Hq.
    all: unfold registrations in *; rewrite omap_app, Hq; done.
  - intros Hsys [Hfetch|Hbroken].
    + apply String.eqb_eq in Hsys.
      unfold run, bg3HudReady, fetch, console_log.
      msteps. rewrite Hsys. cbn [negb]. msteps. rewrite Hfetch. msteps. done.
    + destruct (fetch_ok w) eqn:Hfetch.
      * rewrite (bg3HudReady_broken_import w Hsys Hfetch Hbroken).
        unfold trace_of, returns_normally, world_of, outcome. cbn [fst snd st_trace st_world].
        split; [|done]. unfold registrations. rewrite omap_app.
        by rewrite omap_map_none.
      * apply String.eqb_eq in Hsys.
        unfold run, bg3HudReady, fetch, console_log.
        msteps. rewrite Hsys. cbn [negb]. msteps. rewrite Hfetch. msteps. done.
Qed.

(** ** Runs on the sample worlds *)

Lemma string_compare_le_trans (a b c : string) :
  String.compare a b ≠ Gt → String.compare b c ≠ Gt → String.compare a c ≠ Gt.
Proof.
  revert b c. induction a as [|x a IH]; intros [|y b] [|z c]; cbn; try done.
  unfold Ascii.compare.
  destruct (N.compare_spec (N_of_ascii x) (N_of_ascii y)) as [Exy|Lxy|Gxy]; [| |done];
    destruct (N.compare_spec (N_of_ascii y) (N_of_ascii z)) as [Eyz|Lyz|Gyz];
    try done; intros Hab Hbc.
  - rewrite Exy, Eyz, N.compare_refl. by eapply IH.
  - rewrite Exy. by rewrite (proj2 (N.compare_lt_iff _ _) Lyz).
  - rewrite <- Eyz. by rewrite (proj2 (N.compare_lt_iff _ _) Lxy).
  - assert (N_of_ascii x < N_of_ascii z)%N as Lxz by lia.
    by rewrite (proj2 (N.compare_lt_iff _ _) Lxz).
Qed.

Lemma compare_Z_le (c : comparison) : (compare_Z c ≤ 0)%Z ↔ c ≠ Gt.
Proof. destruct c; cbn; split; (done || lia). Qed.

Lemma quiet_host_collation : collation quiet_host.
Proof.
  split; cbn.
  - intros a b. rewrite !compare_Z_le.
    rewrite (String.compare_antisym a b).
    destruct (String.compare b a); cbn; ((by left) || (by right)).
  - intros a b c. rewrite !compare_Z_le. apply string_compare_le_trans.
Qed.

Lemma missing_lookup_witness :
  returns_normally (run initializeDefaultActions table_world) = true
  ∧ returns_normally (run (_useItem quiet_host "Compendium.missing.Item.none0000")
                          table_world) = true
  ∧ item_name <$> items_of mixed_world "hero" = ["Longsword"; "Generic Actions (2014)"]
  ∧ (let r := run (_onClick quiet_host (Some "hero")) mixed_world in
     outcome r = Ret tt
     ∧ trace_of r
       = [ SettingsGet "dnd5e" "rulesVersion";
           SettingsGet "dnd5e" "rulesVersion";
           FromUuid (ContentUuid CPR_GENERIC_ACTIONS_UUIDS_modern);
           NotifyWarn "bg3-hud-dnd5e.Notifications.CPRGenericActionsNotFound" ]).
Proof.
  destruct (missing_lookup_warns_and_returns quiet_host table_world) as (Ha & Hb & _).
  destruct (missing_lookup_warns_and_returns quiet_host mixed_world) as (_ & _ & Hc).
  split; [|split; [|split; [reflexivity|]]].
  - destruct (Ha {| packName := "CPRActions2024";
                    packId := "chris-premades.CPRActions2024";
                    defaultActions := ["Dash"; "Disengage"; "Dodge"; "Help"; "Hide"; "Ready"];
                    isModern := true;
                    settingsKey := "selectedCPRActionsModern" |}) as (Hret & _).
    + apply (bool_decide_unpack _). vm_compute. exact I.
    + reflexivity.
    + left. reflexivity.
    + reflexivity.
    + unfold returns_normally. by rewrite Hret.
  - rewrite (Hb "Compendium.missing.Item.none0000"); reflexivity.
  - destruct (Hc "hero" (ContentUuid CPR_GENERIC_ACTIONS_UUIDS_modern)) as (Hret & _).
    + intros it Hin. change (it ∈ [sword; old_generic_actions]) in Hin.
      apply elem_of_cons in Hin as [-> | Hin]; [done|].
      apply list_elem_of_singleton in Hin as ->. done.
    + reflexivity.
    + reflexivity.
    + split; [exact Hret | reflexivity].
Defined.

Lemma onCellClick_witness :
  uses (trace_of (run (onCellClick quiet_host
                         (Some {| cell_uuid := item_uuid dash; cell_type := "Item";
                                  cell_extra := None |}))
                      table_world))
  = [build_embedded table_world "hero" (clone_data dash)].
Proof.
  destruct (onCellClick_delegates_use quiet_host table_world
              {| cell_uuid := item_uuid dash; cell_type := "Item"; cell_extra := None |}
              dash eq_refl eq_refl) as (_ & _ & Hclone & _).
  exact (Hclone eq_refl "hero" eq_refl).
Defined.

Lemma useItem_removes_clone_witness :
  items_has (world_of (run (_useItem failing_host (item_uuid dash)) table_world))
            "hero" (randomID table_world) = false
  ∧ outcome (run (_useItem failing_host (item_uuid dash)) table_world)
    = Throw (HostError "use failed").
Proof.
  destruct (useItem_removes_created_clone failing_host table_world (item_uuid dash)
              dash eq_refl eq_refl) as (Hclone & _).
  destruct (Hclone "hero" eq_refl eq_refl) as (_ & _ & Hgone & _ & Hthrow).
  split; [exact Hgone|].
  destruct (Hthrow eq_refl) as [_ Hout]. exact Hout.
Defined.

Lemma getContainerContents_witness :
  ∃ items,
    outcome (run (getContainerContents (Some backpack) (Some "hero")) table_world)
    = Ret {| grid_rows := 3; grid_cols := 5; grid_items := Some items |}
    ∧ size items = 2%nat
    ∧ items !! "0-0"
      = Some {| cell_uuid := "Compendium.chris-premades.CPRActions2024.Item.dash0000";
                cell_type := "Item";
                cell_extra := Some {| cx_name := "Dash"; cx_img := "icons/svg/item-bag.svg";
                                      cx_quantity := 1; cx_uses := None |} |}
    ∧ items !! "1-0"
      = Some {| cell_uuid := "Compendium.chris-premades.CPRActions2024.Item.help0000";
                cell_type := "Item";
                cell_extra := Some {| cx_name := "Help"; cx_img := "icons/svg/item-bag.svg";
                                      cx_quantity := 1; cx_uses := None |} |}
    ∧ (∃ grid,
         outcome (run (getContainerContents (Some quiver) (Some "hero")) quiver_world)
         = Ret grid
         ∧ grid_items grid ≫= (λ cells, cells !! "0-0")
           = Some {| cell_uuid := "Actor.hero.Item.arrows00";
                     cell_type := "Item";
                     cell_extra := Some {| cx_name := "Arrows"; cx_img := "icons/arrow.webp";
                                           cx_quantity := 20;
                                           cx_uses := Some (3%Z, 0%Z) |} |}).
Proof.
  destruct (getContainerContents_grid table_world backpack (Some "hero"))
    as (_ & items & Hrun & _ & Hsize & Hslot).
  exists items. split; [exact Hrun|]. split; [exact Hsize|].
  split; [exact (Hslot 0%nat dash eq_refl)|].
  split; [exact (Hslot 1%nat help eq_refl)|].
  destruct (getContainerContents_grid quiver_world quiver (Some "hero"))
    as (_ & cells & Hquiver & _ & _ & Hcell).
  eexists. split; [exact Hquiver|]. exact (Hcell 0%nat arrows eq_refl).
Defined.


Lemma populateQuickAccess_witness :
  world_of (run (populateQuickAccess quiet_host (Some "hero") (Some chosen_actions))
                stocked_world) = stocked_world
  ∧ ∃ items,
      saves (trace_of (run (populateQuickAccess quiet_host (Some "hero")
                              (Some chosen_actions)) table_world))
      = [("hero", {| hs_quickAccess := Some (Some
                       [ {| grid_rows := 2; grid_cols := 3;
                            grid_items := Some items |} ]) |})]
      ∧ size items = 3%nat
      ∧ StronglySorted (name_le quiet_host)
          (js_sort (by_name quiet_host) (resolved_actions table_world chosen_actions))
      ∧ items !! "1-0"
        = Some {| cell_uuid := "Compendium.chris-premades.CPRActions2024.Item.dodge000";
                  cell_type := "Item"; cell_extra := None |}.
Proof.
  split.
  - destruct (populateQuickAccess_frame_and_layout quiet_host stocked_world "hero"
                chosen_actions) as (Hframe & _).
    destruct Hframe as (_ & Hworld & _); [vm_compute; lia|]. exact Hworld.
  - destruct (populateQuickAccess_frame_and_layout quiet_host table_world "hero"
                chosen_actions) as (_ & _ & Hlayout).
    destruct (Hlayout {| grid_rows := 2; grid_cols := 3; grid_items := Some ∅ |} [])
      as (items & Hsave & _ & Hsize & _ & Hsorted & Hslots).
    + discriminate.
    + reflexivity.
    + reflexivity.
    + reflexivity.
    + cbn. lia.
    + exists items. split; [exact Hsave|]. split; [exact Hsize|].
      split; [exact (Hsorted quiet_host_collation)|].
      destruct (Hslots 1%nat) as (u & name & Hu & Hitem); [vm_compute; lia|].
      vm_compute in Hu. injection Hu as <- <-. exact Hitem.
Defined.

Lemma compendium_never_modified_witness :
  (let r := run (_useItem quiet_host (item_uuid dash)) table_world in
   creations (trace_of r)
   = [("hero", {| data_id := None; data_name := "Dash"; data_img := "icons/svg/item-bag.svg";
                  data_type := "feat"; data_system := None;
                  data_stats := Some (Some {| es_world := "cpr"; es_system := "dnd5e" |});
                  data_flags := Some None |})]
   ∧ compendium (world_of r) = compendium table_world
   ∧ compendium (world_of r) !! item_uuid dash = Some dash
   ∧ item_id dash = Some "dash0000")
  ∧ (let r := run (_onClick quiet_host (Some "hero")) premades_world in
     creations (trace_of r)
     = [("hero", {| data_id := None; data_name := "Generic Actions (2024)";
                    data_img := "icons/svg/d20.svg"; data_type := "feat";
                    data_system := None; data_stats := Some None; data_flags := None |})]
     ∧ item_name <$> items_of (world_of r) "hero"
       = ["Longsword"; "Generic Actions (2024)"]
     ∧ compendium (world_of r) = compendium premades_world
     ∧ compendium (world_of r) !! CPR_GENERIC_ACTIONS_UUIDS_modern = Some generic_actions
     ∧ item_id generic_actions = Some "Iz2XtxLReLnXTDiI")
  ∧ (∃ data h',
       useItem_data 1%positive {[ 1%positive := item_source dash ]} = Some (data, h')
       ∧ data ≠ 1%positive
       ∧ data_id <$> h' !! data = Some None
       ∧ h' !! 1%positive = Some (item_source dash)).
Proof.
  assert (∀ it, keeps_compendium (host_use quiet_host it)) as Hquiet
    by (intros it w; split; reflexivity).
  destruct (compendium_never_modified quiet_host table_world Hquiet) as (Huse & _).
  destruct (compendium_never_modified quiet_host premades_world Hquiet) as (_ & Hclick & _).
  split; [|split].
  - destruct (Huse (item_uuid dash) dash "hero" eq_refl eq_refl eq_refl)
      as (Hcr & _ & _ & _ & _ & _ & _ & _ & Hsame & _).
    split; [exact Hcr|]. split; [exact Hsame|].
    split; [rewrite Hsame; reflexivity | reflexivity].
  - destruct (Hclick "hero" (ContentUuid CPR_GENERIC_ACTIONS_UUIDS_modern) generic_actions)
      as (Hcr & _ & _ & _ & _ & _ & _ & _ & Hsame & _).
    + intros it Hin. change (it ∈ [sword]) in Hin.
      apply list_elem_of_singleton in Hin as ->. done.
    + reflexivity.
    + reflexivity.
    + split; [exact Hcr|]. split; [vm_compute; reflexivity|]. split; [exact Hsame|].
      split; [rewrite Hsame; reflexivity | reflexivity].
  - destruct (Huse (item_uuid dash) dash "hero" eq_refl eq_refl eq_refl)
      as (_ & _ & _ & _ & _ & _ & _ & _ & _ & _ & Hstore).
    destruct (Hstore 1%positive {[ 1%positive := item_source dash ]})
      as (data & h' & Hrun & Hdata & Hnew & Hsrc & _); [vm_compute; reflexivity|].
    exists data, h'. split; [exact Hrun|].
    split; [intros ->; discriminate Hnew|].
    split; [rewrite Hdata; reflexivity | exact Hsrc].
Defined.

Lemma showRestDialog_witness :
  trace_of (run (showRestDialog quiet_host (Some "hero")) table_world)
  = [ButtonChoiceDialog ["short"; "long"]; ShortRest "hero"].
Proof.
  destruct (showRestDialog_choices quiet_host table_world) as (_ & Hdialog).
  destruct (Hdialog "hero" hero eq_refl) as (tail & Htr & Hshort & _).
  rewrite Htr. f_equal. exact (Hshort eq_refl eq_refl).
Defined.

Lemma bg3HudReady_witness :
  registrations (trace_of (run bg3HudReady pathfinder_world)) = []
  ∧ registrations (trace_of (run bg3HudReady table_world))
    = [RegPortraitContainer; RegPassivesContainer; RegWeaponSetContainer;
       RegActionButtonsContainer; RegFilterContainer; RegInfoContainer;
       RegContainer "situationalBonuses"; RegContainer "cprGenericActions";
       RegAdapter; RegMenuBuilder "dnd5e"; RegTooltipRenderer "dnd5e"]
  ∧ registrations (trace_of (run bg3HudReady coreless_world)) = []
  ∧ returns_normally (run bg3HudReady coreless_world) = false.
Proof.
  split; [|split].
  - destruct (bg3HudReady_only_dnd5e pathfinder_world) as (Hother & _).
    destruct Hother as (_ & Hnone); [discriminate|]. exact Hnone.
  - destruct (bg3HudReady_only_dnd5e table_world) as (_ & _ & Hdnd & _).
    apply (Hdnd eq_refl eq_refl).
    intros path Hin. apply (bool_decide_unpack _). vm_compute. exact I.
  - destruct (bg3HudReady_only_dnd5e coreless_world) as (_ & _ & _ & Hfails).
    destruct Hfails as (Hnone & Hthrows & _); [reflexivity| |by split].
    right. exists "/modules/bg3-hud-core/scripts/components/containers/PassivesContainer.js".
    split; apply (bool_decide_unpack _); vm_compute; exact I.
Defined.

(** * More of the adapter: properties *)

(** ** Clicks on cells that are not items *)

(** A click on a cell without data does nothing.  A click on a cell whose
    type is not 'Item' uses no item and creates no document: a 'Macro' cell
    looks its macro up and, when found, executes it, the outcome and the
    world being those of [execute()]; when not found it shows the
    MacroNotFound warning and leaves the world as it was.  Any other type is
    logged and warned about on the console, nothing more. *)
Theorem onCellClick_other_cells (H : Host) (w : World) (data : CellData) :
  cell_type data ≠ "Item" →
  let r := run (onCellClick H (Some data)) w in
  let clicked := ConsoleLog "D&D 5e Adapter | Cell clicked:" in
  run (onCellClick H None) w = (Ret tt, {| st_world := w; st_trace := [] |})
  ∧ uses (trace_of r) = [] ∧ creations (trace_of r) = []
  ∧ forallb macro_handover (trace_of r) = true
  ∧ (cell_type data = "Macro" →
       match resolve_uuid w (cell_uuid data) with
       | Some _ =>
           trace_of r = [clicked; FromUuid (ContentUuid (cell_uuid data));
                         ConsoleLog "D&D 5e Adapter | Executing macro:";
                         MacroExecute (cell_uuid data)]
           ∧ (outcome r, world_of r) = host_macro_execute H (cell_uuid data) w
       | None =>
           r = (Ret tt,
                {| st_world := w;
                   st_trace := [clicked; FromUuid (ContentUuid (cell_uuid data));
                                NotifyWarn "bg3-hud-dnd5e.Notifications.MacroNotFound"] |})
       end)
  ∧ (cell_type data ≠ "Macro" →
       r = (Ret tt,
            {| st_world := w;
               st_trace := [clicked;
                            ConsoleWarn "D&D 5e Adapter | Unknown cell data type:"] |})).
Proof.
  intros Hty. apply String.eqb_neq in Hty. cbn zeta.
  split; [done|].
  unfold onCellClick, _executeMacro, macro_execute, fromUuid, notifications_warn,
    console_log, console_warn.
  mrun. rewrite Hty.
  destruct (String.eqb (cell_type data) "Macro") eqn:Hm; cbn.
  - destruct (resolve_uuid w (cell_uuid data)) as [m|]; cbn.
    + destruct (host_macro_execute H (cell_uuid data) w) as [res w']. cbn.
      repeat split; try done. intros Hn. apply String.eqb_eq in Hm. done.
    + repeat split; try done. intros Hn. apply String.eqb_eq in Hm. done.
  - apply String.eqb_neq in Hm. repeat split; done.
Qed.

(** ** Rolls the advantage handler leaves alone *)

(** When midi-qol is not active, or the setting is off, or the roll has no
    workflow actor, or the HUD shows another actor, [handleRollAdvantage]
    returns the roll configuration it was given, reads settings at most and
    neither reads nor clears a flag, and the world is as it was. *)
Theorem handleRollAdvantage_other_rolls (H : Host) (w : World)
    (rollConfig : option RollConfig) :
  "midi-qol" ∉ active_modules w
  ∨ default false (bool_settings w !! "addAdvBtnsMidiQoL") = false
  ∨ rollConfig ≫= rc_workflow_actor = None
  ∨ currentActor w ≠ rollConfig ≫= rc_workflow_actor →
  let r := run (handleRollAdvantage H rollConfig) w in
  outcome r = Ret rollConfig ∧ world_of r = w
  ∧ forallb settings_read (trace_of r) = true.
Proof.
  intros Hgate. cbn zeta.
  unfold handleRollAdvantage, module_active, settings_get_bool, getFlag.
  mrun.
  destruct (decide ("midi-qol" ∈ active_modules w)) as [Hin|Hout];
    [rewrite bool_decide_eq_true_2 by done
    |rewrite bool_decide_eq_false_2 by done; done].
  cbn.
  destruct (default false (bool_settings w !! "addAdvBtnsMidiQoL")) eqn:Hset; cbn; [|done].
  destruct rollConfig as [rc|]; cbn; [|done].
  destruct (rc_workflow_actor rc) as [actor|] eqn:Hwf; cbn; [|done].
  destruct (decide (currentActor w = Some actor)) as [Hcur|Hcur];
    [|rewrite bool_decide_eq_false_2 by done; done].
  exfalso. destruct Hgate as [?|[?|[Hg|Hg]]]; try done.
  - cbn in Hg. by rewrite Hwf in Hg.
  - cbn in Hg. by rewrite Hwf in Hg.
Qed.

(** [registerAdvantageHooks] registers once: after a first call the flag is
    set, a second call does nothing at all, and over both calls each of the
    seven events got at most one handler. *)
Theorem registerAdvantageHooks_once (w : World) :
  let r1 := run registerAdvantageHooks w in
  let r2 := run registerAdvantageHooks (world_of r1) in
  outcome r1 = Ret tt
  ∧ advantageHooksRegistered (world_of r1) = true
  ∧ r2 = (Ret tt, {| st_world := world_of r1; st_trace := [] |})
  ∧ (hooks_on (trace_of r1 ++ trace_of r2) = ADVANTAGE_ROLL_EVENTS
     ∨ hooks_on (trace_of r1 ++ trace_of r2) = [])
  ∧ NoDup ADVANTAGE_ROLL_EVENTS.
Proof.
  cbn zeta. unfold registerAdvantageHooks. mrun.
  destruct (advantageHooksRegistered w) eqn:Hreg; cbn.
  - rewrite Hreg. cbn. repeat split; try done; [by right|].
    apply (bool_decide_unpack _). vm_compute. exact I.
  - repeat split; try done; [by left|].
    apply (bool_decide_unpack _). vm_compute. exact I.
Qed.

(** ** Default CPR actions *)

Lemma getCPRConfig_run (w : World) (tr : list Event) :
  ∃ cfg,
    getCPRConfig {| st_world := w; st_trace := tr |}
    = (Ret cfg, {| st_world := w;
                   st_trace := (tr ++ [SettingsGet "dnd5e" "rulesVersion"])%list |})
    ∧ (packId cfg = "chris-premades.CPRActions2024"
       ∨ packId cfg = "chris-premades.CPRActions")
    ∧ (settingsKey cfg = "selectedCPRActionsModern"
       ∨ settingsKey cfg = "selectedCPRActionsLegacy")
    ∧ length (defaultActions cfg) = 6%nat.
Proof.
  unfold getCPRConfig, get_rulesVersion. mrun.
  destruct (String.eqb (rulesVersion w) "modern"); eexists; (split; [reflexivity|]);
    cbn; auto.
Qed.

Lemma getCPRConfig_outcome (w : World) (cfg : CPRConfig) (tr : list Event) :
  outcome (run getCPRConfig w) = Ret cfg →
  getCPRConfig {| st_world := w; st_trace := tr |}
  = (Ret cfg, {| st_world := w;
                 st_trace := (tr ++ [SettingsGet "dnd5e" "rulesVersion"])%list |})
  ∧ (packId cfg = "chris-premades.CPRActions2024" ∨ packId cfg = "chris-premades.CPRActions")
  ∧ length (defaultActions cfg) = 6%nat.
Proof.
  unfold getCPRConfig, get_rulesVersion. mrun.
  destruct (String.eqb (rulesVersion w) "modern"); cbn; intros [= <-]; cbn; auto.
Qed.

Lemma default_uuids_elem (cfg : CPRConfig) (index : list (string * string)) (u : string) :
  u ∈ default_uuids cfg index →
  ∃ id name, (id, name) ∈ index ∧ name ∈ defaultActions cfg
             ∧ u = "Compendium." +:+ packId cfg +:+ ".Item." +:+ id.
Proof.
  unfold default_uuids. intros Hu.
  apply list_elem_of_omap in Hu as (name & Hname & Hf).
  destruct (find _ index) as [[id n]|] eqn:Hfind; [|done].
  injection Hf as <-.
  apply find_some in Hfind as [Hin Heq]. cbn in Heq. apply String.eqb_eq in Heq as ->.
  exists id, name. split; [by apply list_elem_of_In|]. done.
Qed.

Lemma getCPRConfig_rules (w w' : World) :
  rulesVersion w = rulesVersion w' →
  outcome (run getCPRConfig w) = outcome (run getCPRConfig w').
Proof.
  unfold getCPRConfig, get_rulesVersion. mrun. intros ->.
  by destruct (String.eqb (rulesVersion w') "modern").
Qed.

Lemma bind_getCPRConfig {A} (f : CPRConfig → M A) (w : World) (cfg : CPRConfig)
    (tr : list Event) :
  outcome (run getCPRConfig w) = Ret cfg →
  (getCPRConfig ≫= f) {| st_world := w; st_trace := tr |}
  = f cfg {| st_world := w;
             st_trace := (tr ++ [SettingsGet "dnd5e" "rulesVersion"])%list |}.
Proof.
  intros Hcfg. unfold mbind, M_bind.
  by destruct (getCPRConfig_outcome w cfg tr Hcfg) as (-> & _).
Qed.

Lemma initializeDefaultActions_skip (w : World) (cfg : CPRConfig) :
  outcome (run getCPRConfig w) = Ret cfg →
  "chris-premades" ∉ active_modules w
  ∨ (∃ u l, list_settings w !! settingsKey cfg = Some (u :: l)) →
  let r := run initializeDefaultActions w in
  outcome r = Ret tt ∧ world_of r = w
  ∧ List.filter is_lookup (trace_of r) = []
  ∧ forallb settings_read (trace_of r) = true.
Proof.
  intros Hcfg Hgate. cbn zeta.
  unfold initializeDefaultActions, run. rewrite step_isCPRActive. cbn [st_world].
  destruct (decide ("chris-premades" ∈ active_modules w)) as [Hin|Hout];
    [rewrite bool_decide_eq_true_2 by done
    |rewrite bool_decide_eq_false_2 by done; done].
  destruct Hgate as [?|(u & l & Hsel)]; [done|].
  cbn [negb]. rewrite (bind_getCPRConfig _ w cfg [] Hcfg).
  unfold settings_get_list. mrun. rewrite Hsel. done.
Qed.

(** [initializeDefaultActions] never overwrites a selection: when the CPR
    module is not active, or the setting of the current rules version holds
    at least one uuid, it returns without asking for a pack and the world is
    as it was. *)
Theorem initializeDefaultActions_keeps_selection (w : World) (cfg : CPRConfig) :
  outcome (run getCPRConfig w) = Ret cfg →
  "chris-premades" ∉ active_modules w
  ∨ (∃ u l, list_settings w !! settingsKey cfg = Some (u :: l)) →
  let r := run initializeDefaultActions w in
  outcome r = Ret tt ∧ world_of r = w
  ∧ List.filter is_lookup (trace_of r) = []
  ∧ forallb settings_read (trace_of r) = true.
Proof. apply initializeDefaultActions_skip. Qed.

(** With the CPR module active and nothing selected, [initializeDefaultActions]
    stores, under the key of the current rules version only, the uuids of the
    pack's index entries that carry a default action name: at most six, each
    'Compendium.<packId>.Item.<id>' for an entry of the index.  When no entry
    matches nothing is stored.  It returns normally, and a second run changes
    nothing more. *)
Theorem initializeDefaultActions_stores_defaults (w : World) (cfg : CPRConfig)
    (index : list (string * string)) :
  "chris-premades" ∈ active_modules w →
  outcome (run getCPRConfig w) = Ret cfg →
  default [] (list_settings w !! settingsKey cfg) = [] →
  packs w !! packId cfg = Some index →
  let r := run initializeDefaultActions w in
  let uuids := default_uuids cfg index in
  outcome r = Ret tt
  ∧ (length uuids ≤ 6)%nat
  ∧ (∀ u, u ∈ uuids →
       ∃ id name, (id, name) ∈ index ∧ name ∈ defaultActions cfg
                  ∧ u = "Compendium." +:+ packId cfg +:+ ".Item." +:+ id)
  ∧ (uuids = [] → world_of r = w)
  ∧ (uuids ≠ [] →
       world_of r = with_list_settings (insert (settingsKey cfg) uuids) w
       ∧ list_settings (world_of r) !! settingsKey cfg = Some uuids
       ∧ (∀ key, key ≠ settingsKey cfg →
            list_settings (world_of r) !! key = list_settings w !! key))
  ∧ world_of (run initializeDefaultActions (world_of r)) = world_of r.
Proof.
  intros Hin Hcfg Hsel Hpack. cbn zeta.
  assert (length (default_uuids cfg index) ≤ 6)%nat as Hlen.
  { destruct (getCPRConfig_outcome w cfg [] Hcfg) as (_ & _ & H6).
    unfold default_uuids. rewrite <- H6. apply omap_length_le. }
  assert (run initializeDefaultActions w
          = (Ret tt,
             {| st_world := if (0 <? length (default_uuids cfg index))%nat
                            then with_list_settings
                                   (insert (settingsKey cfg) (default_uuids cfg index)) w
                            else w;
                st_trace := trace_of (run initializeDefaultActions w) |})) as Hrun.
  { unfold trace_of, initializeDefaultActions, run. rewrite step_isCPRActive.
    cbn [st_world]. rewrite bool_decide_eq_true_2 by done. cbn [negb].
    rewrite (bind_getCPRConfig _ w cfg [] Hcfg).
    unfold settings_get_list, packs_get, pack_getIndex, settings_set_list, console_log,
      console_warn.
    mrun.
    destruct (list_settings w !! settingsKey cfg) as [[|u l]|] eqn:Hs; cbn in Hsel;
      try done; cbn; rewrite Hpack; cbn;
      destruct (0 <? length (default_uuids cfg index))%nat; cbn; done. }
  unfold outcome, world_of. rewrite Hrun. cbn [fst snd st_world].
  split; [done|]. split; [done|]. split; [by apply default_uuids_elem|].
  split; [by intros ->|].
  split.
  - intros Hne. destruct (default_uuids cfg index) as [|u l] eqn:Hd; [done|].
    cbn. split; [done|]. split.
    + destruct w. cbn. apply lookup_insert_eq.
    + intros key Hkey. destruct w. cbn. by apply lookup_insert_ne.
  - destruct (default_uuids cfg index) as [|u l] eqn:Hd.
    + change (0 <? length [])%nat with false in *. cbn iota. by rewrite Hrun.
    + change (0 <? length (u :: l))%nat with true. cbn iota.
      assert (outcome (run getCPRConfig
                (with_list_settings (insert (settingsKey cfg) (u :: l)) w)) = Ret cfg) as Hcfg'.
      { rewrite <- Hcfg. apply getCPRConfig_rules. by destruct w. }
      destruct (initializeDefaultActions_skip _ cfg Hcfg') as (_ & Hsame & _).
      * right. exists u, l. destruct w. cbn. apply lookup_insert_eq.
      * exact Hsame.
Qed.

Lemma initializeDefaultActions_run (s : St) :
  ∃ ext w',
    initializeDefaultActions s
    = (Ret tt, {| st_world := w'; st_trace := (st_trace s ++ ext)%list |})
    ∧ forallb plain ext = true
    ∧ tooltip_manager w' = tooltip_manager (st_world s)
    ∧ advantageHooksRegistered w' = advantageHooksRegistered (st_world s)
    ∧ hud_states w' = hud_states (st_world s)
    ∧ actors w' = actors (st_world s).
Proof.
  destruct s as [w tr].
  unfold initializeDefaultActions, isCPRActive, module_active, getCPRConfig,
    get_rulesVersion, settings_get_list, packs_get, pack_getIndex, settings_set_list,
    console_log, console_warn.
  mrun.
  destruct (bool_decide _); cbn; [|exists [], w; by rewrite app_nil_r].
  destruct (String.eqb (rulesVersion w) "modern"); cbn;
    destruct (list_settings w !! _) as [[|u l]|]; cbn;
    try (destruct (packs w !! _) as [index|]; cbn;
         [destruct (0 <? length _)%nat; cbn|]);
    eexists _, _; (split; [rewrite <- ?app_assoc; reflexivity|]); done.
Qed.

Lemma registerAdvantageHooks_run (s : St) :
  ∃ post w',
    registerAdvantageHooks s
    = (Ret tt, {| st_world := w'; st_trace := (st_trace s ++ post)%list |})
    ∧ advantageHooksRegistered w' = true
    ∧ tooltip_manager w' = tooltip_manager (st_world s)
    ∧ forallb not_register post = true
    ∧ (hooks_on post = ADVANTAGE_ROLL_EVENTS ∨ hooks_on post = []).
Proof.
  destruct s as [w tr]. unfold registerAdvantageHooks. mrun.
  destruct (advantageHooksRegistered w) eqn:Hreg; cbn.
  - exists [], w. rewrite app_nil_r. repeat split; auto.
  - mrun. eexists _, _. split; [rewrite <- ?app_assoc; reflexivity|].
    repeat split; auto.
Qed.

Lemma hooks_on_plain (ext : list Event) :
  forallb plain ext = true → omap (λ e, match e with HooksOn ev => Some ev | _ => None end) ext = [].
Proof.
  induction ext as [|e ext IH]; [done|]. cbn [forallb].
  intros [He Hext]%andb_true_iff. cbn. rewrite (IH Hext). by destruct e.
Qed.

(** ** The ready handler *)

(** In dnd5e, when the weapon block template cannot be fetched the handler
    ends in that error with nothing registered; when a script of the core
    that a container class is built on cannot be imported, it ends at that
    import, again with nothing registered.  When the template is fetched and
    the three scripts are imported, in that order and before the first
    registration, the handler returns normally with the advantage hooks
    registered; the tooltip element, when there is one, has the id 'tooltip';
    and the call of 'bg3HudRegistrationComplete' comes after every
    registration and before any hook is put on a roll event. *)
Theorem bg3HudReady_outcome (w : World) :
  system_id w = "dnd5e" →
  let r := run bg3HudReady w in
  let start :=
    [ConsoleLog "BG3 HUD D&D 5e | Received bg3HudReady hook";
     HandlebarsHelper "contains";
     Fetch "modules/bg3-hud-dnd5e/templates/tooltips/weapon-block.hbs"] in
  let fetched :=
    [HandlebarsPartial "bg3-hud-dnd5e.weapon-block";
     ConsoleLog "BG3 HUD D&D 5e | Registering D&D 5e components"] in
  (fetch_ok w = false →
     r = (Throw (HostError "fetch failed"), {| st_world := w; st_trace := start |}))
  ∧ (fetch_ok w = true →
     (∃ path, path ∈ core_scripts ∧ path ∈ broken_imports w) →
     r = (Throw (HostError "import failed"),
          {| st_world := w;
             st_trace :=
               (start ++ fetched ++ map ImportScript (imports_made w core_scripts))%list |})
     ∧ registrations (trace_of r) = [])
  ∧ (fetch_ok w = true →
     (∀ path, path ∈ core_scripts → path ∉ broken_imports w) →
     outcome r = Ret tt
     ∧ advantageHooksRegistered (world_of r) = true
     ∧ (∀ tm, tooltip_manager w = Some tm → is_Some (tooltipElement tm) →
          tooltip_manager (world_of r) = Some {| tooltipElement := Some "tooltip" |})
     ∧ (tooltip_manager w ≫= tooltipElement = None →
          tooltip_manager (world_of r) = tooltip_manager w)
     ∧ (∃ rest,
          trace_of r
          = (start ++ fetched ++ map ImportScript core_scripts
             ++ Register RegPortraitContainer :: rest)%list)
     ∧ ∃ pre post,
         trace_of r = (pre ++ [HooksCall "bg3HudRegistrationComplete"] ++ post)%list
         ∧ hooks_on pre = []
         ∧ registrations post = []
         ∧ (hooks_on post = ADVANTAGE_ROLL_EVENTS ∨ hooks_on post = [])).
Proof.
  intros Hsys. cbn zeta.
  split; [|split].
  { intros Hfetch. apply String.eqb_eq in Hsys.
    unfold run, bg3HudReady, fetch, console_log.
    msteps. rewrite Hsys. cbn [negb]. msteps. rewrite Hfetch. msteps. done. }
  { intros Hfetch Hbroken.
    rewrite (bg3HudReady_broken_import w Hsys Hfetch Hbroken).
    split; [done|].
    unfold trace_of. cbn [snd st_trace]. unfold registrations.
    rewrite omap_app. by rewrite omap_map_none. }
  intros Hfetch Himports. apply String.eqb_eq in Hsys.
  unfold run, bg3HudReady, fetch, console_log, console_warn, console_error,
    createDnD5ePortraitContainer, createDnD5ePassivesContainer,
    createDnD5eWeaponSetContainer.
  msteps. rewrite Hsys. cbn [negb]. msteps.
  rewrite Hfetch; msteps.
  rewrite !bind_import_script.
  rewrite !bool_decide_eq_false_2
    by (apply Himports; unfold core_scripts;
        repeat first [apply list_elem_of_here | apply list_elem_of_further]).
  msteps.
  change initializeDefaultCPRActions with initializeDefaultActions.
  destruct (tooltip_manager w) as [[[el|]]|] eqn:Htm; cbn [tooltipElement]; msteps.
  all: match goal with
       | |- context [(initializeDefaultActions ≫= ?k) ?s] =>
           destruct (initializeDefaultActions_run s)
             as (ext & w' & Hrun & Hplain & Htm' & Hreg' & _);
           rewrite !(bind_run _ k _ _ _ Hrun); clear Hrun
       end.
  all: cbn [st_world st_trace] in *; msteps.
  all: match goal with
       | |- context [registerAdvantageHooks ?s] =>
           destruct (registerAdvantageHooks_run s)
             as (post & w'' & Hrun & Hon & Htm'' & Hquiet & Hpost);
           rewrite !Hrun; clear Hrun
       end.
  all: unfold outcome, world_of, trace_of; cbn [fst snd st_world st_trace] in *.
  all: rewrite Hon, Htm'', Htm'.
  all: split; [done|]; split; [done|].
  all: split; [intros tm [= <-] [? Hel]; cbn in Hel; try done|].
  all: split; [done|].
  all: split; [rewrite <- ?app_assoc; cbn [app map core_scripts]; eexists; reflexivity|].
  all: eexists _, post;
       split; [rewrite <- (app_assoc _ [HooksCall "bg3HudRegistrationComplete"] post);
               reflexivity|].
  all: split; [|split; [by apply registrations_quiet|done]].
  all: unfold hooks_on; rewrite !omap_app; cbn; rewrite ?app_nil_r.
  all: by apply hooks_on_plain.
Qed.

(** ** Populating from the hooks *)

Lemma try_catch_logs (m : M unit) (msg : string) (s : St) :
  ∃ s', try_catch m (λ _, console_error msg) s = (Ret tt, s').
Proof.
  unfold try_catch. destruct (m s) as [[[]|e] s']; [by eexists|].
  destruct s'. by eexists.
Qed.

Lemma populateQuickAccess_returns (H : Host) (actor : option string)
    (uuids : option (list string)) :
  never_throws (populateQuickAccess H actor uuids).
Proof.
  intros s. unfold populateQuickAccess.
  destruct actor as [actor|]; [destruct uuids as [[|u l]|]|];
    try (destruct s; by eexists).
  apply try_catch_logs.
Qed.

Lemma populateQuickAccessWithCPRActions_returns (H : Host) (actor : option string)
    (uuids : option (list string)) :
  never_throws (populateQuickAccessWithCPRActions H actor uuids).
Proof.
  intros s. unfold populateQuickAccessWithCPRActions.
  destruct actor as [actor|]; [destruct uuids as [[|u l]|]|];
    try (destruct s; by eexists).
  apply try_catch_logs.
Qed.

Lemma onTokenCreation_returns (H : Host) (actor : option string) :
  never_throws (onTokenCreation H actor).
Proof.
  intros [w tr]. unfold onTokenCreation.
  destruct actor as [actor|]; [|by eexists].
  rewrite step_settings_get_bool.
  destruct (default false _); cbn [negb]; [|by eexists].
  rewrite step_isCPRActive.
  destruct (bool_decide _); cbn [negb]; [|by eexists].
  rewrite step_sleep. apply try_catch_logs.
Qed.

Lemma onTokenChange_returns (H : Host) (token_actor : option string) :
  never_throws (onTokenChange H token_actor).
Proof.
  intros [w tr]. unfold onTokenChange.
  destruct token_actor as [actor|]; [|by eexists].
  rewrite step_isCPRActive.
  destruct (bool_decide _); cbn [negb]; [|by eexists].
  destruct (getCPRConfig_run w tr) as (cfg & Hcfg & _).
  rewrite (bind_run _ _ _ _ _ Hcfg).
  unfold settings_get_list. msteps.
  destruct (length _ =? 0)%nat; [by eexists|].
  apply populateQuickAccess_returns.
Qed.


Lemma saves_app (a b : list Event) : saves (a ++ b) = (saves a ++ saves b)%list.
Proof. apply omap_app. Qed.

Lemma populateQuickAccess_skip (H : Host) (w : World) (actor : string)
    (uuids : option (list string)) (tr : list Event) :
  (0 < size (existing_items (loaded_state w actor)))%nat →
  ∃ ext,
    populateQuickAccess H (Some actor) uuids {| st_world := w; st_trace := tr |}
    = (Ret tt, {| st_world := w; st_trace := (tr ++ ext)%list |})
    ∧ saves ext = [].
Proof.
  intros Hex. apply Nat.ltb_lt in Hex. unfold_populate.
  destruct uuids as [[|u l]|]; try (by eexists [_]).
  mrun. destruct (persistence_ok w); cbn.
  - rewrite Hex. cbn. eexists. split; [rewrite <- !app_assoc; reflexivity|done].
  - eexists. split; [rewrite <- !app_assoc; reflexivity|done].
Qed.

Lemma populateQuickAccessWithCPRActions_skip (H : Host) (w : World) (actor : string)
    (uuids : option (list string)) (tr : list Event) :
  (0 < size (existing_items (loaded_state w actor)))%nat →
  ∃ ext,
    populateQuickAccessWithCPRActions H (Some actor) uuids
      {| st_world := w; st_trace := tr |}
    = (Ret tt, {| st_world := w; st_trace := (tr ++ ext)%list |})
    ∧ saves ext = [].
Proof.
  intros Hex. apply Nat.ltb_lt in Hex.
  unfold populateQuickAccessWithCPRActions, import_PersistenceManager, loadState,
    saveState, hud_refresh, console_log, console_error, sleep.
  destruct uuids as [[|u l]|]; try (by eexists [_]).
  mrun. destruct (persistence_ok w); cbn.
  - rewrite Hex. cbn. eexists. split; [rewrite <- !app_assoc; reflexivity|done].
  - eexists. split; [rewrite <- !app_assoc; reflexivity|done].
Qed.

Local Arguments populateQuickAccess : simpl never.
Local Arguments populateQuickAccessWithCPRActions : simpl never.

Ltac skip_populate Hex :=
  let Hs := fresh "Hsaves" in
  match goal with
  | |- context [populateQuickAccess ?H (Some ?a) ?u {| st_world := ?w; st_trace := ?tr |}] =>
      destruct (populateQuickAccess_skip H w a u tr Hex) as (? & -> & Hs)
  | |- context [populateQuickAccessWithCPRActions ?H (Some ?a) ?u
                  {| st_world := ?w; st_trace := ?tr |}] =>
      destruct (populateQuickAccessWithCPRActions_skip H w a u tr Hex) as (? & -> & Hs)
  end;
  cbn; rewrite ?saves_app, ?Hs; done.

Lemma onTokenCreation_filled (H : Host) (w : World) (actor : string) :
  (0 < size (existing_items (loaded_state w actor)))%nat →
  let r := run (onTokenCreation H (Some actor)) w in
  world_of r = w ∧ saves (trace_of r) = [].
Proof.
  intros Hex. cbn zeta.
  unfold onTokenCreation, isCPRActive, module_active, settings_get_bool, getCPRConfig,
    get_rulesVersion, settings_get_list, packs_get, pack_getIndex, sleep, console_warn,
    console_error.
  mrun.
  destruct (default false _); cbn; [|done].
  destruct (bool_decide _); cbn; [|done].
  destruct (String.eqb (rulesVersion w) "modern"); cbn;
    destruct (list_settings w !! _) as [[|u l]|]; cbn;
    try (destruct (packs w !! _) as [index|]; cbn; [|done]);
    skip_populate Hex.
Qed.

Lemma onTokenChange_filled (H : Host) (w : World) (actor : string) :
  (0 < size (existing_items (loaded_state w actor)))%nat →
  let r := run (onTokenChange H (Some actor)) w in
  world_of r = w ∧ saves (trace_of r) = [].
Proof.
  intros Hex. cbn zeta.
  unfold onTokenChange, isCPRActive, module_active, getCPRConfig, get_rulesVersion,
    settings_get_list.
  mrun.
  destruct (bool_decide _); cbn; [|done].
  destruct (String.eqb (rulesVersion w) "modern"); cbn;
    destruct (list_settings w !! _) as [[|u l]|]; cbn; try done;
    skip_populate Hex.
Qed.

(** Quick access cells a user has filled are never overwritten by the two
    hooks of the adapter: when grid 0 of the token's actor holds an item,
    [onTokenCreation] and [onTokenChange] save nothing and leave the world as
    it was, whatever is selected and whatever the pack holds. *)
Theorem cpr_hooks_keep_filled_grid (H : Host) (w : World) (actor : string) :
  (0 < size (existing_items (loaded_state w actor)))%nat →
  (let r := run (onTokenCreation H (Some actor)) w in
   world_of r = w ∧ saves (trace_of r) = [])
  ∧ (let r := run (onTokenChange H (Some actor)) w in
     world_of r = w ∧ saves (trace_of r) = []).
Proof.
  intros Hex. split; [by apply onTokenCreation_filled|by apply onTokenChange_filled].
Qed.

(** The same for the handlers of module.js that populate on their own: with
    an item in grid 0 neither the [createToken] handler nor the
    [BG3HUD_TOKEN_CHANGED] handler saves or changes anything; and a client
    that is neither a GM nor the creator of the token does nothing at all on
    [createToken]. *)
Theorem module_hooks_keep_filled_grid (H : Host) (w : World) (session : Session)
    (actor userId : string) :
  (0 < size (existing_items (loaded_state w actor)))%nat →
  (let r := run (createToken_hook H session (Some actor) userId) w in
   world_of r = w ∧ saves (trace_of r) = []
   ∧ (game_user_isGM session = false → game_userId session ≠ userId → trace_of r = []))
  ∧ (let r := run (tokenChanged_hook H (Some actor)) w in
     world_of r = w ∧ saves (trace_of r) = []).
Proof.
  intros Hex. cbn zeta. split.
  - unfold createToken_hook, module_active, settings_get_bool, getCPRConfig,
      get_rulesVersion, settings_get_list, packs_get, pack_getIndex, sleep, console_warn,
      console_error.
    destruct (game_user_isGM session); cbn [negb andb].
    2:{ destruct (String.eqb (game_userId session) userId) eqn:Hu; cbn [negb].
        2:{ done. }
        apply String.eqb_eq in Hu. mrun.
        destruct (default false _); cbn; [|done].
        destruct (bool_decide _); cbn; [|done].
        destruct (String.eqb (rulesVersion w) "modern"); cbn;
          destruct (list_settings w !! _) as [[|u l]|]; cbn;
          try (destruct (packs w !! _) as [index|]; cbn; [|done]);
          skip_populate Hex. }
    mrun.
    destruct (default false _); cbn; [|done].
    destruct (bool_decide _); cbn; [|done].
    destruct (String.eqb (rulesVersion w) "modern"); cbn;
      destruct (list_settings w !! _) as [[|u l]|]; cbn;
      try (destruct (packs w !! _) as [index|]; cbn; [|done]);
      skip_populate Hex.
  - unfold tokenChanged_hook, module_active, getCPRConfig, get_rulesVersion,
      settings_get_list.
    mrun.
    destruct (bool_decide _); cbn; [|done].
    destruct (String.eqb (rulesVersion w) "modern"); cbn;
      destruct (list_settings w !! _) as [[|u l]|]; cbn; try done;
      skip_populate Hex.
Qed.

Lemma appends_populateQuickAccessWithCPRActions (H : Host) (actor : option string)
    (uuids : option (list string)) :
  appends no_fromUuid (populateQuickAccessWithCPRActions H actor uuids).
Proof.
  unfold populateQuickAccessWithCPRActions, import_PersistenceManager, loadState,
    saveState, hud_refresh, console_log, console_error, sleep.
  solve_appends.
Qed.

(** The populate function of module.js takes the uuids as they come: it
    looks none of them up, returns normally, and on an empty grid 0 saves one
    state in which the first [min(n, 6)] uuids sit in the order given, the
    [i]-th at key "(i mod cols)-(i div cols)" as an 'Item' cell that holds
    that uuid and nothing else. *)
Theorem populateQuickAccessWithCPRActions_layout (H : Host) (w : World) (actor : string)
    (uuids : list string) (grid : Grid) (others : list Grid) :
  let r := run (populateQuickAccessWithCPRActions H (Some actor) (Some uuids)) w in
  let state := loaded_state w actor in
  let m := (length uuids `min` 6)%nat in
  uuids ≠ [] → persistence_ok w = true →
  size (existing_items state) = 0%nat →
  ensure_grids state = grid :: others →
  (0 < grid_cols grid)%nat →
  outcome r = Ret tt
  ∧ forallb no_fromUuid (trace_of r) = true
  ∧ ∃ items,
      saves (trace_of r)
      = [(actor, {| hs_quickAccess := Some (Some
                     ({| grid_rows := grid_rows grid; grid_cols := grid_cols grid;
                         grid_items := Some items |} :: others)) |})]
      ∧ size items = m
      ∧ ∀ i u, (i < 6)%nat → uuids !! i = Some u →
          items !! slotKey (pretty (i mod grid_cols grid)%nat)
                           (pretty (i / grid_cols grid)%nat)
          = Some {| cell_uuid := u; cell_type := "Item"; cell_extra := None |}.
Proof.
  intros r state m Hne Hok Hempty Hgrids Hcols.
  split; [|split].
  - subst r. unfold run, outcome.
    by destruct (populateQuickAccessWithCPRActions_returns H (Some actor) (Some uuids)
                   {| st_world := w; st_trace := [] |}) as [s' ->].
  - subst r. unfold run, trace_of.
    destruct (appends_populateQuickAccessWithCPRActions H (Some actor) (Some uuids)
                {| st_world := w; st_trace := [] |}) as (ext & -> & Hext).
    done.
  - exists (fill_slots (grid_cols grid) (map quick_cell (take m uuids)) 0 ∅).
    split; [|split].
    + subst r.
      unfold populateQuickAccessWithCPRActions, import_PersistenceManager, loadState,
        saveState, hud_refresh, console_log, console_error, sleep.
      destruct uuids as [|u uuids]; [done|]. mrun. rewrite Hok. cbn.
      fold state. rewrite Hempty.
      change (0 <? 0)%nat with false. cbn.
      rewrite Hgrids. cbn.
      rewrite (existing_items_grid state grid others Hgrids Hempty).
      fold m. rewrite place_actions_fill by (subst m; cbn; lia).
      destruct (bool_decide _); cbn; [|done].
      destruct (host_refresh H _) as [[|e] w']; cbn; done.
    + rewrite fill_slots_size; [|done|done].
      rewrite map_size_empty, length_map, length_take. subst m. lia.
    + intros i u Hi Hu.
      assert (i < m)%nat as Him.
      { apply lookup_lt_Some in Hu. subst m. lia. }
      pose proof (fill_slots_lookup (grid_cols grid)
                    (map quick_cell (take m uuids)) 0 ∅ i (quick_cell u) Hcols) as Hl.
      destruct (grid_cols grid) as [|c] eqn:Ec; [lia|].
      cbn [quick_slot] in Hl. apply Hl.
      rewrite list_lookup_fmap, lookup_take_lt by done. by rewrite Hu.
Qed.

(** When every uuid resolves and the uuids already come in the order of
    their names, the class method and the function of module.js do the same:
    same outcome, same world, same state saved. *)
Theorem populate_versions_agree (H : Host) (w : World) (actor : string)
    (uuids : list string) :
  map fst (js_sort (by_name H) (resolved_actions w uuids)) = uuids →
  let r1 := run (populateQuickAccess H (Some actor) (Some uuids)) w in
  let r2 := run (populateQuickAccessWithCPRActions H (Some actor) (Some uuids)) w in
  outcome r1 = outcome r2 ∧ world_of r1 = world_of r2
  ∧ saves (trace_of r1) = saves (trace_of r2).
Proof.
  intros Hsame. cbn zeta.
  unfold populateQuickAccess, populateQuickAccessWithCPRActions,
    import_PersistenceManager, loadState, saveState, hud_refresh, console_log,
    console_error, sleep.
  destruct uuids as [|u uuids]; [done|]. mrun.
  destruct (persistence_ok w); cbn; [|done].
  destruct (0 <? size _)%nat; cbn; [done|].
  rewrite resolve_actions_run. cbn. rewrite Hsame.
  destruct (ensure_grids _) as [|grid others]; cbn.
  { unfold saves. rewrite ?omap_app. rewrite ?omap_map_none by done. done. }
  destruct (bool_decide _); cbn.
  - destruct (host_refresh H _) as [[|e] w']; cbn;
      unfold saves; rewrite ?omap_app; rewrite ?omap_map_none by done; done.
  - unfold saves. rewrite ?omap_app. rewrite ?omap_map_none by done. done.
Qed.

(** ** The hotbar filter *)

Lemma string_app_assoc (a b c : string) : (a +:+ b) +:+ c = a +:+ b +:+ c.
Proof.
  induction a as [|x a IH]; [done|].
  change (String x ((a +:+ b) +:+ c) = String x (a +:+ b +:+ c)). by f_equal.
Qed.

Lemma string_app_nil_r (a : string) : a +:+ "" = a.
Proof.
  induction a as [|x a IH]; [done|].
  change (String x (a +:+ "") = String x a). by f_equal.
Qed.

Lemma prefix_app (p r : string) : String.prefix p (p +:+ r) = true.
Proof.
  induction p as [|c p IH]; [by destruct r|].
  change (String.prefix (String c p) (String c (p +:+ r)) = true). cbn.
  by destruct (ascii_dec c c).
Qed.

Lemma includes_prefix (s sub : string) : String.prefix sub s = true → includes s sub = true.
Proof. intros Hp. destruct s; cbn [includes]; by rewrite Hp. Qed.

Lemma includes_app (a sub b : string) : includes (a +:+ sub +:+ b) sub = true.
Proof.
  induction a as [|c a IH].
  - change (includes (sub +:+ b) sub = true). apply includes_prefix, prefix_app.
  - change (includes (String c (a +:+ sub +:+ b)) sub = true).
    cbn [includes]. rewrite IH. apply orb_true_r.
Qed.

Lemma last_segment_dotfree (seg s : string) :
  dotfree s = true → last_segment seg s = seg +:+ s.
Proof.
  revert seg. induction s as [|c s IH]; intros seg; cbn [last_segment dotfree].
  - by rewrite string_app_nil_r.
  - intros [Hc Hs]%andb_true_iff. apply negb_true_iff in Hc. rewrite Hc.
    rewrite IH by done. by rewrite string_app_assoc.
Qed.

Lemma last_segment_app (seg s id : string) :
  dotfree id = true → last_segment seg (s +:+ "." +:+ id) = id.
Proof.
  intros Hid. revert seg. induction s as [|c s IH]; intros seg.
  - change (last_segment "" id = id). by rewrite last_segment_dotfree.
  - change (last_segment seg (String c (s +:+ "." +:+ id)) = id). cbn [last_segment].
    destruct (Ascii.eqb c "."); apply IH.
Qed.

Lemma split_pop_app (s id : string) :
  dotfree id = true → split_pop (s +:+ "." +:+ id) = id.
Proof. apply last_segment_app. Qed.

Local Arguments startsWith : simpl never.
Local Arguments includes : simpl never.
Local Arguments split_pop : simpl never.

Ltac unfold_filter :=
  unfold run, shouldBlockFromHotbar, settings_get_bool, module_active, settings_get_list;
  msteps.

(** [shouldBlockFromHotbar] only reads settings: it changes nothing, never
    throws, and answers either 'blocked' with the one reason or 'not
    blocked' without a reason.  Without an item, with the setting
    'blockCPRActionsOnHotbar' off or with the CPR module inactive it blocks
    nothing. *)
Theorem shouldBlockFromHotbar_gate (w : World) (item : option ItemView) :
  let r := run (shouldBlockFromHotbar item) w in
  world_of r = w
  ∧ forallb settings_read (trace_of r) = true
  ∧ (outcome r = Ret is_blocked ∨ outcome r = Ret not_blocked)
  ∧ (item = None
     ∨ default false (bool_settings w !! "blockCPRActionsOnHotbar") = false
     ∨ "chris-premades" ∉ active_modules w →
     outcome r = Ret not_blocked).
Proof.
  cbn zeta. destruct item as [item|]; [|by repeat split; auto].
  unfold_filter.
  destruct (default false _) eqn:Hset; cbn [negb]; msteps;
    [|repeat split; auto].
  destruct (decide ("chris-premades" ∈ active_modules w)) as [Hin|Hout];
    [rewrite bool_decide_eq_true_2 by done
    |rewrite bool_decide_eq_false_2 by done; repeat split; auto].
  cbn [negb].
  assert (∀ P : Prop,
            Some item = None ∨ true = false ∨ "chris-premades" ∉ active_modules w → P)
    as Hno by (intros P [?|[?|?]]; done).
  assert (∀ (r : Res BlockResult * St) (b : BlockResult),
            world_of r = w → forallb settings_read (trace_of r) = true →
            outcome r = Ret b → b = is_blocked ∨ b = not_blocked →
            world_of r = w ∧ forallb settings_read (trace_of r) = true
            ∧ (outcome r = Ret is_blocked ∨ outcome r = Ret not_blocked)
            ∧ (Some item = None ∨ true = false ∨ "chris-premades" ∉ active_modules w →
               outcome r = Ret not_blocked)) as Hfin.
  { intros r b Hw Htr Hb Hor. repeat split; try done.
    - rewrite Hb. destruct Hor as [-> | ->]; auto.
    - intros Hg. exact (Hno _ Hg). }
  destruct (existsb _ genericActionsUuids); [by eapply Hfin; eauto|].
  destruct (orb _ _); [by eapply Hfin; eauto|].
  destruct (existsb _ genericActionsUuids); [by eapply Hfin; eauto|].
  destruct (orb _ _); [|by eapply Hfin; eauto].
  destruct (getCPRConfig_run w
              ([] ++ [SettingsGet MODULE_ID "blockCPRActionsOnHotbar"])%list)
    as (cfg & Hcfg & _).
  rewrite !(bind_run _ _ _ _ _ Hcfg). msteps.
  destruct (existsb _ _); by eapply Hfin; eauto.
Qed.

Lemma str_or_self (s : string) : str_or (Some s) "" = s.
Proof.
  unfold str_or, truthy_str. destruct (String.eqb s "") eqn:Hs; [|done].
  by apply String.eqb_eq in Hs.
Qed.

Lemma shouldBlockFromHotbar_open (w : World) (item : ItemView) (cfg : CPRConfig) :
  default false (bool_settings w !! "blockCPRActionsOnHotbar") = true →
  "chris-premades" ∈ active_modules w →
  outcome (run getCPRConfig w) = Ret cfg →
  outcome (run (shouldBlockFromHotbar (Some item)) w)
  = Ret (let uuid := item_uuid (iv_item item) in
         let src := sourceCompendium_of item in
         if existsb (String.eqb uuid) genericActionsUuids
            || (startsWith uuid "Compendium.chris-premades.CPRActions."
                || startsWith uuid "Compendium.chris-premades.CPRActions2024.")
            || existsb (λ gaUuid, includes src (split_pop gaUuid)) genericActionsUuids
            || ((includes src "chris-premades.CPRActions"
                 || includes src "chris-premades.CPRActions2024")
                && existsb (λ actionUuid, String.eqb (split_pop actionUuid) (split_pop src))
                           (default [] (list_settings w !! settingsKey cfg)))
         then is_blocked else not_blocked).
Proof.
  intros Hset Hin Hcfg. cbn zeta. unfold_filter. rewrite Hset. cbn [negb]. msteps.
  rewrite bool_decide_eq_true_2 by done. cbn [negb]. rewrite str_or_self.
  destruct (existsb _ genericActionsUuids); [done|].
  destruct (orb _ _); [done|].
  destruct (existsb _ genericActionsUuids); [done|].
  destruct (orb _ _); [|done].
  rewrite (bind_getCPRConfig _ w cfg _ Hcfg). msteps.
  by destruct (existsb _ _).
Qed.

(** With the filter on, every CPR action the adapter itself would put into
    quick access is kept off the hotbar: the uuids [initializeDefaultActions]
    stores and the uuids of the fallback of [onTokenCreation], for either
    rules version, are all blocked. *)
Theorem shouldBlockFromHotbar_blocks_cpr_actions (H : Host) (w w0 : World)
    (cfg : CPRConfig) (index : list (string * string)) (item : ItemView) :
  default false (bool_settings w !! "blockCPRActionsOnHotbar") = true →
  "chris-premades" ∈ active_modules w →
  outcome (run getCPRConfig w0) = Ret cfg →
  item_uuid (iv_item item) ∈ default_uuids cfg index
  ∨ item_uuid (iv_item item) ∈ map fst (fallback_actions H cfg index) →
  outcome (run (shouldBlockFromHotbar (Some item)) w) = Ret is_blocked.
Proof.
  intros Hset Hin Hcfg Huuid.
  assert (∃ id, item_uuid (iv_item item) = "Compendium." +:+ packId cfg +:+ ".Item." +:+ id)
    as [id Hid].
  { destruct Huuid as [Hd|Hf].
    - apply default_uuids_elem in Hd as (id & name & _ & _ & ->). by exists id.
    - unfold fallback_actions in Hf.
      apply list_elem_of_fmap in Hf as ([u n] & -> & Hf).
      apply elem_of_take in Hf as (i & Hf & _).
      apply list_elem_of_lookup_2 in Hf.
      rewrite js_sort_perm in Hf.
      apply list_elem_of_fmap in Hf as ([id n'] & [= -> ->] & _). by exists id. }
  destruct (getCPRConfig_run w []) as (cfg' & Hrun & _).
  rewrite (shouldBlockFromHotbar_open w item cfg') by (try done; unfold run, outcome; by rewrite Hrun).
  cbn zeta. rewrite Hid.
  destruct (getCPRConfig_outcome w0 cfg [] Hcfg) as (_ & [-> | ->] & _).
  - destruct (existsb _ genericActionsUuids); [done|].
    replace (startsWith _ "Compendium.chris-premades.CPRActions2024.") with true
      by reflexivity.
    by rewrite orb_true_r.
  - destruct (existsb _ genericActionsUuids); [done|].
    replace (startsWith _ "Compendium.chris-premades.CPRActions.") with true
      by reflexivity.
    done.
Qed.

(** A copy of a CPR action on an actor is blocked when its source is among
    the selected actions: with the filter on and the chris-premades module
    active, an item whose source uuid names
    a CPRActions pack and ends in the id of a selected uuid is blocked,
    whatever its own uuid is. *)
Theorem shouldBlockFromHotbar_blocks_selected_copy (w : World) (item : ItemView)
    (cfg : CPRConfig) (selected : list string) (pre mid x id : string) :
  default false (bool_settings w !! "blockCPRActionsOnHotbar") = true →
  "chris-premades" ∈ active_modules w →
  outcome (run getCPRConfig w) = Ret cfg →
  list_settings w !! settingsKey cfg = Some selected →
  sourceCompendium_of item = pre +:+ "chris-premades.CPRActions" +:+ mid +:+ "." +:+ id →
  dotfree id = true →
  x +:+ "." +:+ id ∈ selected →
  outcome (run (shouldBlockFromHotbar (Some item)) w) = Ret is_blocked.
Proof.
  intros Hset Hin Hcfg Hsel Hsrc Hid Hx.
  rewrite (shouldBlockFromHotbar_open w item cfg) by done. cbn zeta.
  destruct (existsb _ genericActionsUuids); [done|].
  destruct (orb (startsWith _ _) _); [done|].
  destruct (existsb _ genericActionsUuids); [done|].
  rewrite Hsrc at 1. rewrite includes_app. cbn [orb andb].
  rewrite Hsel. cbn [default].
  replace (existsb _ selected) with true; [done|].
  symmetry. apply existsb_exists. exists (x +:+ "." +:+ id).
  split; [by apply list_elem_of_In|].
  rewrite Hsrc.
  replace (pre +:+ "chris-premades.CPRActions" +:+ mid +:+ "." +:+ id)
    with ((pre +:+ "chris-premades.CPRActions" +:+ mid) +:+ "." +:+ id)
    by (by rewrite !string_app_assoc).
  rewrite !split_pop_app by done.
  apply String.eqb_refl.
Qed.

(** An item made in the world is never blocked: when its uuid is that of a
    document embedded on an actor and it records no compendium source, the
    answer is 'not blocked' in every world. *)
Theorem shouldBlockFromHotbar_passes_own_items (w : World) (item : ItemView)
    (rest : string) :
  item_uuid (iv_item item) = "Actor." +:+ rest →
  sourceCompendium_of item = "" →
  outcome (run (shouldBlockFromHotbar (Some item)) w) = Ret not_blocked.
Proof.
  intros Huuid Hsrc.
  destruct (default false (bool_settings w !! "blockCPRActionsOnHotbar")) eqn:Hset.
  2:{ unfold_filter. by rewrite Hset. }
  destruct (decide ("chris-premades" ∈ active_modules w)) as [Hin|Hout].
  2:{ unfold_filter. rewrite Hset. cbn [negb]. msteps.
      by rewrite bool_decide_eq_false_2. }
  destruct (getCPRConfig_run w []) as (cfg & Hrun & _).
  rewrite (shouldBlockFromHotbar_open w item cfg)
    by (try done; unfold run, outcome; by rewrite Hrun).
  cbn zeta. rewrite Huuid, Hsrc. reflexivity.
Qed.

(** ** Cell data of an item *)

Lemma to_double_exact (z : Z) : (Z.abs z < 9007199254740992)%Z → to_double z = z.
Proof.
  intros Hz. unfold to_double.
  destruct (Z.leb_spec (Z.log2 (Z.abs z) + 1 - 53) 0) as [|He]; [done|].
  exfalso.
  destruct (Z.eq_dec (Z.abs z) 0) as [E|E].
  - rewrite E in He. cbn in He. lia.
  - assert (Z.log2 (Z.abs z) < 53)%Z; [|lia].
    apply Z.log2_lt_pow2; [lia|]. exact Hz.
Qed.

(** A number from 1 up to 2^53 is printed in plain notation and [parseInt]
    cuts it to an integer in the same range. *)
Lemma parseInt_plain (exponent_int : QArith_base.Q → Z) (x : QArith_base.Q) :
  QArith_base.Qle (QArith_base.Qmake 1 1) x →
  QArith_base.Qlt x (QArith_base.Qmake 9007199254740992 1) →
  let n := Z.quot (QArith_base.Qnum x) (Z.pos (QArith_base.Qden x)) in
  parseInt exponent_int x = n ∧ (1 ≤ n < 9007199254740992)%Z.
Proof.
  destruct x as [n d]. unfold QArith_base.Qle, QArith_base.Qlt, parseInt, plain_notation.
  cbn [QArith_base.Qnum QArith_base.Qden]. intros Hlo Hhi.
  assert (Z.pos d ≤ n)%Z as Hd by lia.
  assert (n < 9007199254740992 * Z.pos d)%Z as Hn by lia.
  rewrite Z.abs_eq by lia.
  destruct (Z.eqb_spec n 0) as [|_]; [lia|]. cbn [orb].
  destruct (Z.leb_spec (Z.pos d) (n * 1000000)) as [_|]; [|lia].
  destruct (Z.ltb_spec n (1000000000000000000000 * Z.pos d)) as [_|]; [|lia].
  cbn [andb]. split; [done|].
  rewrite Z.quot_div_nonneg by lia. split.
  - apply Z.div_le_lower_bound; lia.
  - apply Z.div_lt_upper_bound; lia.
Qed.

(** Without an item [transformItemToCellData] warns on the console and
    returns null.  With one it touches nothing and returns a cell of type
    'Item' with the uuid, name and image of the item; the cell has a quantity
    exactly when the item's quantity is not zero, and uses exactly when the
    item has uses whose maximum [parseInt] reads as a positive integer, the
    value then being that maximum less the integer read from the uses spent.
    For a maximum from 1 up to 2^53 the integer read is the maximum cut at
    the point, and likewise for the uses spent, which count as 0 when they
    are missing. *)
Theorem transformItemToCellData_cell (exponent_int : QArith_base.Q → Z) (w : World)
    (item : ItemView) :
  let r := run (transformItemToCellData exponent_int (Some item)) w in
  let it := iv_item item in
  let cut (x : QArith_base.Q) := Z.quot (QArith_base.Qnum x) (Z.pos (QArith_base.Qden x)) in
  let counted (x : QArith_base.Q) :=
    QArith_base.Qle (QArith_base.Qmake 1 1) x
    ∧ QArith_base.Qlt x (QArith_base.Qmake 9007199254740992 1) in
  run (transformItemToCellData exponent_int None) w
  = (Ret None,
     {| st_world := w;
        st_trace := [ConsoleWarn "DnD5e Adapter | transformItemToCellData: No item provided"] |})
  ∧ world_of r = w ∧ trace_of r = []
  ∧ ∃ cell,
      outcome r = Ret (Some cell)
      ∧ hc_uuid cell = item_uuid it ∧ hc_name cell = item_name it
      ∧ hc_img cell = item_img it ∧ hc_type cell = "Item"
      ∧ (∀ q, hc_quantity cell = Some q
              ↔ item_system it ≫= sys_quantity = Some q ∧ q ≠ 0%Z)
      ∧ (∀ v m, hc_uses cell = Some (v, m)
                ↔ ∃ u, iv_uses item = Some u
                       ∧ m = parseInt_or_0 exponent_int (uv_max u) ∧ (0 < m)%Z
                       ∧ v = js_minus m (parseInt_or_0 exponent_int (uv_spent u)))
      ∧ (iv_uses item = None → hc_uses cell = None)
      ∧ (∀ u, iv_uses item = Some u → uv_max u = None → hc_uses cell = None)
      ∧ (∀ u max, iv_uses item = Some u → uv_max u = Some max → counted max →
           (uv_spent u = None → hc_uses cell = Some (cut max, cut max))
           ∧ (uv_spent u = Some (QArith_base.Qmake 0 1) →
              hc_uses cell = Some (cut max, cut max))
           ∧ (∀ spent, uv_spent u = Some spent → counted spent →
                hc_uses cell = Some ((cut max - cut spent)%Z, cut max))).
Proof.
  cbn zeta. split; [done|]. split; [done|]. split; [done|].
  eexists. split; [reflexivity|]. cbn [hc_uuid hc_name hc_img hc_type hc_quantity hc_uses].
  do 4 (split; [done|]). split; [|split; [|split; [|split]]].
  - intros q. destruct (item_system (iv_item item) ≫= sys_quantity) as [q'|].
    2:{ split; [done|]. by intros [? _]. }
    destruct (Z.eqb_spec q' 0) as [->|Hne].
    + split; [done|]. intros [[= <-] Hq]. done.
    + split; [by intros [= <-]|]. by intros [[= <-] _].
  - intros v m. destruct (iv_uses item) as [u|].
    2:{ split; [done|]. by intros (? & ? & _). }
    destruct (Z.ltb_spec 0 (parseInt_or_0 exponent_int (uv_max u))) as [Hpos|Hneg].
    + split.
      * intros [= <- <-]. exists u. done.
      * intros (u' & [= <-] & -> & _ & ->). done.
    + split; [done|]. intros (u' & [= <-] & -> & Hpos & _). lia.
  - by intros ->.
  - intros u -> ->. done.
  - intros u max -> Hmax [Hlo Hhi].
    destruct (parseInt_plain exponent_int max Hlo Hhi) as (Hp & Hm1 & Hm2).
    set (m := Z.quot (QArith_base.Qnum max) (Z.pos (QArith_base.Qden max))) in *.
    clearbody m.
    assert (parseInt_or_0 exponent_int (uv_max u) = m) as ->.
    { unfold parseInt_or_0. rewrite Hmax, Hp. destruct (Z.eqb_spec m 0); [lia|done]. }
    destruct (Z.ltb_spec 0 m) as [_|]; [|lia].
    unfold js_minus.
    split; [|split].
    + intros ->. cbn [parseInt_or_0].
      rewrite to_double_exact by lia. by rewrite Z.sub_0_r.
    + intros ->.
      change (parseInt_or_0 exponent_int (Some (QArith_base.Qmake 0 1))) with 0%Z.
      rewrite to_double_exact by lia. by rewrite Z.sub_0_r.
    + intros spent -> [Hslo Hshi].
      destruct (parseInt_plain exponent_int spent Hslo Hshi) as (Hs & Hs1 & Hs2).
      set (s := Z.quot (QArith_base.Qnum spent) (Z.pos (QArith_base.Qden spent))) in *.
      clearbody s.
      unfold parseInt_or_0. rewrite Hs.
      destruct (Z.eqb_spec s 0) as [|_]; [lia|].
      by rewrite to_double_exact by lia.
Qed.

(** ** Containers *)

(** [isContainer] looks up at most the uuid of the cell and changes nothing.
    It answers true exactly when the cell has a non-empty uuid that resolves
    to an item of type 'container' or 'backpack'; so a container that sits
    inside another container is recognised from the cell that
    [getContainerContents] builds for it. *)
Theorem isContainer_lookup (w : World) (cellData : option CellData) :
  let r := run (isContainer cellData) w in
  world_of r = w
  ∧ (trace_of r = []
     ∨ ∃ data, cellData = Some data ∧ trace_of r = [FromUuid (ContentUuid (cell_uuid data))])
  ∧ (∃ b, outcome r = Ret b
       ∧ (b = true
          ↔ ∃ data item, cellData = Some data ∧ cell_uuid data ≠ ""
              ∧ resolve_uuid w (cell_uuid data) = Some item
              ∧ (item_type item = "container" ∨ item_type item = "backpack")))
  ∧ (∀ item, item_uuid item ≠ "" → resolve_uuid w (item_uuid item) = Some item →
       outcome (run (isContainer (Some (container_cell item))) w)
       = Ret (String.eqb (item_type item) "container"
              || String.eqb (item_type item) "backpack")).
Proof.
  cbn zeta. unfold isContainer, fromUuid, truthy_str.
  split; [|split; [|split]].
  - destruct cellData as [data|]; [|done].
    destruct (String.eqb (cell_uuid data) ""); cbn [negb]; [done|].
    mrun. by destruct (resolve_uuid w (cell_uuid data)).
  - destruct cellData as [data|]; [|by left].
    destruct (String.eqb (cell_uuid data) ""); cbn [negb]; [by left|].
    right. exists data. split; [done|].
    mrun. by destruct (resolve_uuid w (cell_uuid data)).
  - destruct cellData as [data|].
    2:{ exists false. split; [done|]. split; [done|]. by intros (? & ? & ? & _). }
    destruct (String.eqb (cell_uuid data) "") eqn:Hu; cbn [negb].
    { exists false. split; [done|]. split; [done|].
      intros (d & it & [= <-] & Hne & _). by apply String.eqb_eq in Hu. }
    apply String.eqb_neq in Hu. mrun.
    destruct (resolve_uuid w (cell_uuid data)) as [it|] eqn:Hres; cbn.
    2:{ exists false. split; [done|]. split; [done|].
        intros (d & it & [= <-] & _ & Hr & _). congruence. }
    eexists. split; [reflexivity|]. split.
    + intros [Hc|Hb]%orb_true_iff; exists data, it; repeat split; try done.
      * left. by apply String.eqb_eq.
      * right. by apply String.eqb_eq.
    + intros (d & it' & [= <-] & _ & Hr & Hty). rewrite Hres in Hr. injection Hr as <-.
      apply orb_true_iff. destruct Hty as [Hty|Hty]; [left|right]; by apply String.eqb_eq.
  - intros item Hne Hres. cbn [container_cell cell_uuid].
    apply String.eqb_neq in Hne. rewrite Hne. cbn [negb]. mrun. by rewrite Hres.
Qed.

(** ** The Generic Actions container *)

Lemma visible_run (w : World) (this : Container) (tr : list Event) :
  ∃ ext,
    visible this {| st_world := w; st_trace := tr |}
    = (Ret (shown w this), {| st_world := w; st_trace := (tr ++ ext)%list |})
    ∧ forallb settings_read ext = true.
Proof.
  unfold visible, shown, module_active, settings_get_bool. msteps.
  destruct (bool_decide ("chris-premades" ∈ active_modules w)); cbn [negb andb].
  - msteps. destruct (default false _); cbn [negb andb]; by eexists [_].
  - exists []. by rewrite app_nil_r.
Qed.

Lemma render_run (w : World) (this : Container) (tr : list Event) :
  ∃ ext el,
    render this {| st_world := w; st_trace := tr |}
    = (Ret {| ga_actor := ga_actor this; ga_element := Some el |},
       {| st_world := w; st_trace := (tr ++ ext)%list |})
    ∧ el_display el = Some (if shown w this then DisplayFlex else DisplayNone)
    ∧ el_children el = (if shown w this then [generic_actions_button] else [])
    ∧ el_classes el = from_option el_classes ["bg3-cpr-generic-actions-container"]
                        (ga_element this)
    ∧ el_bg3Ui el = from_option el_bg3Ui (Some "true") (ga_element this).
Proof.
  unfold render. destruct (visible_run w this tr) as (ext & Hv & _).
  rewrite (bind_run _ _ _ _ _ Hv).
  destruct (shown w this); cbn [negb]; exists ext; eexists; (split; [reflexivity|]);
    by destruct (ga_element this).
Qed.

(** [render] leaves a container element that shows exactly when the
    container is visible (CPR active, the setting on, an actor present): then
    it is displayed as 'flex' and holds the one button, otherwise it is
    displayed as 'none' and holds nothing.  A new element is marked as HUD
    interface; an existing one keeps its classes and marks.  Rendering again
    in the same world gives the same component, so buttons never pile up, and
    the world is not changed. *)
Theorem render_button_iff_visible (w : World) (this : Container) :
  let r := run (render this) w in
  outcome (run (visible this) w) = Ret (shown w this)
  ∧ world_of r = w
  ∧ ∃ el,
      outcome r = Ret {| ga_actor := ga_actor this; ga_element := Some el |}
      ∧ el_display el = Some (if shown w this then DisplayFlex else DisplayNone)
      ∧ el_children el = (if shown w this then [generic_actions_button] else [])
      ∧ (ga_element this = None →
           el_bg3Ui el = Some "true"
           ∧ el_classes el = ["bg3-cpr-generic-actions-container"])
      ∧ (∀ el0, ga_element this = Some el0 →
           el_bg3Ui el = el_bg3Ui el0 ∧ el_classes el = el_classes el0)
      ∧ outcome (run (render {| ga_actor := ga_actor this; ga_element := Some el |}) w)
        = Ret {| ga_actor := ga_actor this; ga_element := Some el |}.
Proof.
  cbn zeta. unfold run, outcome, world_of.
  destruct (visible_run w this []) as (ext0 & -> & _).
  destruct (render_run w this []) as (ext & el & -> & Hd & Hc & Hcl & Hui).
  cbn [fst snd st_world]. split; [done|]. split; [done|].
  exists el. split; [done|]. split; [done|]. split; [done|].
  split; [by intros Hnone; rewrite Hnone in Hcl, Hui|].
  split; [by intros el0 Hsome; rewrite Hsome in Hcl, Hui|].
  destruct (render_run w {| ga_actor := ga_actor this; ga_element := Some el |} [])
    as (ext' & el' & -> & Hd' & Hc' & Hcl' & Hui').
  cbn [fst from_option ga_element] in *.
  change (shown w {| ga_actor := ga_actor this; ga_element := Some el |})
    with (shown w this) in *.
  do 2 f_equal. destruct el, el'. cbn in *. congruence.
Qed.

(** [update] on a component that has an element changes the display of the
    element and nothing else: the children, classes and marks stay, and the
    world too.  On a component without an element it is [render]. *)
Theorem update_changes_display_only (w : World) (this : Container) :
  (ga_element this = None → run (update this) w = run (render this) w)
  ∧ (∀ el, ga_element this = Some el →
       let r := run (update this) w in
       world_of r = w
       ∧ outcome r
         = Ret {| ga_actor := ga_actor this;
                  ga_element :=
                    Some {| el_classes := el_classes el; el_bg3Ui := el_bg3Ui el;
                            el_display := Some (if shown w this then DisplayFlex
                                                else DisplayNone);
                            el_children := el_children el |} |}).
Proof.
  split.
  - intros Hnone. unfold update. by rewrite Hnone.
  - intros el Hel. cbn zeta. unfold run, update, outcome, world_of. rewrite Hel.
    destruct (visible_run w this []) as (ext & Hv & _).
    rewrite !(bind_run _ _ _ _ _ Hv).
    by destruct (shown w this).
Qed.

(** A container first rendered while hidden gets no button from [update]:
    once it has become visible, [update] displays the element as 'flex' with
    no child in it; only another [render] puts the button there. *)
Theorem update_after_hidden_render (w0 w : World) (this c : Container) :
  shown w0 this = false →
  outcome (run (render this) w0) = Ret c →
  shown w c = true →
  (∃ el, outcome (run (update c) w) = Ret {| ga_actor := ga_actor this;
                                             ga_element := Some el |}
         ∧ el_display el = Some DisplayFlex ∧ el_children el = [])
  ∧ (∃ el, outcome (run (render c) w) = Ret {| ga_actor := ga_actor this;
                                               ga_element := Some el |}
           ∧ el_display el = Some DisplayFlex
           ∧ el_children el = [generic_actions_button]).
Proof.
  intros Hhidden Hrender Hshown. unfold run, outcome in *.
  destruct (render_run w0 this []) as (ext & el & Hr & Hd & Hc & _).
  rewrite Hr in Hrender. cbn in Hrender. injection Hrender as <-.
  rewrite Hhidden in Hc. split.
  - unfold update. cbn [ga_element].
    destruct (visible_run w {| ga_actor := ga_actor this; ga_element := Some el |} [])
      as (ext' & Hv & _).
    rewrite (bind_run _ _ _ _ _ Hv). rewrite Hshown. cbn.
    eexists. split; [reflexivity|]. done.
  - destruct (render_run w {| ga_actor := ga_actor this; ga_element := Some el |} [])
      as (ext' & el' & -> & Hd' & Hc' & _).
    rewrite Hshown in Hd', Hc'. by exists el'.
Qed.

(** ** The selection dialog *)

Lemma elem_of_set_add (x y : string) (s : list string) :
  y ∈ set_add x s ↔ y = x ∨ y ∈ s.
Proof.
  unfold set_add, set_has. case_bool_decide as Hx.
  - split; [by right|]. by intros [->|?].
  - rewrite elem_of_app, list_elem_of_singleton. tauto.
Qed.

Lemma NoDup_set_add (x : string) (s : list string) : NoDup s → NoDup (set_add x s).
Proof.
  intros Hs. unfold set_add, set_has. case_bool_decide as Hx; [done|].
  apply NoDup_app. split; [done|]. split; [|apply NoDup_singleton].
  intros y Hy ->%list_elem_of_singleton. done.
Qed.

Lemma elem_of_set_delete (x y : string) (s : list string) :
  y ∈ set_delete x s ↔ y ≠ x ∧ y ∈ s.
Proof.
  unfold set_delete. rewrite !list_elem_of_In, filter_In, negb_true_iff, String.eqb_neq.
  tauto.
Qed.

Lemma NoDup_set_delete (x : string) (s : list string) : NoDup s → NoDup (set_delete x s).
Proof.
  induction 1 as [|y s Hy Hs IH]; [constructor|].
  unfold set_delete in *. cbn. destruct (negb (String.eqb y x)); [|done].
  constructor; [|done]. intros Hin. by apply (elem_of_set_delete x y s) in Hin as [_ ?].
Qed.

Lemma length_set_delete (x : string) (s : list string) :
  (length (set_delete x s) ≤ length s)%nat.
Proof.
  unfold set_delete. induction s as [|y s IH]; [done|]. cbn.
  destruct (negb _); cbn; lia.
Qed.

Lemma new_Set_from (l acc : list string) :
  NoDup acc →
  NoDup (fold_left (λ s x, set_add x s) l acc)
  ∧ ∀ y, y ∈ fold_left (λ s x, set_add x s) l acc ↔ y ∈ acc ∨ y ∈ l.
Proof.
  revert acc. induction l as [|x l IH]; intros acc Hacc; cbn.
  - split; [done|]. intros y. rewrite elem_of_nil. tauto.
  - destruct (IH (set_add x acc) (NoDup_set_add x acc Hacc)) as [Hnd Hel].
    split; [done|]. intros y. rewrite Hel, elem_of_set_add, elem_of_cons. tauto.
Qed.

Lemma new_Set_spec (l : list string) :
  NoDup (new_Set l) ∧ ∀ y, y ∈ new_Set l ↔ y ∈ l.
Proof.
  destruct (new_Set_from l [] (NoDup_nil_2)) as [Hnd Hel].
  split; [done|]. intros y. unfold new_Set. rewrite Hel, elem_of_nil. tauto.
Qed.

Lemma open_dialog_consistent (selected : option (list string)) (available : list Action) :
  NoDup (map act_uuid available) →
  consistent (open_dialog selected available)
  ∧ map cb_itemId (checkboxes (open_dialog selected available)) = map act_uuid available
  ∧ selectedActions (open_dialog selected available) = new_Set (default [] selected).
Proof.
  intros Hnd.
  assert (map cb_itemId (checkboxes (open_dialog selected available))
          = map act_uuid available) as Hids.
  { cbn. rewrite map_map. done. }
  split; [|done]. split; [apply new_Set_spec|]. split; [by rewrite Hids|].
  split; [|done].
  intros j cb Hj. cbn in Hj. rewrite list_lookup_fmap in Hj.
  destruct (available !! j) as [a|]; [|done]. cbn in Hj. injection Hj as <-. done.
Qed.

Lemma ids_distinct (boxes : list Checkbox) (i j : nat) (cbi cbj : Checkbox) :
  NoDup (map cb_itemId boxes) →
  boxes !! i = Some cbi → boxes !! j = Some cbj → i ≠ j →
  cb_itemId cbj ≠ cb_itemId cbi.
Proof.
  intros Hnd Hi Hj Hij Heq. apply Hij.
  apply (NoDup_lookup (map cb_itemId boxes) i j (cb_itemId cbi) Hnd).
  - by rewrite list_lookup_fmap, Hi.
  - rewrite list_lookup_fmap, Hj. cbn. by rewrite Heq.
Qed.

Lemma ids_refresh_alter (f : Checkbox → Checkbox) (g : Checkbox → bool) (i : nat)
    (boxes : list Checkbox) :
  (∀ cb, cb_itemId (f cb) = cb_itemId cb) →
  map cb_itemId
    (map (λ cb, {| cb_itemId := cb_itemId cb; cb_checked := cb_checked cb;
                   cb_disabled := g cb |})
         (alter f i boxes))
  = map cb_itemId boxes.
Proof.
  intros Hf. rewrite map_map. cbn.
  apply list_eq. intros j. rewrite !list_lookup_fmap.
  destruct (decide (i = j)) as [->|Hij].
  - rewrite list_lookup_alter_eq. destruct (boxes !! j); cbn; [|done]. by rewrite Hf.
  - by rewrite list_lookup_alter_ne.
Qed.

Lemma set_has_other (x y : string) (s : list string) :
  y ≠ x →
  set_has (set_delete x s) y = set_has s y ∧ set_has (s ++ [x]) y = set_has s y.
Proof.
  intros Hne. unfold set_has. split; apply bool_decide_ext.
  - rewrite elem_of_set_delete. tauto.
  - rewrite elem_of_app, list_elem_of_singleton. tauto.
Qed.

Lemma onCheckboxChange_toggle (this : Dialog) (i : nat) (cb : Checkbox) (s : St) :
  consistent this → checkboxes this !! i = Some cb → cb_disabled cb = false →
  ∃ this',
    _onCheckboxChange i
      {| selectedActions := selectedActions this;
         checkboxes := alter (set_checked (negb (cb_checked cb))) i (checkboxes this);
         counter := counter this |} s
    = (Ret this', s)
    ∧ consistent this'
    ∧ map cb_itemId (checkboxes this') = map cb_itemId (checkboxes this)
    ∧ selectedActions this'
      = (if cb_checked cb then set_delete (cb_itemId cb) (selectedActions this)
         else selectedActions this ++ [cb_itemId cb])%list
    ∧ (cb_checked cb = false →
         (length (selectedActions this) < MAX_SELECTIONS)%nat
         ∧ cb_itemId cb ∉ selectedActions this).
Proof.
  intros (Hnd & Hids & Hboxes & Hcnt) Hcb Hdis.
  destruct (Hboxes i cb Hcb) as [Hchk Hd].
  unfold _onCheckboxChange. cbn [checkboxes selectedActions counter].
  rewrite list_lookup_alter_eq, Hcb. cbn [fmap option_fmap option_map].
  rewrite Hcnt.
  destruct (cb_checked cb) eqn:Hc; cbn [negb set_checked cb_checked cb_itemId].
  - msteps. rewrite run_ret. eexists. split; [reflexivity|].
    unfold consistent. cbn [selectedActions checkboxes counter].
    rewrite !ids_refresh_alter by done.
    split; [|done].
    split; [by apply NoDup_set_delete|].
    split; [done|].
    split; [|done].
    intros j cb' Hj. rewrite list_lookup_fmap in Hj.
    destruct (decide (i = j)) as [<-|Hij].
    + rewrite list_lookup_alter_eq, Hcb in Hj. cbn in Hj. injection Hj as <-. cbn.
      split; [|done]. symmetry. apply bool_decide_eq_false_2.
      rewrite elem_of_set_delete. tauto.
    + rewrite list_lookup_alter_ne in Hj by done.
      destruct (checkboxes this !! j) as [cbj|] eqn:Hcbj; [|done].
      cbn in Hj. injection Hj as <-. cbn. split; [|done].
      destruct (Hboxes j cbj Hcbj) as [-> _].
      symmetry. by apply set_has_other, (ids_distinct (checkboxes this) i j).
  - cbn [negb andb] in Hd. rewrite Hdis in Hd.
    symmetry in Hd. apply Nat.leb_gt in Hd.
    assert (cb_itemId cb ∉ selectedActions this) as Hnot.
    { symmetry in Hchk. by apply bool_decide_eq_false_1 in Hchk. }
    assert ((length (selectedActions this) <? MAX_SELECTIONS)%nat = true) as ->
      by (by apply Nat.ltb_lt).
    assert (set_add (cb_itemId cb) (selectedActions this)
            = (selectedActions this ++ [cb_itemId cb])%list) as ->.
    { unfold set_add. fold (set_has (selectedActions this) (cb_itemId cb)).
      by rewrite <- Hchk. }
    msteps. rewrite run_ret. eexists. split; [reflexivity|].
    unfold consistent. cbn [selectedActions checkboxes counter].
    rewrite !ids_refresh_alter by done.
    split; [|done].
    split.
    { apply NoDup_app. split; [done|]. split; [|apply NoDup_singleton].
      intros y Hy ->%list_elem_of_singleton. done. }
    split; [done|].
    split; [|done].
    intros j cb' Hj. rewrite list_lookup_fmap in Hj.
    destruct (decide (i = j)) as [<-|Hij].
    + rewrite list_lookup_alter_eq, Hcb in Hj. cbn in Hj. injection Hj as <-. cbn.
      split; [|done]. symmetry. apply bool_decide_eq_true_2.
      rewrite elem_of_app, list_elem_of_singleton. tauto.
    + rewrite list_lookup_alter_ne in Hj by done.
      destruct (checkboxes this !! j) as [cbj|] eqn:Hcbj; [|done].
      cbn in Hj. injection Hj as <-. cbn. split; [|done].
      destruct (Hboxes j cbj Hcbj) as [-> _].
      symmetry. by apply set_has_other, (ids_distinct (checkboxes this) i j).
Qed.

Lemma toggle_keeps_inv (ids sel0 : list string) (this this' : Dialog) (i : nat)
    (cb : Checkbox) :
  dialog_inv ids sel0 this → checkboxes this !! i = Some cb →
  consistent this' →
  map cb_itemId (checkboxes this') = map cb_itemId (checkboxes this) →
  selectedActions this'
  = (if cb_checked cb then set_delete (cb_itemId cb) (selectedActions this)
     else selectedActions this ++ [cb_itemId cb])%list →
  (cb_checked cb = false →
     (length (selectedActions this) < MAX_SELECTIONS)%nat
     ∧ cb_itemId cb ∉ selectedActions this) →
  dialog_inv ids sel0 this'.
Proof.
  intros (Hcons & Hids & Hlen & Hstale) Hcb Hcons' Hids' Hsel Hfree.
  split; [done|]. split; [by rewrite Hids'|].
  assert (cb_itemId cb ∈ ids) as Hin.
  { rewrite <- Hids. apply list_elem_of_fmap. exists cb. split; [done|].
    by eapply list_elem_of_lookup_2. }
  rewrite Hsel. destruct (cb_checked cb).
  - split.
    + pose proof (length_set_delete (cb_itemId cb) (selectedActions this)). lia.
    + intros u Hu. rewrite elem_of_set_delete, <- (Hstale u Hu).
      split; [tauto|]. intros Hsel'. split; [|done]. by intros ->.
  - destruct Hfree as [Hlt _]; [done|]. split.
    + rewrite length_app. cbn. lia.
    + intros u Hu. rewrite elem_of_app, list_elem_of_singleton, <- (Hstale u Hu).
      split; [|tauto]. intros [?| ->]; done.
Qed.

Lemma gesture_run (ids sel0 : list string) (g : Gesture) (this : Dialog) (s : St) :
  dialog_inv ids sel0 this →
  ∃ this', gesture g this s = (Ret this', s) ∧ dialog_inv ids sel0 this'.
Proof.
  intros Hinv. pose proof Hinv as (Hcons & _).
  destruct g as [i|i]; unfold gesture, row_onClick;
    (destruct (checkboxes this !! i) as [cb|] eqn:Hcb; [|by exists this]);
    (destruct (cb_disabled cb) eqn:Hdis; cbn [negb andb]; [by exists this|]).
  - destruct (onCheckboxChange_toggle this i cb s Hcons Hcb Hdis)
      as (this' & -> & Hc' & Hids' & Hsel & Hfree).
    exists this'. split; [done|]. by eapply toggle_keeps_inv.
  - cbn [checkboxes]. rewrite list_lookup_alter_eq, Hcb. cbn [fmap option_fmap option_map].
    rewrite bind_ret. unfold checkbox_onChange.
    destruct (onCheckboxChange_toggle this i cb s Hcons Hcb Hdis)
      as (this' & -> & Hc' & Hids' & Hsel & Hfree).
    exists this'. split; [done|]. by eapply toggle_keeps_inv.
Qed.

Lemma gestures_run (ids sel0 : list string) (gs : list Gesture) (this : Dialog) (s : St) :
  dialog_inv ids sel0 this →
  ∃ this', gestures gs this s = (Ret this', s) ∧ dialog_inv ids sel0 this'.
Proof.
  revert this. induction gs as [|g gs IH]; intros this Hinv; cbn [gestures].
  - by exists this.
  - destruct (gesture_run ids sel0 g this s Hinv) as (this1 & Hg & Hinv1).
    rewrite (bind_run _ _ _ _ _ Hg). by apply IH.
Qed.

(** However the user clicks rows and checkboxes of the selection dialog, the
    dialog keeps showing its set: each box is ticked exactly when its uuid
    is selected and disabled exactly when it is unticked with six selected,
    the counter gives the size, and the MaxSelectionsReached warning never
    comes up.  What Save resolves to has no duplicates and at most six
    uuids, or as many as the stored selection had if that was more; a stored
    uuid that has no row stays selected. *)
Theorem selection_dialog_invariant (selected : option (list string))
    (available : list Action) (gs : list Gesture) (w : World) :
  NoDup (map act_uuid available) →
  ∃ this result,
    run (gestures gs (open_dialog selected available)) w
    = (Ret this, {| st_world := w; st_trace := [] |})
    ∧ consistent this
    ∧ map cb_itemId (checkboxes this) = map act_uuid available
    ∧ _onConfirm this = Some result
    ∧ NoDup result
    ∧ (length result ≤ length (new_Set (default [] selected)) `max` MAX_SELECTIONS)%nat
    ∧ (∀ u, u ∉ map act_uuid available → u ∈ result ↔ u ∈ default [] selected)
    ∧ (∀ cb, cb ∈ checkboxes this → cb_checked cb = true ↔ cb_itemId cb ∈ result).
Proof.
  intros Hnd.
  destruct (open_dialog_consistent selected available Hnd) as (Hcons & Hids & Hsel).
  assert (dialog_inv (map act_uuid available) (new_Set (default [] selected))
            (open_dialog selected available)) as Hinv.
  { split; [done|]. split; [done|]. rewrite Hsel. split; [lia|]. done. }
  destruct (gestures_run _ _ gs _ {| st_world := w; st_trace := [] |} Hinv)
    as (this & Hrun & Hcons' & Hids' & Hlen & Hstale).
  exists this, (selectedActions this). split; [exact Hrun|].
  split; [done|]. split; [done|]. split; [done|].
  split; [apply Hcons'|]. split; [done|]. split.
  - intros u Hu. rewrite (Hstale u Hu). apply new_Set_spec.
  - intros cb Hcb. apply list_elem_of_lookup_1 in Hcb as [j Hj].
    destruct Hcons' as (_ & _ & Hboxes & _).
    destruct (Hboxes j cb Hj) as [-> _]. unfold set_has.
    apply bool_decide_eq_true.
Qed.

Lemma length_set_add (x : string) (s : list string) :
  (length (set_add x s) ≤ S (length s))%nat.
Proof.
  unfold set_add. destruct (set_has s x); [lia|]. rewrite length_app. cbn. lia.
Qed.

(** Called on any dialog state, [_onCheckboxChange] keeps the selection
    within the limit: the set never grows beyond six, or beyond its size if
    it already held more, and afterwards every box is disabled exactly when
    it is unticked with the set full.  The world is left alone.  The warning
    is shown only for a ticked box with the set full, and then the box is
    unticked again and the set is as it was. *)
Theorem onCheckboxChange_caps_selection (this : Dialog) (i : nat) (w : World) :
  let r := run (_onCheckboxChange i this) w in
  world_of r = w
  ∧ ∃ this',
      outcome r = Ret this'
      ∧ (length (selectedActions this')
         ≤ length (selectedActions this) `max` MAX_SELECTIONS)%nat
      ∧ (is_Some (checkboxes this !! i) →
         ∀ cb, cb ∈ checkboxes this' →
           cb_disabled cb
           = negb (cb_checked cb)
             && (MAX_SELECTIONS <=? length (selectedActions this'))%nat)
      ∧ (trace_of r = []
         ∨ trace_of r = [NotifyWarn "bg3-hud-dnd5e.CPR.MaxSelectionsReached"]
           ∧ selectedActions this' = selectedActions this
           ∧ (MAX_SELECTIONS ≤ length (selectedActions this))%nat
           ∧ ∃ cb, checkboxes this' !! i = Some cb ∧ cb_checked cb = false).
Proof.
  cbn zeta. unfold run, _onCheckboxChange, notifications_warn.
  destruct (checkboxes this !! i) as [cb|] eqn:Hcb.
  2:{ split; [done|]. exists this. split; [done|]. split; [lia|].
      split; [by intros [? ?]|by left]. }
  assert (∀ (sel : list string) (boxes : list Checkbox) (cb' : Checkbox),
            cb' ∈ map (λ cb0, {| cb_itemId := cb_itemId cb0; cb_checked := cb_checked cb0;
                                 cb_disabled := negb (cb_checked cb0)
                                                && (MAX_SELECTIONS <=? length sel)%nat |})
                      boxes →
            cb_disabled cb' = negb (cb_checked cb') && (MAX_SELECTIONS <=? length sel)%nat)
    as Hfresh.
  { intros sel boxes cb' Hin. apply list_elem_of_fmap in Hin as (cb0 & -> & _). done. }
  destruct (cb_checked cb) eqn:Hc.
  - destruct (Nat.ltb_spec (length (selectedActions this)) MAX_SELECTIONS) as [Hlt|Hge].
    + msteps. rewrite run_ret. split; [done|]. eexists. split; [reflexivity|].
      cbn [selectedActions checkboxes].
      split; [|split; [intros _; apply Hfresh|by left]].
      pose proof (length_set_add (cb_itemId cb) (selectedActions this)). lia.
    + msteps. rewrite run_ret. split; [done|]. eexists. split; [reflexivity|].
      cbn [selectedActions checkboxes].
      split; [lia|]. split; [intros _; apply Hfresh|].
      right. split; [done|]. split; [done|]. split; [done|].
      rewrite list_lookup_fmap, list_lookup_alter_eq, Hcb. by eexists.
  - msteps. rewrite run_ret. split; [done|]. eexists. split; [reflexivity|].
    cbn [selectedActions checkboxes].
    split; [|split; [intros _; apply Hfresh|by left]].
    pose proof (length_set_delete (cb_itemId cb) (selectedActions this)). lia.
Qed.

Lemma set_delete_snoc (x : string) (s : list string) :
  x ∉ s → set_delete x (s ++ [x]) = s.
Proof.
  unfold set_delete. induction s as [|y s IH]; intros Hx; cbn.
  - by rewrite String.eqb_refl.
  - apply not_elem_of_cons in Hx as [Hne Hx].
    assert (String.eqb y x = false) as -> by (apply String.eqb_neq; congruence).
    cbn. by rewrite IH.
Qed.

Lemma onCheckboxChange_toggle_eq (this : Dialog) (i : nat) (cb : Checkbox) (s : St) :
  consistent this → checkboxes this !! i = Some cb → cb_disabled cb = false →
  let sel' := (if cb_checked cb then set_delete (cb_itemId cb) (selectedActions this)
               else selectedActions this ++ [cb_itemId cb])%list in
  _onCheckboxChange i
    {| selectedActions := selectedActions this;
       checkboxes := alter (set_checked (negb (cb_checked cb))) i (checkboxes this);
       counter := counter this |} s
  = (Ret {| selectedActions := sel';
            checkboxes :=
              map (λ cb0, {| cb_itemId := cb_itemId cb0; cb_checked := cb_checked cb0;
                             cb_disabled := negb (cb_checked cb0)
                                            && (MAX_SELECTIONS <=? length sel')%nat |})
                  (alter (set_checked (negb (cb_checked cb))) i (checkboxes this));
            counter := Some (length sel') |}, s).
Proof.
  intros (Hnd & Hids & Hboxes & Hcnt) Hcb Hdis.
  destruct (Hboxes i cb Hcb) as [Hchk Hd].
  unfold _onCheckboxChange. cbn [checkboxes selectedActions counter].
  rewrite list_lookup_alter_eq, Hcb. cbn [fmap option_fmap option_map].
  rewrite Hcnt.
  destruct (cb_checked cb) eqn:Hc; cbn [negb set_checked cb_checked cb_itemId].
  - msteps. by rewrite run_ret.
  - cbn [negb andb] in Hd. rewrite Hdis in Hd.
    symmetry in Hd. apply Nat.leb_gt in Hd.
    assert ((length (selectedActions this) <? MAX_SELECTIONS)%nat = true) as ->
      by (by apply Nat.ltb_lt).
    assert (set_add (cb_itemId cb) (selectedActions this)
            = (selectedActions this ++ [cb_itemId cb])%list) as ->.
    { unfold set_add. by rewrite <- Hchk. }
    msteps. by rewrite run_ret.
Qed.

(** Ticking a row and unticking it again leaves the dialog exactly as it
    was: from a consistent dialog, two clicks on a row whose box is unticked
    and enabled give back the same set in the same order, the same boxes and
    the same counter. *)
Theorem click_row_twice_restores (this : Dialog) (i : nat) (cb : Checkbox) (w : World) :
  consistent this → checkboxes this !! i = Some cb →
  cb_checked cb = false → cb_disabled cb = false →
  run (gestures [ClickRow i; ClickRow i] this) w
  = (Ret this, {| st_world := w; st_trace := [] |}).
Proof.
  intros Hcons Hcb Hc Hdis. pose proof Hcons as (Hnd & Hids & Hboxes & Hcnt).
  destruct (onCheckboxChange_toggle this i cb {| st_world := w; st_trace := [] |}
              Hcons Hcb Hdis) as (this1 & Hrun1 & Hcons1 & _ & _ & Hfree).
  destruct (Hfree Hc) as [Hlt Hnot].
  pose proof (onCheckboxChange_toggle_eq this i cb {| st_world := w; st_trace := [] |}
                Hcons Hcb Hdis) as Heq1.
  cbn zeta in Heq1. rewrite Hc in Heq1, Hrun1. cbn [negb] in Heq1, Hrun1.
  match type of Heq1 with
  | _ = (Ret ?R, _) => assert (this1 = R) as -> by congruence
  end.
  clear Hrun1.
  set (s0 := {| st_world := w; st_trace := [] |}) in *.
  match type of Hcons1 with
  | consistent ?R => set (this1 := R) in *
  end.
  assert (gesture (ClickRow i) this s0 = (Ret this1, s0)) as Hg1.
  { unfold gesture, row_onClick. rewrite Hcb, Hdis, Hc. cbn [negb andb].
    by rewrite Heq1. }
  assert (checkboxes this1 !! i
          = Some {| cb_itemId := cb_itemId cb; cb_checked := true;
                    cb_disabled := false |}) as Hcb1.
  { subst this1. cbn [checkboxes].
    rewrite list_lookup_fmap, list_lookup_alter_eq, Hcb. done. }
  pose proof (onCheckboxChange_toggle_eq this1 i _ s0 Hcons1 Hcb1 eq_refl) as Heq2.
  cbn zeta in Heq2. cbn [cb_checked cb_itemId negb] in Heq2.
  assert (gesture (ClickRow i) this1 s0 = (Ret this, s0)) as Hg2.
  { unfold gesture, row_onClick. rewrite Hcb1. cbn [negb andb cb_disabled cb_checked].
    rewrite Heq2. f_equal. f_equal.
    subst this1. cbn [selectedActions checkboxes].
    rewrite set_delete_snoc by done.
    destruct this as [sel boxes cnt]. cbn [selectedActions checkboxes counter] in *.
    f_equal; [|done].
    apply list_eq. intros j. rewrite list_lookup_fmap.
    destruct (decide (i = j)) as [<-|Hij].
    - rewrite list_lookup_alter_eq, list_lookup_fmap, list_lookup_alter_eq, Hcb.
      destruct (Hboxes i cb Hcb) as [_ Hd]. destruct cb as [id chk dis].
      cbn in *. subst chk. by rewrite Hd.
    - rewrite list_lookup_alter_ne, list_lookup_fmap, list_lookup_alter_ne by done.
      destruct (boxes !! j) as [cbj|] eqn:Hj; [|done].
      destruct (Hboxes j cbj Hj) as [_ Hd]. destruct cbj as [id chk dis].
      cbn in *. by rewrite Hd. }
  unfold run. fold s0. cbn [gestures].
  rewrite (bind_run _ _ _ _ _ Hg1), (bind_run _ _ _ _ _ Hg2). done.
Qed.

(** ** The portrait menu *)

Lemma flag_of_setFlag_eq (w : World) (actor key : string) (v : FlagValue) :
  is_Some (get_actor w actor) →
  flag_of (update_actor actor (set_flags (insert key v)) w) actor key = Some v.
Proof.
  intros [a Ha]. unfold flag_of. rewrite get_actor_update by done. rewrite Ha. cbn.
  apply lookup_insert_eq.
Qed.

Lemma setFlag_twice (w : World) (actor key : string) (v : FlagValue) :
  update_actor actor (set_flags (insert key v))
    (update_actor actor (set_flags (insert key v)) w)
  = update_actor actor (set_flags (insert key v)) w.
Proof.
  unfold update_actor, with_actors. cbn. f_equal. rewrite map_map.
  apply map_ext. intros a. destruct (String.eqb (actor_id a) actor) eqn:Ha; cbn.
  - rewrite Ha. unfold set_flags. cbn. f_equal. apply insert_insert_eq.
  - by rewrite Ha.
Qed.

(** [buildPortraitMenu] gives no entries without an actor.  With one it
    reads two flags, changes nothing, and lists 'token' and 'portrait', with
    'scaleWithToken' between them exactly when the token image is in use and
    the token's scale is not 1; of 'token' and 'portrait' exactly one carries
    the check mark, the one in use. *)
Theorem buildPortraitMenu_shape (w : World) (pc : PortraitContainer) (actor : string) :
  pc_actor pc = Some actor →
  let r := run (buildPortraitMenu pc) w in
  let useTokenImage := flag_or (flag_of w actor "useTokenImage") true in
  let scaled :=
    negb (QArith_base.Qeq_bool (default (QArith_base.Qmake 1 1) (pc_tokenScaleX pc))
                               (QArith_base.Qmake 1 1)) in
  run (buildPortraitMenu {| pc_actor := None; pc_tokenScaleX := pc_tokenScaleX pc |}) w
  = (Ret [], {| st_world := w; st_trace := [] |})
  ∧ world_of r = w
  ∧ trace_of r = [GetFlag actor "useTokenImage"; GetFlag actor "scaleWithToken"]
  ∧ ∃ items,
      outcome r = Ret items
      ∧ map mi_key items
        = (if useTokenImage && scaled then ["token"; "scaleWithToken"; "portrait"]
           else ["token"; "portrait"])
      ∧ map mi_key
          (List.filter (λ item, String.eqb (mi_icon item) "fas fa-check"
                                && negb (String.eqb (mi_key item) "scaleWithToken"))
                       items)
        = [if useTokenImage then "token" else "portrait"].
Proof.
  intros Hactor. cbn zeta. split; [done|].
  unfold run, outcome, world_of, trace_of, buildPortraitMenu, getFlag. rewrite Hactor.
  msteps. rewrite !run_ret. cbn [fst snd st_world st_trace].
  split; [done|]. split; [done|].
  eexists. split; [reflexivity|].
  destruct (flag_or (flag_of w actor "useTokenImage") true);
    destruct (negb _); destruct (flag_or (flag_of w actor "scaleWithToken") false);
    split; reflexivity.
Qed.

(** A click on an entry of the portrait menu, for an actor of the world,
    writes the flag the entry stands for: after 'token' the token image is in
    use, after 'portrait' it is not, and 'scaleWithToken' turns the scaling
    into the opposite of what it was when the menu was built; clicking that
    same entry once more writes the same value again.  A click on the entry
    that carries the check mark of the image in use writes nothing. *)
Theorem buildPortraitMenu_clicks (w : World) (pc : PortraitContainer) (actor : string)
    (items : list MenuItem) (item : MenuItem) :
  pc_actor pc = Some actor → is_Some (get_actor w actor) →
  outcome (run (buildPortraitMenu pc) w) = Ret items →
  item ∈ items →
  let r := run (mi_onClick item) w in
  outcome r = Ret tt ∧ trace_of r = []
  ∧ (mi_key item = "token" →
       flag_or (flag_of (world_of r) actor "useTokenImage") true = true)
  ∧ (mi_key item = "portrait" →
       flag_or (flag_of (world_of r) actor "useTokenImage") true = false)
  ∧ (mi_key item = "scaleWithToken" →
       flag_or (flag_of (world_of r) actor "scaleWithToken") false
       = negb (flag_or (flag_of w actor "scaleWithToken") false)
       ∧ world_of (run (mi_onClick item) (world_of r)) = world_of r)
  ∧ (mi_key item ≠ "scaleWithToken" → mi_icon item = "fas fa-check" → world_of r = w).
Proof.
  intros Hactor Hsome. unfold run at 1, outcome at 1, buildPortraitMenu, getFlag.
  rewrite Hactor. msteps. rewrite run_ret. cbn [fst]. intros [= <-] Hin.
  cbn zeta.
  destruct (flag_or (flag_of w actor "useTokenImage") true) eqn:Huse;
    destruct (negb _); cbn [andb app] in Hin;
    repeat (apply elem_of_cons in Hin as [->|Hin]);
    try (by apply elem_of_nil in Hin);
    cbn [mi_key mi_icon mi_onClick negb];
    unfold run, outcome, world_of, trace_of, setFlag, modify; cbn [fst snd st_world st_trace];
    (split; [done|]); (split; [done|]);
    repeat split; try done; intros;
    rewrite ?flag_of_setFlag_eq by done; try done;
    try apply setFlag_twice;
    by destruct (flag_or (flag_of w actor "scaleWithToken") false).
Qed.

(** ** The Generic Actions click *)

Lemma appends_onClick (H : Host) (this_actor : option string) :
  appends no_delete (_onClick H this_actor).
Proof.
  unfold _onClick, getCPRGenericActionsUUID, get_rulesVersion, fromUuid,
    createEmbeddedDocuments, item_use, notifications_warn, notifications_error,
    console_log, console_error.
  cbn zeta. solve_appends.
Qed.

(** The Generic Actions click keeps what it creates and passes no error on:
    it never asks for a deletion and always returns normally.  An error of
    [use()], on the item the actor has or on the one just created, and a
    container without an actor end in the error logged on the console and
    the error notification, the only notification then shown.  When the
    actor already has the item of the current rules version by name, nothing
    is looked up or created and that item is the one used.  When it creates
    the item from the compendium, the item is still on the actor afterwards,
    as long as [use()] itself leaves the actor's items alone. *)
Theorem onClick_keeps_item (H : Host) (w : World) (actor : string) :
  let r := run (_onClick H (Some actor)) w in
  let failed :=
    [ ConsoleError
        "[bg3-hud-dnd5e] DnD5eCPRGenericActionsContainer | Error using CPR Generic Actions:";
      NotifyError "bg3-hud-dnd5e.Notifications.CPRGenericActionsError" ] in
  forallb no_delete (trace_of r) = true
  ∧ outcome r = Ret tt
  ∧ (∀ it,
       find (λ i, String.eqb (item_name i) (generic_actions_name w)) (items_of w actor)
       = Some it →
       creations (trace_of r) = [] ∧ List.filter is_lookup (trace_of r) = []
       ∧ uses (trace_of r) = if item_has_use it then [it] else [])
  ∧ (∀ ref src,
       find (λ i, String.eqb (item_name i) (generic_actions_name w)) (items_of w actor)
       = None →
       outcome (run getCPRGenericActionsUUID w) = Ret ref →
       resolve_ref w ref = Some src →
       create_returns_document w = true →
       is_Some (get_actor w actor) →
       (∀ it w0, items_of (host_use H it w0).2 actor = items_of w0 actor) →
       build_embedded w actor (delete_id (deepClone (toObject src)))
       ∈ items_of (world_of r) actor)
  ∧ (∀ it e,
       find (λ i, String.eqb (item_name i) (generic_actions_name w)) (items_of w actor)
       = Some it →
       item_has_use it = true →
       (host_use H it w).1 = Throw e →
       trace_of r = ([SettingsGet "dnd5e" "rulesVersion"; ItemUse it] ++ failed)%list
       ∧ List.filter is_notification (trace_of r)
         = [NotifyError "bg3-hud-dnd5e.Notifications.CPRGenericActionsError"])
  ∧ (∀ ref src e,
       find (λ i, String.eqb (item_name i) (generic_actions_name w)) (items_of w actor)
       = None →
       outcome (run getCPRGenericActionsUUID w) = Ret ref →
       resolve_ref w ref = Some src →
       create_returns_document w = true → created_has_use w = true →
       let data := delete_id (deepClone (toObject src)) in
       (host_use H (build_embedded w actor data) (world_after_create w actor data)).1
       = Throw e →
       (∃ pre, trace_of r
               = (pre ++ [ItemUse (build_embedded w actor data)] ++ failed)%list)
       ∧ List.filter is_notification (trace_of r)
         = [NotifyError "bg3-hud-dnd5e.Notifications.CPRGenericActionsError"])
  ∧ run (_onClick H None) w
    = (Ret tt, {| st_world := w;
                  st_trace := (SettingsGet "dnd5e" "rulesVersion" :: failed)%list |}).
Proof.
  cbn zeta. split; [|split; [|split; [|split; [|split; [|split]]]]].
  - unfold run, trace_of.
    destruct (appends_onClick H (Some actor) {| st_world := w; st_trace := [] |})
      as (ext & -> & Hext).
    done.
  - unfold run, outcome, _onClick, try_catch.
    match goal with
    | |- context [match ?m ?s with _ => _ end] => destruct (m s) as [[[]|e] s']
    end; [done|]. by destruct s'.
  - intros it Hfind. unfold generic_actions_name in Hfind.
    unfold _onClick, get_rulesVersion, item_use, notifications_warn. mrun.
    destruct (String.eqb (rulesVersion w) "modern"); rewrite Hfind; cbn;
      destruct (item_has_use it); cbn; try done;
      destruct (host_use H it w) as [[[]|e] w']; cbn; done.
  - intros ref src Hfind Href Hres Hcreate Hsome Hkeep.
    unfold generic_actions_name in Hfind. revert Href.
    unfold _onClick, getCPRGenericActionsUUID, get_rulesVersion, fromUuid,
      createEmbeddedDocuments, item_use, notifications_warn, notifications_error,
      console_log, console_error.
    mrun.
    assert (build_embedded w actor (delete_id (deepClone (toObject src)))
            ∈ items_of (world_after_create w actor (delete_id (deepClone (toObject src))))
                       actor) as Hin by (by apply created_in_items).
    rewrite Hfind; cbn.
    intros [= <-]; rewrite Hres; cbn; rewrite Hcreate; cbn;
      fold (world_after_create w actor (delete_id (deepClone (toObject src))));
      (destruct (created_has_use w); cbn; [|done]);
      match goal with
      | |- context [host_use H ?it ?w0] =>
          pose proof (Hkeep it w0) as Hk; destruct (host_use H it w0) as [[[]|e] w']
      end; cbn in *; by rewrite Hk.
  - intros it e Hfind Huse Hthrow. unfold generic_actions_name in Hfind.
    unfold _onClick, get_rulesVersion, item_use, notifications_warn, notifications_error,
      console_error.
    mrun. rewrite Hfind. cbn. rewrite Huse. cbn.
    destruct (host_use H it w) as [[[]|e'] w']; cbn in *; [done|]. done.
  - intros ref src e Hfind Href Hres Hcreate Huse. cbn zeta.
    unfold generic_actions_name in Hfind. revert Href.
    unfold _onClick, getCPRGenericActionsUUID, get_rulesVersion, fromUuid,
      createEmbeddedDocuments, item_use, notifications_warn, notifications_error,
      console_log, console_error.
    mrun. rewrite Hfind. cbn.
    intros [= <-]. rewrite Hres. cbn. rewrite Hcreate. cbn. rewrite Huse. cbn.
    fold (world_after_create w actor (delete_id (deepClone (toObject src)))).
    destruct (host_use H _ _) as [[[]|e'] w']; cbn; [done|]. intros _.
    split; [|done]. by eexists [_; _; _; _; _].
  - unfold _onClick, get_rulesVersion, notifications_error, console_error. mrun. done.
Qed.

(** ** The handlers that hand over to the adapter *)

(** The later handlers of [createToken] and [BG3HUD_TOKEN_CHANGED] do nothing
    without a token actor or without an adapter that populates; on
    [createToken] a client that is neither a GM nor the creator of the token
    does nothing either.  They never throw, and with an item in grid 0 of the
    actor they save nothing and leave the world as it was. *)
Theorem token_handlers_delegate (H : Host) (w : World) (session : Session)
    (adapter : bool) (token_actor : option string) (userId : string) :
  let r1 := run (createToken_delegate H session adapter token_actor userId) w in
  let r2 := run (tokenChanged_delegate H adapter token_actor) w in
  let idle := (Ret tt, {| st_world := w; st_trace := [] |}) in
  outcome r1 = Ret tt ∧ outcome r2 = Ret tt
  ∧ (token_actor = None ∨ adapter = false → r1 = idle ∧ r2 = idle)
  ∧ (game_user_isGM session = false → game_userId session ≠ userId → r1 = idle)
  ∧ (∀ actor, token_actor = Some actor →
       (0 < size (existing_items (loaded_state w actor)))%nat →
       world_of r1 = w ∧ saves (trace_of r1) = []
       ∧ world_of r2 = w ∧ saves (trace_of r2) = []).
Proof.
  cbn zeta. unfold createToken_delegate, tokenChanged_delegate.
  split; [|split; [|split; [|split]]].
  - destruct (negb (game_user_isGM session) && _); [done|].
    destruct token_actor as [actor|]; [|done]. destruct adapter; [|done].
    unfold run, outcome.
    by destruct (onTokenCreation_returns H (Some actor) {| st_world := w; st_trace := [] |})
      as [s' ->].
  - destruct token_actor as [actor|]; [|done]. destruct adapter; [|done].
    unfold run, outcome.
    by destruct (onTokenChange_returns H (Some actor) {| st_world := w; st_trace := [] |})
      as [s' ->].
  - intros [-> | ->].
    + by destruct (negb (game_user_isGM session) && _).
    + destruct (negb (game_user_isGM session) && _); by destruct token_actor.
  - intros -> Hne%String.eqb_neq. by rewrite Hne.
  - intros actor -> Hex.
    destruct (onTokenCreation_filled H w actor Hex) as [Hw1 Hs1].
    destruct (onTokenChange_filled H w actor Hex) as [Hw2 Hs2].
    destruct adapter; [|by destruct (negb (game_user_isGM session) && _)].
    by destruct (negb (game_user_isGM session) && _).
Qed.

(** ** Reading a container *)

Lemma fill_slots_elem (cols : nat) (cells : list CellData) (start : nat)
    (items : gmap string CellData) (key : string) (cell : CellData) :
  fill_slots cols cells start items !! key = Some cell →
  cell ∈ cells ∨ items !! key = Some cell.
Proof.
  revert start items. induction cells as [|c cells IH]; intros start items Hk; cbn in Hk.
  - by right.
  - apply IH in Hk as [Hin|Hk]; [left; by right|].
    destruct (decide (quick_slot cols start = key)) as [<-|Hne].
    + rewrite lookup_insert_eq in Hk. injection Hk as <-. left. by left.
    + rewrite lookup_insert_ne in Hk by done. by right.
Qed.

(** [getContainerContents] only reads: the world is as it was, each content
    is looked up once, in the order of the contents, and the actor passed in
    plays no part.  Every cell of the grid is an 'Item' cell built from a
    content that resolved, and its quantity is never zero. *)
Theorem getContainerContents_reads_only (w : World) (container : Item)
    (actor : option string) :
  let contents := default [] (item_system container ≫= sys_contents) in
  let r := run (getContainerContents (Some container) actor) w in
  world_of r = w
  ∧ trace_of r = map (λ c, FromUuid (content_ref c)) contents
  ∧ r = run (getContainerContents (Some container) None) w
  ∧ ∀ grid items key cell,
      outcome r = Ret grid → grid_items grid = Some items → items !! key = Some cell →
      cell_type cell = "Item"
      ∧ ∃ item extra,
          item ∈ resolved_contents w contents ∧ cell = container_cell item
          ∧ cell_extra cell = Some extra ∧ cx_quantity extra ≠ 0%Z.
Proof.
  intros contents. cbn zeta.
  unfold getContainerContents, run, world_of, trace_of, outcome. fold contents.
  rewrite !(bind_run _ _ _ _ _ (container_loop_run w contents ∅ 0 [])).
  rewrite !run_ret. cbn [fst snd st_world st_trace].
  split; [done|]. split; [done|]. split; [done|].
  intros grid items key cell [= <-] [= <-] Hk.
  apply fill_slots_elem in Hk as [Hin|Hk]; [|by rewrite lookup_empty in Hk].
  apply list_elem_of_fmap in Hin as (item & -> & Hin).
  split; [done|]. exists item. eexists. split; [done|]. split; [done|].
  split; [reflexivity|]. cbn. unfold num_or.
  destruct (item_system item ≫= sys_quantity) as [q|]; [|done].
  by destruct (Z.eqb_spec q 0).
Qed.

(** ** Runs of the added statements on the sample worlds *)

Lemma onCellClick_other_cells_witness :
  trace_of (run (onCellClick quiet_host (Some lost_macro)) table_world)
  = [ConsoleLog "D&D 5e Adapter | Cell clicked:";
     FromUuid (ContentUuid "Macro.gone0000");
     NotifyWarn "bg3-hud-dnd5e.Notifications.MacroNotFound"].
Proof.
  destruct (onCellClick_other_cells quiet_host table_world lost_macro)
    as (_ & _ & _ & _ & Hmacro & _); [discriminate|].
  specialize (Hmacro eq_refl).
  change (resolve_uuid table_world (cell_uuid lost_macro)) with (@None Item) in Hmacro.
  by rewrite Hmacro.
Defined.

Lemma handleRollAdvantage_other_rolls_witness :
  outcome (run (handleRollAdvantage quiet_host (Some other_roll)) table_world)
  = Ret (Some other_roll).
Proof.
  destruct (handleRollAdvantage_other_rolls quiet_host table_world (Some other_roll))
    as (Hout & _); [|exact Hout].
  right. right. right. discriminate.
Defined.

Lemma initializeDefaultActions_keeps_selection_witness :
  world_of (run initializeDefaultActions filtering_world) = filtering_world.
Proof.
  destruct (initializeDefaultActions_keeps_selection filtering_world modern_config)
    as (_ & Hsame & _); [reflexivity| |exact Hsame].
  right. exists (item_uuid dash), [item_uuid help]. reflexivity.
Defined.

Lemma initializeDefaultActions_stores_defaults_witness :
  list_settings (world_of (run initializeDefaultActions unselected_world))
    !! "selectedCPRActionsModern"
  = Some [ "Compendium.chris-premades.CPRActions2024.Item.dash0000";
           "Compendium.chris-premades.CPRActions2024.Item.dodge000";
           "Compendium.chris-premades.CPRActions2024.Item.help0000" ].
Proof.
  destruct (initializeDefaultActions_stores_defaults unselected_world modern_config
              [("dash0000", "Dash"); ("help0000", "Help"); ("shove000", "Shove");
               ("dodge000", "Dodge")])
    as (_ & _ & _ & _ & Hstore & _).
  - apply (bool_decide_unpack _). vm_compute. exact I.
  - reflexivity.
  - reflexivity.
  - reflexivity.
  - destruct Hstore as (_ & Hkey & _); [discriminate|]. exact Hkey.
Defined.

Lemma bg3HudReady_outcome_witness :
  advantageHooksRegistered (world_of (run bg3HudReady table_world)) = true
  ∧ tooltip_manager (world_of (run bg3HudReady table_world))
    = Some {| tooltipElement := Some "tooltip" |}
  ∧ run bg3HudReady coreless_world
    = (Throw (HostError "import failed"),
       {| st_world := coreless_world;
          st_trace :=
            [ ConsoleLog "BG3 HUD D&D 5e | Received bg3HudReady hook";
              HandlebarsHelper "contains";
              Fetch "modules/bg3-hud-dnd5e/templates/tooltips/weapon-block.hbs";
              HandlebarsPartial "bg3-hud-dnd5e.weapon-block";
              ConsoleLog "BG3 HUD D&D 5e | Registering D&D 5e components";
              ImportScript
                "/modules/bg3-hud-core/scripts/components/containers/PortraitContainer.js";
              ImportScript
                "/modules/bg3-hud-core/scripts/components/containers/PassivesContainer.js"
            ] |}).
Proof.
  destruct (bg3HudReady_outcome table_world eq_refl) as (_ & _ & Hok).
  destruct (Hok eq_refl) as (_ & Hreg & Htip & _).
  { intros path Hin. apply (bool_decide_unpack _). vm_compute. exact I. }
  split; [exact Hreg|]. split.
  - apply (Htip {| tooltipElement := Some "bg3-tooltip" |}); [reflexivity|].
    by exists "bg3-tooltip".
  - destruct (bg3HudReady_outcome coreless_world eq_refl) as (_ & Hbroken & _).
    destruct (Hbroken eq_refl) as (Hrun & _); [|exact Hrun].
    exists "/modules/bg3-hud-core/scripts/components/containers/PassivesContainer.js".
    split; apply (bool_decide_unpack _); vm_compute; exact I.
Defined.

Lemma cpr_hooks_keep_filled_grid_witness :
  world_of (run (onTokenCreation quiet_host (Some "hero")) stocked_world) = stocked_world
  ∧ saves (trace_of (run (onTokenChange quiet_host (Some "hero")) stocked_world)) = [].
Proof.
  destruct (cpr_hooks_keep_filled_grid quiet_host stocked_world "hero")
    as ((Hw & _) & (_ & Hs)); [vm_compute; lia|].
  split; [exact Hw|exact Hs].
Defined.

Lemma module_hooks_keep_filled_grid_witness :
  trace_of (run (createToken_hook quiet_host player (Some "hero") "user0002")
                stocked_world) = []
  ∧ world_of (run (tokenChanged_hook quiet_host (Some "hero")) stocked_world)
    = stocked_world.
Proof.
  destruct (module_hooks_keep_filled_grid quiet_host stocked_world player "hero" "user0002")
    as ((_ & _ & Hidle) & (Hw & _)); [vm_compute; lia|].
  split; [|exact Hw]. apply Hidle; [reflexivity|discriminate].
Defined.

Lemma populateQuickAccessWithCPRActions_layout_witness :
  ∃ items,
    saves (trace_of (run (populateQuickAccessWithCPRActions quiet_host (Some "hero")
                            (Some chosen_actions)) table_world))
    = [("hero", {| hs_quickAccess := Some (Some
                     [ {| grid_rows := 2; grid_cols := 3;
                          grid_items := Some items |} ]) |})]
    ∧ size items = 4%nat
    ∧ items !! "0-1"
      = Some {| cell_uuid := "Compendium.chris-premades.CPRActions2024.Item.dodge000";
                cell_type := "Item"; cell_extra := None |}.
Proof.
  destruct (populateQuickAccessWithCPRActions_layout quiet_host table_world "hero"
              chosen_actions {| grid_rows := 2; grid_cols := 3; grid_items := Some ∅ |} [])
    as (_ & _ & items & Hsave & Hsize & Hslots).
  - discriminate.
  - reflexivity.
  - reflexivity.
  - reflexivity.
  - cbn. lia.
  - exists items. split; [exact Hsave|]. split; [exact Hsize|].
    apply (Hslots 3%nat (item_uuid dodge)); [lia|reflexivity].
Defined.

Lemma populate_versions_agree_witness :
  saves (trace_of (run (populateQuickAccess quiet_host (Some "hero") (Some sorted_actions))
                       table_world))
  = saves (trace_of (run (populateQuickAccessWithCPRActions quiet_host (Some "hero")
                            (Some sorted_actions)) table_world)).
Proof.
  destruct (populate_versions_agree quiet_host table_world "hero" sorted_actions)
    as (_ & _ & Hsaves); [vm_compute; reflexivity|exact Hsaves].
Defined.

Lemma shouldBlockFromHotbar_gate_witness :
  outcome (run (shouldBlockFromHotbar (Some dash_view)) table_world) = Ret not_blocked.
Proof.
  destruct (shouldBlockFromHotbar_gate table_world (Some dash_view)) as (_ & _ & _ & Hoff).
  apply Hoff. right. left. reflexivity.
Defined.

Lemma shouldBlockFromHotbar_blocks_cpr_actions_witness :
  outcome (run (shouldBlockFromHotbar (Some dash_view)) filtering_world) = Ret is_blocked.
Proof.
  apply (shouldBlockFromHotbar_blocks_cpr_actions quiet_host filtering_world filtering_world
           modern_config
           [("dash0000", "Dash"); ("help0000", "Help"); ("shove000", "Shove");
            ("dodge000", "Dodge")]).
  - reflexivity.
  - apply (bool_decide_unpack _). vm_compute. exact I.
  - reflexivity.
  - left. apply (bool_decide_unpack _). vm_compute. exact I.
Defined.

Lemma shouldBlockFromHotbar_blocks_selected_copy_witness :
  outcome (run (shouldBlockFromHotbar (Some imported_dash)) filtering_world)
  = Ret is_blocked.
Proof.
  apply (shouldBlockFromHotbar_blocks_selected_copy filtering_world imported_dash
           modern_config [item_uuid dash; item_uuid help]
           "Compendium." "2024.Item" "Compendium.chris-premades.CPRActions2024.Item"
           "dash0000").
  - reflexivity.
  - apply (bool_decide_unpack _). vm_compute. exact I.
  - reflexivity.
  - reflexivity.
  - reflexivity.
  - reflexivity.
  - apply (bool_decide_unpack _). vm_compute. exact I.
Defined.

Lemma shouldBlockFromHotbar_passes_own_items_witness :
  outcome (run (shouldBlockFromHotbar (Some sword_view)) filtering_world)
  = Ret not_blocked.
Proof.
  apply (shouldBlockFromHotbar_passes_own_items filtering_world sword_view
           "hero.Item.sword000"); reflexivity.
Defined.

Lemma transformItemToCellData_cell_witness :
  ∃ cell,
    outcome (run (transformItemToCellData sign_digit (Some wand)) table_world)
    = Ret (Some cell)
    ∧ hc_quantity cell = Some 2%Z ∧ hc_uses cell = Some (4%Z, 7%Z).
Proof.
  destruct (transformItemToCellData_cell sign_digit table_world wand)
    as (_ & _ & _ & cell & Hcell & _ & _ & _ & _ & Hq & _ & _ & _ & Hu).
  exists cell. split; [exact Hcell|]. split.
  - apply Hq. split; [reflexivity|discriminate].
  - destruct (Hu {| uv_max := Some (QArith_base.Qmake 15 2);
                    uv_spent := Some (QArith_base.Qmake 3 1) |}
                 (QArith_base.Qmake 15 2) eq_refl eq_refl) as (_ & _ & Hspent).
    + split; [discriminate|reflexivity].
    + apply (Hspent (QArith_base.Qmake 3 1) eq_refl). split; [discriminate|reflexivity].
Defined.

Lemma isContainer_lookup_witness :
  outcome (run (isContainer (Some (container_cell backpack)))
               (with_actors (λ _, [ {| actor_id := "hero"; actor_name := "Hero";
                                       actor_items := [backpack]; actor_flags := ∅;
                                       actor_has_shortRest := true;
                                       actor_has_longRest := true |} ])
                            table_world))
  = Ret true.
Proof.
  destruct (isContainer_lookup
              (with_actors (λ _, [ {| actor_id := "hero"; actor_name := "Hero";
                                      actor_items := [backpack]; actor_flags := ∅;
                                      actor_has_shortRest := true;
                                      actor_has_longRest := true |} ])
                           table_world)
              None) as (_ & _ & _ & Hcell).
  apply (Hcell backpack); [discriminate|reflexivity].
Defined.

Lemma render_button_iff_visible_witness :
  ∃ el,
    outcome (run (render hero_container) filtering_world)
    = Ret {| ga_actor := Some "hero"; ga_element := Some el |}
    ∧ el_children el = [generic_actions_button]
    ∧ el_bg3Ui el = Some "true".
Proof.
  destruct (render_button_iff_visible filtering_world hero_container)
    as (_ & _ & el & Hout & _ & Hchildren & Hnew & _).
  exists el. split; [exact Hout|]. split; [exact Hchildren|].
  destruct (Hnew eq_refl) as [Hui _]. exact Hui.
Defined.

Lemma update_changes_display_only_witness :
  run (update hero_container) filtering_world = run (render hero_container) filtering_world.
Proof.
  destruct (update_changes_display_only filtering_world hero_container) as (Hnone & _).
  exact (Hnone eq_refl).
Defined.

Lemma update_after_hidden_render_witness :
  ∃ el,
    outcome (run (update {| ga_actor := Some "hero";
                            ga_element :=
                              Some {| el_classes := ["bg3-cpr-generic-actions-container"];
                                      el_bg3Ui := Some "true";
                                      el_display := Some DisplayNone;
                                      el_children := [] |} |}) filtering_world)
    = Ret {| ga_actor := Some "hero"; ga_element := Some el |}
    ∧ el_display el = Some DisplayFlex ∧ el_children el = [].
Proof.
  destruct (update_after_hidden_render table_world filtering_world hero_container
              {| ga_actor := Some "hero";
                 ga_element :=
                   Some {| el_classes := ["bg3-cpr-generic-actions-container"];
                           el_bg3Ui := Some "true";
                           el_display := Some DisplayNone;
                           el_children := [] |} |})
    as (Hupdate & _).
  - reflexivity.
  - reflexivity.
  - reflexivity.
  - exact Hupdate.
Defined.

Lemma selection_dialog_invariant_witness :
  ∃ this result,
    run (gestures [ClickRow 1; ClickCheckbox 2; ClickRow 3; ClickRow 5; ClickRow 6;
                   ClickCheckbox 7; ClickRow 0]
                  (open_dialog (Some stored_selection) offered)) table_world
    = (Ret this, {| st_world := table_world; st_trace := [] |})
    ∧ _onConfirm this = Some result
    ∧ (length result ≤ 6)%nat
    ∧ "Compendium.chris-premades.CPRActions2024.Item.gone0000" ∈ result.
Proof.
  destruct (selection_dialog_invariant (Some stored_selection) offered
              [ClickRow 1; ClickCheckbox 2; ClickRow 3; ClickRow 5; ClickRow 6;
               ClickCheckbox 7; ClickRow 0] table_world)
    as (this & result & Hrun & _ & _ & Hres & _ & Hlen & Hstale & _).
  - apply (bool_decide_unpack _). vm_compute. exact I.
  - exists this, result. split; [exact Hrun|]. split; [exact Hres|]. split.
    + exact Hlen.
    + apply Hstale.
      * apply (bool_decide_unpack _). vm_compute. exact I.
      * apply (bool_decide_unpack _). vm_compute. exact I.
Defined.

Lemma onCheckboxChange_caps_selection_witness :
  ∃ this',
    outcome (run (_onCheckboxChange 0
                    {| selectedActions := ["a"; "b"; "c"; "d"; "e"; "f"];
                       checkboxes := [ {| cb_itemId := "g"; cb_checked := true;
                                          cb_disabled := false |} ];
                       counter := Some 6%nat |}) table_world)
    = Ret this'
    ∧ (length (selectedActions this') ≤ 6)%nat
    ∧ ∀ cb, cb ∈ checkboxes this' →
        cb_disabled cb
        = negb (cb_checked cb)
          && (MAX_SELECTIONS <=? length (selectedActions this'))%nat.
Proof.
  destruct (onCheckboxChange_caps_selection
              {| selectedActions := ["a"; "b"; "c"; "d"; "e"; "f"];
                 checkboxes := [ {| cb_itemId := "g"; cb_checked := true;
                                    cb_disabled := false |} ];
                 counter := Some 6%nat |} 0 table_world)
    as (_ & this' & Hout & Hlen & Hboxes & _).
  exists this'. split; [exact Hout|]. split; [exact Hlen|].
  apply Hboxes. by eexists.
Defined.

Lemma click_row_twice_restores_witness :
  run (gestures [ClickRow 2; ClickRow 2] (open_dialog (Some stored_selection) offered))
      table_world
  = (Ret (open_dialog (Some stored_selection) offered),
     {| st_world := table_world; st_trace := [] |}).
Proof.
  apply (click_row_twice_restores (open_dialog (Some stored_selection) offered) 2
           {| cb_itemId := "Compendium.chris-premades.CPRActions2024.Item.dodge000";
              cb_checked := false; cb_disabled := false |}).
  - apply open_dialog_consistent. apply (bool_decide_unpack _). vm_compute. exact I.
  - reflexivity.
  - reflexivity.
  - reflexivity.
Defined.

Lemma buildPortraitMenu_shape_witness :
  ∃ items,
    outcome (run (buildPortraitMenu hero_portrait) table_world) = Ret items
    ∧ map mi_key items = ["token"; "scaleWithToken"; "portrait"].
Proof.
  destruct (buildPortraitMenu_shape table_world hero_portrait "hero" eq_refl)
    as (_ & _ & _ & items & Hout & Hkeys & _).
  exists items. split; [exact Hout|exact Hkeys].
Defined.

Lemma buildPortraitMenu_clicks_witness :
  flag_or (flag_of (world_of (run (setFlag "hero" "useTokenImage" (FBool false))
                                  table_world))
                   "hero" "useTokenImage")
          true = false.
Proof.
  pose (token :=
    {| mi_key := "token"; mi_label := "bg3-hud-dnd5e.Menu.UseTokenImage";
       mi_icon := "fas fa-check"; mi_title := None; mi_onClick := mret tt |}).
  pose (scale :=
    {| mi_key := "scaleWithToken"; mi_label := "bg3-hud-dnd5e.Menu.ScaleWithToken";
       mi_icon := "fas fa-up-right-and-down-left-from-center";
       mi_title := Some "bg3-hud-dnd5e.Menu.ScaleWithTokenHint";
       mi_onClick := setFlag "hero" "scaleWithToken" (FBool true) |}).
  pose (portrait :=
    {| mi_key := "portrait"; mi_label := "bg3-hud-dnd5e.Menu.UseCharacterPortrait";
       mi_icon := "fas fa-user"; mi_title := None;
       mi_onClick := setFlag "hero" "useTokenImage" (FBool false) |}).
  destruct (buildPortraitMenu_clicks table_world hero_portrait "hero"
              [token; scale; portrait] portrait eq_refl)
    as (_ & _ & _ & Hportrait & _).
  - by exists hero.
  - reflexivity.
  - do 2 apply list_elem_of_further. apply list_elem_of_here.
  - exact (Hportrait eq_refl).
Defined.

Lemma onClick_keeps_item_witness :
  (let r := run (_onClick quiet_host (Some "hero")) equipped_world in
   outcome r = Ret tt ∧ creations (trace_of r) = []
   ∧ uses (trace_of r) = [own_generic_actions])
  ∧ (let r := run (_onClick quiet_host (Some "hero")) premades_world in
     outcome r = Ret tt
     ∧ build_embedded premades_world "hero" (delete_id (item_source generic_actions))
       ∈ items_of (world_of r) "hero")
  ∧ (let r := run (_onClick failing_host (Some "hero")) equipped_world in
     outcome r = Ret tt
     ∧ forallb no_delete (trace_of r) = true
     ∧ List.filter is_notification (trace_of r)
       = [NotifyError "bg3-hud-dnd5e.Notifications.CPRGenericActionsError"])
  ∧ (let r := run (_onClick failing_host (Some "hero")) premades_world in
     outcome r = Ret tt
     ∧ List.filter is_notification (trace_of r)
       = [NotifyError "bg3-hud-dnd5e.Notifications.CPRGenericActionsError"]).
Proof.
  split; [|split; [|split]].
  - destruct (onClick_keeps_item quiet_host equipped_world "hero")
      as (_ & Hout & Hown & _).
    destruct (Hown own_generic_actions eq_refl) as (Hcr & _ & Hused).
    split; [exact Hout|]. split; [exact Hcr|exact Hused].
  - destruct (onClick_keeps_item quiet_host premades_world "hero")
      as (_ & Hout & _ & Hkept & _).
    split; [exact Hout|].
    exact (Hkept (ContentUuid CPR_GENERIC_ACTIONS_UUIDS_modern) generic_actions
             eq_refl eq_refl eq_refl eq_refl (ex_intro _ hero eq_refl)
             (λ _ _, eq_refl)).
  - destruct (onClick_keeps_item failing_host equipped_world "hero")
      as (Hnodel & Hout & _ & _ & Hfails & _).
    destruct (Hfails own_generic_actions (HostError "use failed") eq_refl eq_refl eq_refl)
      as (_ & Hnote).
    split; [exact Hout|]. split; [exact Hnodel|exact Hnote].
  - destruct (onClick_keeps_item failing_host premades_world "hero")
      as (_ & Hout & _ & _ & _ & Hfails & _).
    destruct (Hfails (ContentUuid CPR_GENERIC_ACTIONS_UUIDS_modern) generic_actions
                (HostError "use failed") eq_refl eq_refl eq_refl eq_refl eq_refl eq_refl)
      as (_ & Hnote).
    split; [exact Hout|exact Hnote].
Defined.

Lemma getContainerContents_reads_only_witness :
  trace_of (run (getContainerContents (Some backpack) (Some "hero")) table_world)
  = [ FromUuid (ContentUuid (item_uuid dash));
      FromUuid (ContentDoc None);
      FromUuid (ContentUuid "Compendium.missing.Item.none0000");
      FromUuid (ContentUuid (item_uuid help)) ].
Proof.
  destruct (getContainerContents_reads_only table_world backpack (Some "hero"))
    as (_ & Htrace & _).
  exact Htrace.
Defined.

Lemma token_handlers_delegate_witness :
  run (createToken_delegate quiet_host player true (Some "hero") "user0002") table_world
  = (Ret tt, {| st_world := table_world; st_trace := [] |})
  ∧ world_of (run (tokenChanged_delegate quiet_host true (Some "hero")) stocked_world)
    = stocked_world.
Proof.
  split.
  - destruct (token_handlers_delegate quiet_host table_world player true (Some "hero")
                "user0002") as (_ & _ & _ & Hidle & _).
    apply Hidle; [reflexivity|discriminate].
  - destruct (token_handlers_delegate quiet_host stocked_world player true (Some "hero")
                "user0002") as (_ & _ & _ & _ & Hfilled).
    destruct (Hfilled "hero" eq_refl) as (_ & _ & Hw & _); [vm_compute; lia|].
    exact Hw.
Defined.
